(** * Excel Link Manager: matching engine, reconciliation and export

    A shallow embedding of the TypeScript sources
    ([services/matcher.ts], [App.tsx], [services/excelHelper.ts],
    [types.ts]) together with the properties the specification states
    about them.

    Conventions of the embedding:
    - a JavaScript string is the list of its UTF-16 code units ([N]);
    - a JavaScript [number] holding a score is a binary64 float
      (Rocq's primitive floats are IEEE 754 binary64, as [number] is);
    - a value that may be [undefined] is an [option];
    - the objects [reconcileFiles] mutates in place live in an explicit
      store indexed by references, so that aliasing is represented. *)

From Stdlib Require Import Floats.
From Stdlib Require Import ZArith NArith List String Ascii Bool Lia.
From Stdlib Require Import Sorted.
From stdpp Require Import pmap gmap.
Import ListNotations.

Set Warnings "-inexact-float".
Local Open Scope N_scope.

(** ** JavaScript strings *)

Abbreviation jsstring := (list N).

(** An ASCII literal as a JavaScript string. *)
Definition js (s : string) : jsstring :=
  List.map N_of_ascii (list_ascii_of_string s).

Definition jsstring_eqb (a b : jsstring) : bool :=
  if decide (a = b) then true else false.

Definition inRange (lo hi c : N) : bool := (lo <=? c) && (c <=? hi).

(** [\d] *)
Definition isDigit (c : N) : bool := inRange 48 57 c.

(** [\w] is [[A-Za-z0-9_]] (no [i] or [u] flag is used anywhere). *)
Definition isWordChar (c : N) : bool :=
  inRange 97 122 c || inRange 65 90 c || isDigit c || (c =? 95).

(** [[\W_]] *)
Definition isNonWordOrUnderscore (c : N) : bool :=
  negb (isWordChar c) || (c =? 95).

(** [\s], which is also the set [String.prototype.trim] strips:
    WhiteSpace and LineTerminator of ECMAScript. *)
Definition isSpace (c : N) : bool :=
  inRange 9 13 c || (c =? 32) || (c =? 160) || (c =? 5760)
  || inRange 8192 8202 c || (c =? 8232) || (c =? 8233) || (c =? 8239)
  || (c =? 8287) || (c =? 12288) || (c =? 65279).

(** [String.prototype.trim] *)
Fixpoint trimStart (s : jsstring) : jsstring :=
  match s with
  | c :: t => if isSpace c then trimStart t else s
  | [] => []
  end.

Definition trim (s : jsstring) : jsstring :=
  rev (trimStart (rev (trimStart s))).

(** [String.prototype.includes]: [needle] occurs in [hay] as a
    contiguous substring. *)
Fixpoint isPrefixOf (p s : jsstring) : bool :=
  match p, s with
  | [], _ => true
  | a :: p', b :: s' => (a =? b) && isPrefixOf p' s'
  | _ :: _, [] => false
  end.

Fixpoint includes (hay needle : jsstring) : bool :=
  isPrefixOf needle hay ||
  match hay with
  | [] => false
  | _ :: t => includes t needle
  end.

(** [s.split(sep)] for a separator that matches exactly one code unit
    of the class [sep] (the string ['.'] or the regular expression
    [[\/\-\.\s]]): every separator cuts, adjacent separators leave an
    empty piece, and the result always has at least one piece. *)
Fixpoint splitAt (sep : N -> bool) (cur : jsstring) (s : jsstring)
  : list jsstring :=
  match s with
  | [] => [cur]
  | c :: t => if sep c then cur :: splitAt sep [] t
              else splitAt sep (cur ++ [c]) t
  end.

Definition split (sep : N -> bool) (s : jsstring) : list jsstring :=
  splitAt sep [] s.

(** [s.split(/\s+/)]: each maximal run of the class is one separator. *)
Fixpoint splitRunsAt (sep : N -> bool) (cur : jsstring) (inRun : bool)
  (s : jsstring) : list jsstring :=
  match s with
  | [] => [cur]
  | c :: t =>
      if sep c then
        if inRun then splitRunsAt sep [] true t
        else cur :: splitRunsAt sep [] true t
      else splitRunsAt sep (cur ++ [c]) false t
  end.

Definition splitRuns (sep : N -> bool) (s : jsstring) : list jsstring :=
  splitRunsAt sep [] false s.

(** [s.replace(/[cls]+/g, ' ')]: each maximal run becomes one space. *)
Fixpoint collapseRunsAt (cls : N -> bool) (inRun : bool) (s : jsstring)
  : jsstring :=
  match s with
  | [] => []
  | c :: t =>
      if cls c then
        if inRun then collapseRunsAt cls true t
        else 32 :: collapseRunsAt cls true t
      else c :: collapseRunsAt cls false t
  end.

Definition collapseRuns (cls : N -> bool) (s : jsstring) : jsstring :=
  collapseRunsAt cls false s.

(** [s.replace(/[cls]/g, '')] and [s.replace(/[cls]+/g, '')]: every
    code unit of the class is dropped. *)
Definition removeAll (cls : N -> bool) (s : jsstring) : jsstring :=
  List.filter (fun c => negb (cls c)) s.

(** [Array.prototype.pop] on the (never empty) result of [split]. *)
Definition pop (l : list jsstring) : jsstring := List.last l [].

(** [s.padStart(2, '0')] *)
Definition padStart2 (s : jsstring) : jsstring :=
  List.repeat 48 (2 - List.length s) ++ s.

(** [a.join(", ")] *)
Fixpoint join (sep : jsstring) (l : list jsstring) : jsstring :=
  match l with
  | [] => []
  | [x] => x
  | x :: rest => x ++ sep ++ join sep rest
  end.

(** ** The platform's case conversion and canonical decomposition

    [toLowerCase] and [normalize] to NFD are built-ins driven by the
    Unicode Character Database.  The tables below are those of Unicode
    14.0: the simple lowercase mappings of UnicodeData.txt, the
    canonical decompositions (fully expanded, Hangul syllables apart),
    the non-zero canonical combining classes, and the two derived
    properties the Final_Sigma condition of SpecialCasing.txt reads.
    Code points that no table lists map to themselves and have
    combining class 0. *)

(** Simple lowercase mapping, one pair per code point that has one. *)
Definition simpleLowercase : list (N * N) :=
  [
    (65, 97); (66, 98); (67, 99); (68, 100); (69, 101); (70, 102); (71, 103);
    (72, 104); (73, 105); (74, 106); (75, 107); (76, 108); (77, 109);
    (78, 110); (79, 111); (80, 112); (81, 113); (82, 114); (83, 115);
    (84, 116); (85, 117); (86, 118); (87, 119); (88, 120); (89, 121);
    (90, 122); (192, 224); (193, 225); (194, 226); (195, 227); (196, 228);
    (197, 229); (198, 230); (199, 231); (200, 232); (201, 233); (202, 234);
    (203, 235); (204, 236); (205, 237); (206, 238); (207, 239); (208, 240);
    (209, 241); (210, 242); (211, 243); (212, 244); (213, 245); (214, 246);
    (216, 248); (217, 249); (218, 250); (219, 251); (220, 252); (221, 253);
    (222, 254); (256, 257); (258, 259); (260, 261); (262, 263); (264, 265);
    (266, 267); (268, 269); (270, 271); (272, 273); (274, 275); (276, 277);
    (278, 279); (280, 281); (282, 283); (284, 285); (286, 287); (288, 289);
    (290, 291); (292, 293); (294, 295); (296, 297); (298, 299); (300, 301);
    (302, 303); (304, 105); (306, 307); (308, 309); (310, 311); (313, 314);
    (315, 316); (317, 318); (319, 320); (321, 322); (323, 324); (325, 326);
    (327, 328); (330, 331); (332, 333); (334, 335); (336, 337); (338, 339);
    (340, 341); (342, 343); (344, 345); (346, 347); (348, 349); (350, 351);
    (352, 353); (354, 355); (356, 357); (358, 359); (360, 361); (362, 363);
    (364, 365); (366, 367); (368, 369); (370, 371); (372, 373); (374, 375);
    (376, 255); (377, 378); (379, 380); (381, 382); (385, 595); (386, 387);
    (388, 389); (390, 596); (391, 392); (393, 598); (394, 599); (395, 396);
    (398, 477); (399, 601); (400, 603); (401, 402); (403, 608); (404, 611);
    (406, 617); (407, 616); (408, 409); (412, 623); (413, 626); (415, 629);
    (416, 417); (418, 419); (420, 421); (422, 640); (423, 424); (425, 643);
    (428, 429); (430, 648); (431, 432); (433, 650); (434, 651); (435, 436);
    (437, 438); (439, 658); (440, 441); (444, 445); (452, 454); (453, 454);
    (455, 457); (456, 457); (458, 460); (459, 460); (461, 462); (463, 464);
    (465, 466); (467, 468); (469, 470); (471, 472); (473, 474); (475, 476);
    (478, 479); (480, 481); (482, 483); (484, 485); (486, 487); (488, 489);
    (490, 491); (492, 493); (494, 495); (497, 499); (498, 499); (500, 501);
    (502, 405); (503, 447); (504, 505); (506, 507); (508, 509); (510, 511);
    (512, 513); (514, 515); (516, 517); (518, 519); (520, 521); (522, 523);
    (524, 525); (526, 527); (528, 529); (530, 531); (532, 533); (534, 535);
    (536, 537); (538, 539); (540, 541); (542, 543); (544, 414); (546, 547);
    (548, 549); (550, 551); (552, 553); (554, 555); (556, 557); (558, 559);
    (560, 561); (562, 563); (570, 11365); (571, 572); (573, 410);
    (574, 11366); (577, 578); (579, 384); (580, 649); (581, 652); (582, 583);
    (584, 585); (586, 587); (588, 589); (590, 591); (880, 881); (882, 883);
    (886, 887); (895, 1011); (902, 940); (904, 941); (905, 942); (906, 943);
    (908, 972); (910, 973); (911, 974); (913, 945); (914, 946); (915, 947);
    (916, 948); (917, 949); (918, 950); (919, 951); (920, 952); (921, 953);
    (922, 954); (923, 955); (924, 956); (925, 957); (926, 958); (927, 959);
    (928, 960); (929, 961); (931, 963); (932, 964); (933, 965); (934, 966);
    (935, 967); (936, 968); (937, 969); (938, 970); (939, 971); (975, 983);
    (984, 985); (986, 987); (988, 989); (990, 991); (992, 993); (994, 995);
    (996, 997); (998, 999); (1000, 1001); (1002, 1003); (1004, 1005);
    (1006, 1007); (1012, 952); (1015, 1016); (1017, 1010); (1018, 1019);
    (1021, 891); (1022, 892); (1023, 893); (1024, 1104); (1025, 1105);
    (1026, 1106); (1027, 1107); (1028, 1108); (1029, 1109); (1030, 1110);
    (1031, 1111); (1032, 1112); (1033, 1113); (1034, 1114); (1035, 1115);
    (1036, 1116); (1037, 1117); (1038, 1118); (1039, 1119); (1040, 1072);
    (1041, 1073); (1042, 1074); (1043, 1075); (1044, 1076); (1045, 1077);
    (1046, 1078); (1047, 1079); (1048, 1080); (1049, 1081); (1050, 1082);
    (1051, 1083); (1052, 1084); (1053, 1085); (1054, 1086); (1055, 1087);
    (1056, 1088); (1057, 1089); (1058, 1090); (1059, 1091); (1060, 1092);
    (1061, 1093); (1062, 1094); (1063, 1095); (1064, 1096); (1065, 1097);
    (1066, 1098); (1067, 1099); (1068, 1100); (1069, 1101); (1070, 1102);
    (1071, 1103); (1120, 1121); (1122, 1123); (1124, 1125); (1126, 1127);
    (1128, 1129); (1130, 1131); (1132, 1133); (1134, 1135); (1136, 1137);
    (1138, 1139); (1140, 1141); (1142, 1143); (1144, 1145); (1146, 1147);
    (1148, 1149); (1150, 1151); (1152, 1153); (1162, 1163); (1164, 1165);
    (1166, 1167); (1168, 1169); (1170, 1171); (1172, 1173); (1174, 1175);
    (1176, 1177); (1178, 1179); (1180, 1181); (1182, 1183); (1184, 1185);
    (1186, 1187); (1188, 1189); (1190, 1191); (1192, 1193); (1194, 1195);
    (1196, 1197); (1198, 1199); (1200, 1201); (1202, 1203); (1204, 1205);
    (1206, 1207); (1208, 1209); (1210, 1211); (1212, 1213); (1214, 1215);
    (1216, 1231); (1217, 1218); (1219, 1220); (1221, 1222); (1223, 1224);
    (1225, 1226); (1227, 1228); (1229, 1230); (1232, 1233); (1234, 1235);
    (1236, 1237); (1238, 1239); (1240, 1241); (1242, 1243); (1244, 1245);
    (1246, 1247); (1248, 1249); (1250, 1251); (1252, 1253); (1254, 1255);
    (1256, 1257); (1258, 1259); (1260, 1261); (1262, 1263); (1264, 1265);
    (1266, 1267); (1268, 1269); (1270, 1271); (1272, 1273); (1274, 1275);
    (1276, 1277); (1278, 1279); (1280, 1281); (1282, 1283); (1284, 1285);
    (1286, 1287); (1288, 1289); (1290, 1291); (1292, 1293); (1294, 1295);
    (1296, 1297); (1298, 1299); (1300, 1301); (1302, 1303); (1304, 1305);
    (1306, 1307); (1308, 1309); (1310, 1311); (1312, 1313); (1314, 1315);
    (1316, 1317); (1318, 1319); (1320, 1321); (1322, 1323); (1324, 1325);
    (1326, 1327); (1329, 1377); (1330, 1378); (1331, 1379); (1332, 1380);
    (1333, 1381); (1334, 1382); (1335, 1383); (1336, 1384); (1337, 1385);
    (1338, 1386); (1339, 1387); (1340, 1388); (1341, 1389); (1342, 1390);
    (1343, 1391); (1344, 1392); (1345, 1393); (1346, 1394); (1347, 1395);
    (1348, 1396); (1349, 1397); (1350, 1398); (1351, 1399); (1352, 1400);
    (1353, 1401); (1354, 1402); (1355, 1403); (1356, 1404); (1357, 1405);
    (1358, 1406); (1359, 1407); (1360, 1408); (1361, 1409); (1362, 1410);
    (1363, 1411); (1364, 1412); (1365, 1413); (1366, 1414); (4256, 11520);
    (4257, 11521); (4258, 11522); (4259, 11523); (4260, 11524); (4261, 11525);
    (4262, 11526); (4263, 11527); (4264, 11528); (4265, 11529); (4266, 11530);
    (4267, 11531); (4268, 11532); (4269, 11533); (4270, 11534); (4271, 11535);
    (4272, 11536); (4273, 11537); (4274, 11538); (4275, 11539); (4276, 11540);
    (4277, 11541); (4278, 11542); (4279, 11543); (4280, 11544); (4281, 11545);
    (4282, 11546); (4283, 11547); (4284, 11548); (4285, 11549); (4286, 11550);
    (4287, 11551); (4288, 11552); (4289, 11553); (4290, 11554); (4291, 11555);
    (4292, 11556); (4293, 11557); (4295, 11559); (4301, 11565); (5024, 43888);
    (5025, 43889); (5026, 43890); (5027, 43891); (5028, 43892); (5029, 43893);
    (5030, 43894); (5031, 43895); (5032, 43896); (5033, 43897); (5034, 43898);
    (5035, 43899); (5036, 43900); (5037, 43901); (5038, 43902); (5039, 43903);
    (5040, 43904); (5041, 43905); (5042, 43906); (5043, 43907); (5044, 43908);
    (5045, 43909); (5046, 43910); (5047, 43911); (5048, 43912); (5049, 43913);
    (5050, 43914); (5051, 43915); (5052, 43916); (5053, 43917); (5054, 43918);
    (5055, 43919); (5056, 43920); (5057, 43921); (5058, 43922); (5059, 43923);
    (5060, 43924); (5061, 43925); (5062, 43926); (5063, 43927); (5064, 43928);
    (5065, 43929); (5066, 43930); (5067, 43931); (5068, 43932); (5069, 43933);
    (5070, 43934); (5071, 43935); (5072, 43936); (5073, 43937); (5074, 43938);
    (5075, 43939); (5076, 43940); (5077, 43941); (5078, 43942); (5079, 43943);
    (5080, 43944); (5081, 43945); (5082, 43946); (5083, 43947); (5084, 43948);
    (5085, 43949); (5086, 43950); (5087, 43951); (5088, 43952); (5089, 43953);
    (5090, 43954); (5091, 43955); (5092, 43956); (5093, 43957); (5094, 43958);
    (5095, 43959); (5096, 43960); (5097, 43961); (5098, 43962); (5099, 43963);
    (5100, 43964); (5101, 43965); (5102, 43966); (5103, 43967); (5104, 5112);
    (5105, 5113); (5106, 5114); (5107, 5115); (5108, 5116); (5109, 5117);
    (7312, 4304); (7313, 4305); (7314, 4306); (7315, 4307); (7316, 4308);
    (7317, 4309); (7318, 4310); (7319, 4311); (7320, 4312); (7321, 4313);
    (7322, 4314); (7323, 4315); (7324, 4316); (7325, 4317); (7326, 4318);
    (7327, 4319); (7328, 4320); (7329, 4321); (7330, 4322); (7331, 4323);
    (7332, 4324); (7333, 4325); (7334, 4326); (7335, 4327); (7336, 4328);
    (7337, 4329); (7338, 4330); (7339, 4331); (7340, 4332); (7341, 4333);
    (7342, 4334); (7343, 4335); (7344, 4336); (7345, 4337); (7346, 4338);
    (7347, 4339); (7348, 4340); (7349, 4341); (7350, 4342); (7351, 4343);
    (7352, 4344); (7353, 4345); (7354, 4346); (7357, 4349); (7358, 4350);
    (7359, 4351); (7680, 7681); (7682, 7683); (7684, 7685); (7686, 7687);
    (7688, 7689); (7690, 7691); (7692, 7693); (7694, 7695); (7696, 7697);
    (7698, 7699); (7700, 7701); (7702, 7703); (7704, 7705); (7706, 7707);
    (7708, 7709); (7710, 7711); (7712, 7713); (7714, 7715); (7716, 7717);
    (7718, 7719); (7720, 7721); (7722, 7723); (7724, 7725); (7726, 7727);
    (7728, 7729); (7730, 7731); (7732, 7733); (7734, 7735); (7736, 7737);
    (7738, 7739); (7740, 7741); (7742, 7743); (7744, 7745); (7746, 7747);
    (7748, 7749); (7750, 7751); (7752, 7753); (7754, 7755); (7756, 7757);
    (7758, 7759); (7760, 7761); (7762, 7763); (7764, 7765); (7766, 7767);
    (7768, 7769); (7770, 7771); (7772, 7773); (7774, 7775); (7776, 7777);
    (7778, 7779); (7780, 7781); (7782, 7783); (7784, 7785); (7786, 7787);
    (7788, 7789); (7790, 7791); (7792, 7793); (7794, 7795); (7796, 7797);
    (7798, 7799); (7800, 7801); (7802, 7803); (7804, 7805); (7806, 7807);
    (7808, 7809); (7810, 7811); (7812, 7813); (7814, 7815); (7816, 7817);
    (7818, 7819); (7820, 7821); (7822, 7823); (7824, 7825); (7826, 7827);
    (7828, 7829); (7838, 223); (7840, 7841); (7842, 7843); (7844, 7845);
    (7846, 7847); (7848, 7849); (7850, 7851); (7852, 7853); (7854, 7855);
    (7856, 7857); (7858, 7859); (7860, 7861); (7862, 7863); (7864, 7865);
    (7866, 7867); (7868, 7869); (7870, 7871); (7872, 7873); (7874, 7875);
    (7876, 7877); (7878, 7879); (7880, 7881); (7882, 7883); (7884, 7885);
    (7886, 7887); (7888, 7889); (7890, 7891); (7892, 7893); (7894, 7895);
    (7896, 7897); (7898, 7899); (7900, 7901); (7902, 7903); (7904, 7905);
    (7906, 7907); (7908, 7909); (7910, 7911); (7912, 7913); (7914, 7915);
    (7916, 7917); (7918, 7919); (7920, 7921); (7922, 7923); (7924, 7925);
    (7926, 7927); (7928, 7929); (7930, 7931); (7932, 7933); (7934, 7935);
    (7944, 7936); (7945, 7937); (7946, 7938); (7947, 7939); (7948, 7940);
    (7949, 7941); (7950, 7942); (7951, 7943); (7960, 7952); (7961, 7953);
    (7962, 7954); (7963, 7955); (7964, 7956); (7965, 7957); (7976, 7968);
    (7977, 7969); (7978, 7970); (7979, 7971); (7980, 7972); (7981, 7973);
    (7982, 7974); (7983, 7975); (7992, 7984); (7993, 7985); (7994, 7986);
    (7995, 7987); (7996, 7988); (7997, 7989); (7998, 7990); (7999, 7991);
    (8008, 8000); (8009, 8001); (8010, 8002); (8011, 8003); (8012, 8004);
    (8013, 8005); (8025, 8017); (8027, 8019); (8029, 8021); (8031, 8023);
    (8040, 8032); (8041, 8033); (8042, 8034); (8043, 8035); (8044, 8036);
    (8045, 8037); (8046, 8038); (8047, 8039); (8072, 8064); (8073, 8065);
    (8074, 8066); (8075, 8067); (8076, 8068); (8077, 8069); (8078, 8070);
    (8079, 8071); (8088, 8080); (8089, 8081); (8090, 8082); (8091, 8083);
    (8092, 8084); (8093, 8085); (8094, 8086); (8095, 8087); (8104, 8096);
    (8105, 8097); (8106, 8098); (8107, 8099); (8108, 8100); (8109, 8101);
    (8110, 8102); (8111, 8103); (8120, 8112); (8121, 8113); (8122, 8048);
    (8123, 8049); (8124, 8115); (8136, 8050); (8137, 8051); (8138, 8052);
    (8139, 8053); (8140, 8131); (8152, 8144); (8153, 8145); (8154, 8054);
    (8155, 8055); (8168, 8160); (8169, 8161); (8170, 8058); (8171, 8059);
    (8172, 8165); (8184, 8056); (8185, 8057); (8186, 8060); (8187, 8061);
    (8188, 8179); (8486, 969); (8490, 107); (8491, 229); (8498, 8526);
    (8544, 8560); (8545, 8561); (8546, 8562); (8547, 8563); (8548, 8564);
    (8549, 8565); (8550, 8566); (8551, 8567); (8552, 8568); (8553, 8569);
    (8554, 8570); (8555, 8571); (8556, 8572); (8557, 8573); (8558, 8574);
    (8559, 8575); (8579, 8580); (9398, 9424); (9399, 9425); (9400, 9426);
    (9401, 9427); (9402, 9428); (9403, 9429); (9404, 9430); (9405, 9431);
    (9406, 9432); (9407, 9433); (9408, 9434); (9409, 9435); (9410, 9436);
    (9411, 9437); (9412, 9438); (9413, 9439); (9414, 9440); (9415, 9441);
    (9416, 9442); (9417, 9443); (9418, 9444); (9419, 9445); (9420, 9446);
    (9421, 9447); (9422, 9448); (9423, 9449); (11264, 11312); (11265, 11313);
    (11266, 11314); (11267, 11315); (11268, 11316); (11269, 11317);
    (11270, 11318); (11271, 11319); (11272, 11320); (11273, 11321);
    (11274, 11322); (11275, 11323); (11276, 11324); (11277, 11325);
    (11278, 11326); (11279, 11327); (11280, 11328); (11281, 11329);
    (11282, 11330); (11283, 11331); (11284, 11332); (11285, 11333);
    (11286, 11334); (11287, 11335); (11288, 11336); (11289, 11337);
    (11290, 11338); (11291, 11339); (11292, 11340); (11293, 11341);
    (11294, 11342); (11295, 11343); (11296, 11344); (11297, 11345);
    (11298, 11346); (11299, 11347); (11300, 11348); (11301, 11349);
    (11302, 11350); (11303, 11351); (11304, 11352); (11305, 11353);
    (11306, 11354); (11307, 11355); (11308, 11356); (11309, 11357);
    (11310, 11358); (11311, 11359); (11360, 11361); (11362, 619);
    (11363, 7549); (11364, 637); (11367, 11368); (11369, 11370);
    (11371, 11372); (11373, 593); (11374, 625); (11375, 592); (11376, 594);
    (11378, 11379); (11381, 11382); (11390, 575); (11391, 576);
    (11392, 11393); (11394, 11395); (11396, 11397); (11398, 11399);
    (11400, 11401); (11402, 11403); (11404, 11405); (11406, 11407);
    (11408, 11409); (11410, 11411); (11412, 11413); (11414, 11415);
    (11416, 11417); (11418, 11419); (11420, 11421); (11422, 11423);
    (11424, 11425); (11426, 11427); (11428, 11429); (11430, 11431);
    (11432, 11433); (11434, 11435); (11436, 11437); (11438, 11439);
    (11440, 11441); (11442, 11443); (11444, 11445); (11446, 11447);
    (11448, 11449); (11450, 11451); (11452, 11453); (11454, 11455);
    (11456, 11457); (11458, 11459); (11460, 11461); (11462, 11463);
    (11464, 11465); (11466, 11467); (11468, 11469); (11470, 11471);
    (11472, 11473); (11474, 11475); (11476, 11477); (11478, 11479);
    (11480, 11481); (11482, 11483); (11484, 11485); (11486, 11487);
    (11488, 11489); (11490, 11491); (11499, 11500); (11501, 11502);
    (11506, 11507); (42560, 42561); (42562, 42563); (42564, 42565);
    (42566, 42567); (42568, 42569); (42570, 42571); (42572, 42573);
    (42574, 42575); (42576, 42577); (42578, 42579); (42580, 42581);
    (42582, 42583); (42584, 42585); (42586, 42587); (42588, 42589);
    (42590, 42591); (42592, 42593); (42594, 42595); (42596, 42597);
    (42598, 42599); (42600, 42601); (42602, 42603); (42604, 42605);
    (42624, 42625); (42626, 42627); (42628, 42629); (42630, 42631);
    (42632, 42633); (42634, 42635); (42636, 42637); (42638, 42639);
    (42640, 42641); (42642, 42643); (42644, 42645); (42646, 42647);
    (42648, 42649); (42650, 42651); (42786, 42787); (42788, 42789);
    (42790, 42791); (42792, 42793); (42794, 42795); (42796, 42797);
    (42798, 42799); (42802, 42803); (42804, 42805); (42806, 42807);
    (42808, 42809); (42810, 42811); (42812, 42813); (42814, 42815);
    (42816, 42817); (42818, 42819); (42820, 42821); (42822, 42823);
    (42824, 42825); (42826, 42827); (42828, 42829); (42830, 42831);
    (42832, 42833); (42834, 42835); (42836, 42837); (42838, 42839);
    (42840, 42841); (42842, 42843); (42844, 42845); (42846, 42847);
    (42848, 42849); (42850, 42851); (42852, 42853); (42854, 42855);
    (42856, 42857); (42858, 42859); (42860, 42861); (42862, 42863);
    (42873, 42874); (42875, 42876); (42877, 7545); (42878, 42879);
    (42880, 42881); (42882, 42883); (42884, 42885); (42886, 42887);
    (42891, 42892); (42893, 613); (42896, 42897); (42898, 42899);
    (42902, 42903); (42904, 42905); (42906, 42907); (42908, 42909);
    (42910, 42911); (42912, 42913); (42914, 42915); (42916, 42917);
    (42918, 42919); (42920, 42921); (42922, 614); (42923, 604); (42924, 609);
    (42925, 620); (42926, 618); (42928, 670); (42929, 647); (42930, 669);
    (42931, 43859); (42932, 42933); (42934, 42935); (42936, 42937);
    (42938, 42939); (42940, 42941); (42942, 42943); (42944, 42945);
    (42946, 42947); (42948, 42900); (42949, 642); (42950, 7566);
    (42951, 42952); (42953, 42954); (42960, 42961); (42966, 42967);
    (42968, 42969); (42997, 42998); (65313, 65345); (65314, 65346);
    (65315, 65347); (65316, 65348); (65317, 65349); (65318, 65350);
    (65319, 65351); (65320, 65352); (65321, 65353); (65322, 65354);
    (65323, 65355); (65324, 65356); (65325, 65357); (65326, 65358);
    (65327, 65359); (65328, 65360); (65329, 65361); (65330, 65362);
    (65331, 65363); (65332, 65364); (65333, 65365); (65334, 65366);
    (65335, 65367); (65336, 65368); (65337, 65369); (65338, 65370);
    (66560, 66600); (66561, 66601); (66562, 66602); (66563, 66603);
    (66564, 66604); (66565, 66605); (66566, 66606); (66567, 66607);
    (66568, 66608); (66569, 66609); (66570, 66610); (66571, 66611);
    (66572, 66612); (66573, 66613); (66574, 66614); (66575, 66615);
    (66576, 66616); (66577, 66617); (66578, 66618); (66579, 66619);
    (66580, 66620); (66581, 66621); (66582, 66622); (66583, 66623);
    (66584, 66624); (66585, 66625); (66586, 66626); (66587, 66627);
    (66588, 66628); (66589, 66629); (66590, 66630); (66591, 66631);
    (66592, 66632); (66593, 66633); (66594, 66634); (66595, 66635);
    (66596, 66636); (66597, 66637); (66598, 66638); (66599, 66639);
    (66736, 66776); (66737, 66777); (66738, 66778); (66739, 66779);
    (66740, 66780); (66741, 66781); (66742, 66782); (66743, 66783);
    (66744, 66784); (66745, 66785); (66746, 66786); (66747, 66787);
    (66748, 66788); (66749, 66789); (66750, 66790); (66751, 66791);
    (66752, 66792); (66753, 66793); (66754, 66794); (66755, 66795);
    (66756, 66796); (66757, 66797); (66758, 66798); (66759, 66799);
    (66760, 66800); (66761, 66801); (66762, 66802); (66763, 66803);
    (66764, 66804); (66765, 66805); (66766, 66806); (66767, 66807);
    (66768, 66808); (66769, 66809); (66770, 66810); (66771, 66811);
    (66928, 66967); (66929, 66968); (66930, 66969); (66931, 66970);
    (66932, 66971); (66933, 66972); (66934, 66973); (66935, 66974);
    (66936, 66975); (66937, 66976); (66938, 66977); (66940, 66979);
    (66941, 66980); (66942, 66981); (66943, 66982); (66944, 66983);
    (66945, 66984); (66946, 66985); (66947, 66986); (66948, 66987);
    (66949, 66988); (66950, 66989); (66951, 66990); (66952, 66991);
    (66953, 66992); (66954, 66993); (66956, 66995); (66957, 66996);
    (66958, 66997); (66959, 66998); (66960, 66999); (66961, 67000);
    (66962, 67001); (66964, 67003); (66965, 67004); (68736, 68800);
    (68737, 68801); (68738, 68802); (68739, 68803); (68740, 68804);
    (68741, 68805); (68742, 68806); (68743, 68807); (68744, 68808);
    (68745, 68809); (68746, 68810); (68747, 68811); (68748, 68812);
    (68749, 68813); (68750, 68814); (68751, 68815); (68752, 68816);
    (68753, 68817); (68754, 68818); (68755, 68819); (68756, 68820);
    (68757, 68821); (68758, 68822); (68759, 68823); (68760, 68824);
    (68761, 68825); (68762, 68826); (68763, 68827); (68764, 68828);
    (68765, 68829); (68766, 68830); (68767, 68831); (68768, 68832);
    (68769, 68833); (68770, 68834); (68771, 68835); (68772, 68836);
    (68773, 68837); (68774, 68838); (68775, 68839); (68776, 68840);
    (68777, 68841); (68778, 68842); (68779, 68843); (68780, 68844);
    (68781, 68845); (68782, 68846); (68783, 68847); (68784, 68848);
    (68785, 68849); (68786, 68850); (71840, 71872); (71841, 71873);
    (71842, 71874); (71843, 71875); (71844, 71876); (71845, 71877);
    (71846, 71878); (71847, 71879); (71848, 71880); (71849, 71881);
    (71850, 71882); (71851, 71883); (71852, 71884); (71853, 71885);
    (71854, 71886); (71855, 71887); (71856, 71888); (71857, 71889);
    (71858, 71890); (71859, 71891); (71860, 71892); (71861, 71893);
    (71862, 71894); (71863, 71895); (71864, 71896); (71865, 71897);
    (71866, 71898); (71867, 71899); (71868, 71900); (71869, 71901);
    (71870, 71902); (71871, 71903); (93760, 93792); (93761, 93793);
    (93762, 93794); (93763, 93795); (93764, 93796); (93765, 93797);
    (93766, 93798); (93767, 93799); (93768, 93800); (93769, 93801);
    (93770, 93802); (93771, 93803); (93772, 93804); (93773, 93805);
    (93774, 93806); (93775, 93807); (93776, 93808); (93777, 93809);
    (93778, 93810); (93779, 93811); (93780, 93812); (93781, 93813);
    (93782, 93814); (93783, 93815); (93784, 93816); (93785, 93817);
    (93786, 93818); (93787, 93819); (93788, 93820); (93789, 93821);
    (93790, 93822); (93791, 93823); (125184, 125218); (125185, 125219);
    (125186, 125220); (125187, 125221); (125188, 125222); (125189, 125223);
    (125190, 125224); (125191, 125225); (125192, 125226); (125193, 125227);
    (125194, 125228); (125195, 125229); (125196, 125230); (125197, 125231);
    (125198, 125232); (125199, 125233); (125200, 125234); (125201, 125235);
    (125202, 125236); (125203, 125237); (125204, 125238); (125205, 125239);
    (125206, 125240); (125207, 125241); (125208, 125242); (125209, 125243);
    (125210, 125244); (125211, 125245); (125212, 125246); (125213, 125247);
    (125214, 125248); (125215, 125249); (125216, 125250); (125217, 125251) ].

(** Full canonical decomposition of every code point that has one,
    the Hangul syllables excepted (they decompose by arithmetic). *)
Definition canonicalDecomposition : list (N * list N) :=
  [
    (192, [65; 768]); (193, [65; 769]); (194, [65; 770]); (195, [65; 771]);
    (196, [65; 776]); (197, [65; 778]); (199, [67; 807]); (200, [69; 768]);
    (201, [69; 769]); (202, [69; 770]); (203, [69; 776]); (204, [73; 768]);
    (205, [73; 769]); (206, [73; 770]); (207, [73; 776]); (209, [78; 771]);
    (210, [79; 768]); (211, [79; 769]); (212, [79; 770]); (213, [79; 771]);
    (214, [79; 776]); (217, [85; 768]); (218, [85; 769]); (219, [85; 770]);
    (220, [85; 776]); (221, [89; 769]); (224, [97; 768]); (225, [97; 769]);
    (226, [97; 770]); (227, [97; 771]); (228, [97; 776]); (229, [97; 778]);
    (231, [99; 807]); (232, [101; 768]); (233, [101; 769]); (234, [101; 770]);
    (235, [101; 776]); (236, [105; 768]); (237, [105; 769]);
    (238, [105; 770]); (239, [105; 776]); (241, [110; 771]);
    (242, [111; 768]); (243, [111; 769]); (244, [111; 770]);
    (245, [111; 771]); (246, [111; 776]); (249, [117; 768]);
    (250, [117; 769]); (251, [117; 770]); (252, [117; 776]);
    (253, [121; 769]); (255, [121; 776]); (256, [65; 772]); (257, [97; 772]);
    (258, [65; 774]); (259, [97; 774]); (260, [65; 808]); (261, [97; 808]);
    (262, [67; 769]); (263, [99; 769]); (264, [67; 770]); (265, [99; 770]);
    (266, [67; 775]); (267, [99; 775]); (268, [67; 780]); (269, [99; 780]);
    (270, [68; 780]); (271, [100; 780]); (274, [69; 772]); (275, [101; 772]);
    (276, [69; 774]); (277, [101; 774]); (278, [69; 775]); (279, [101; 775]);
    (280, [69; 808]); (281, [101; 808]); (282, [69; 780]); (283, [101; 780]);
    (284, [71; 770]); (285, [103; 770]); (286, [71; 774]); (287, [103; 774]);
    (288, [71; 775]); (289, [103; 775]); (290, [71; 807]); (291, [103; 807]);
    (292, [72; 770]); (293, [104; 770]); (296, [73; 771]); (297, [105; 771]);
    (298, [73; 772]); (299, [105; 772]); (300, [73; 774]); (301, [105; 774]);
    (302, [73; 808]); (303, [105; 808]); (304, [73; 775]); (308, [74; 770]);
    (309, [106; 770]); (310, [75; 807]); (311, [107; 807]); (313, [76; 769]);
    (314, [108; 769]); (315, [76; 807]); (316, [108; 807]); (317, [76; 780]);
    (318, [108; 780]); (323, [78; 769]); (324, [110; 769]); (325, [78; 807]);
    (326, [110; 807]); (327, [78; 780]); (328, [110; 780]); (332, [79; 772]);
    (333, [111; 772]); (334, [79; 774]); (335, [111; 774]); (336, [79; 779]);
    (337, [111; 779]); (340, [82; 769]); (341, [114; 769]); (342, [82; 807]);
    (343, [114; 807]); (344, [82; 780]); (345, [114; 780]); (346, [83; 769]);
    (347, [115; 769]); (348, [83; 770]); (349, [115; 770]); (350, [83; 807]);
    (351, [115; 807]); (352, [83; 780]); (353, [115; 780]); (354, [84; 807]);
    (355, [116; 807]); (356, [84; 780]); (357, [116; 780]); (360, [85; 771]);
    (361, [117; 771]); (362, [85; 772]); (363, [117; 772]); (364, [85; 774]);
    (365, [117; 774]); (366, [85; 778]); (367, [117; 778]); (368, [85; 779]);
    (369, [117; 779]); (370, [85; 808]); (371, [117; 808]); (372, [87; 770]);
    (373, [119; 770]); (374, [89; 770]); (375, [121; 770]); (376, [89; 776]);
    (377, [90; 769]); (378, [122; 769]); (379, [90; 775]); (380, [122; 775]);
    (381, [90; 780]); (382, [122; 780]); (416, [79; 795]); (417, [111; 795]);
    (431, [85; 795]); (432, [117; 795]); (461, [65; 780]); (462, [97; 780]);
    (463, [73; 780]); (464, [105; 780]); (465, [79; 780]); (466, [111; 780]);
    (467, [85; 780]); (468, [117; 780]); (469, [85; 776; 772]);
    (470, [117; 776; 772]); (471, [85; 776; 769]); (472, [117; 776; 769]);
    (473, [85; 776; 780]); (474, [117; 776; 780]); (475, [85; 776; 768]);
    (476, [117; 776; 768]); (478, [65; 776; 772]); (479, [97; 776; 772]);
    (480, [65; 775; 772]); (481, [97; 775; 772]); (482, [198; 772]);
    (483, [230; 772]); (486, [71; 780]); (487, [103; 780]); (488, [75; 780]);
    (489, [107; 780]); (490, [79; 808]); (491, [111; 808]);
    (492, [79; 808; 772]); (493, [111; 808; 772]); (494, [439; 780]);
    (495, [658; 780]); (496, [106; 780]); (500, [71; 769]); (501, [103; 769]);
    (504, [78; 768]); (505, [110; 768]); (506, [65; 778; 769]);
    (507, [97; 778; 769]); (508, [198; 769]); (509, [230; 769]);
    (510, [216; 769]); (511, [248; 769]); (512, [65; 783]); (513, [97; 783]);
    (514, [65; 785]); (515, [97; 785]); (516, [69; 783]); (517, [101; 783]);
    (518, [69; 785]); (519, [101; 785]); (520, [73; 783]); (521, [105; 783]);
    (522, [73; 785]); (523, [105; 785]); (524, [79; 783]); (525, [111; 783]);
    (526, [79; 785]); (527, [111; 785]); (528, [82; 783]); (529, [114; 783]);
    (530, [82; 785]); (531, [114; 785]); (532, [85; 783]); (533, [117; 783]);
    (534, [85; 785]); (535, [117; 785]); (536, [83; 806]); (537, [115; 806]);
    (538, [84; 806]); (539, [116; 806]); (542, [72; 780]); (543, [104; 780]);
    (550, [65; 775]); (551, [97; 775]); (552, [69; 807]); (553, [101; 807]);
    (554, [79; 776; 772]); (555, [111; 776; 772]); (556, [79; 771; 772]);
    (557, [111; 771; 772]); (558, [79; 775]); (559, [111; 775]);
    (560, [79; 775; 772]); (561, [111; 775; 772]); (562, [89; 772]);
    (563, [121; 772]); (832, [768]); (833, [769]); (835, [787]);
    (836, [776; 769]); (884, [697]); (894, [59]); (901, [168; 769]);
    (902, [913; 769]); (903, [183]); (904, [917; 769]); (905, [919; 769]);
    (906, [921; 769]); (908, [927; 769]); (910, [933; 769]);
    (911, [937; 769]); (912, [953; 776; 769]); (938, [921; 776]);
    (939, [933; 776]); (940, [945; 769]); (941, [949; 769]);
    (942, [951; 769]); (943, [953; 769]); (944, [965; 776; 769]);
    (970, [953; 776]); (971, [965; 776]); (972, [959; 769]);
    (973, [965; 769]); (974, [969; 769]); (979, [978; 769]);
    (980, [978; 776]); (1024, [1045; 768]); (1025, [1045; 776]);
    (1027, [1043; 769]); (1031, [1030; 776]); (1036, [1050; 769]);
    (1037, [1048; 768]); (1038, [1059; 774]); (1049, [1048; 774]);
    (1081, [1080; 774]); (1104, [1077; 768]); (1105, [1077; 776]);
    (1107, [1075; 769]); (1111, [1110; 776]); (1116, [1082; 769]);
    (1117, [1080; 768]); (1118, [1091; 774]); (1142, [1140; 783]);
    (1143, [1141; 783]); (1217, [1046; 774]); (1218, [1078; 774]);
    (1232, [1040; 774]); (1233, [1072; 774]); (1234, [1040; 776]);
    (1235, [1072; 776]); (1238, [1045; 774]); (1239, [1077; 774]);
    (1242, [1240; 776]); (1243, [1241; 776]); (1244, [1046; 776]);
    (1245, [1078; 776]); (1246, [1047; 776]); (1247, [1079; 776]);
    (1250, [1048; 772]); (1251, [1080; 772]); (1252, [1048; 776]);
    (1253, [1080; 776]); (1254, [1054; 776]); (1255, [1086; 776]);
    (1258, [1256; 776]); (1259, [1257; 776]); (1260, [1069; 776]);
    (1261, [1101; 776]); (1262, [1059; 772]); (1263, [1091; 772]);
    (1264, [1059; 776]); (1265, [1091; 776]); (1266, [1059; 779]);
    (1267, [1091; 779]); (1268, [1063; 776]); (1269, [1095; 776]);
    (1272, [1067; 776]); (1273, [1099; 776]); (1570, [1575; 1619]);
    (1571, [1575; 1620]); (1572, [1608; 1620]); (1573, [1575; 1621]);
    (1574, [1610; 1620]); (1728, [1749; 1620]); (1730, [1729; 1620]);
    (1747, [1746; 1620]); (2345, [2344; 2364]); (2353, [2352; 2364]);
    (2356, [2355; 2364]); (2392, [2325; 2364]); (2393, [2326; 2364]);
    (2394, [2327; 2364]); (2395, [2332; 2364]); (2396, [2337; 2364]);
    (2397, [2338; 2364]); (2398, [2347; 2364]); (2399, [2351; 2364]);
    (2507, [2503; 2494]); (2508, [2503; 2519]); (2524, [2465; 2492]);
    (2525, [2466; 2492]); (2527, [2479; 2492]); (2611, [2610; 2620]);
    (2614, [2616; 2620]); (2649, [2582; 2620]); (2650, [2583; 2620]);
    (2651, [2588; 2620]); (2654, [2603; 2620]); (2888, [2887; 2902]);
    (2891, [2887; 2878]); (2892, [2887; 2903]); (2908, [2849; 2876]);
    (2909, [2850; 2876]); (2964, [2962; 3031]); (3018, [3014; 3006]);
    (3019, [3015; 3006]); (3020, [3014; 3031]); (3144, [3142; 3158]);
    (3264, [3263; 3285]); (3271, [3270; 3285]); (3272, [3270; 3286]);
    (3274, [3270; 3266]); (3275, [3270; 3266; 3285]); (3402, [3398; 3390]);
    (3403, [3399; 3390]); (3404, [3398; 3415]); (3546, [3545; 3530]);
    (3548, [3545; 3535]); (3549, [3545; 3535; 3530]); (3550, [3545; 3551]);
    (3907, [3906; 4023]); (3917, [3916; 4023]); (3922, [3921; 4023]);
    (3927, [3926; 4023]); (3932, [3931; 4023]); (3945, [3904; 4021]);
    (3955, [3953; 3954]); (3957, [3953; 3956]); (3958, [4018; 3968]);
    (3960, [4019; 3968]); (3969, [3953; 3968]); (3987, [3986; 4023]);
    (3997, [3996; 4023]); (4002, [4001; 4023]); (4007, [4006; 4023]);
    (4012, [4011; 4023]); (4025, [3984; 4021]); (4134, [4133; 4142]);
    (6918, [6917; 6965]); (6920, [6919; 6965]); (6922, [6921; 6965]);
    (6924, [6923; 6965]); (6926, [6925; 6965]); (6930, [6929; 6965]);
    (6971, [6970; 6965]); (6973, [6972; 6965]); (6976, [6974; 6965]);
    (6977, [6975; 6965]); (6979, [6978; 6965]); (7680, [65; 805]);
    (7681, [97; 805]); (7682, [66; 775]); (7683, [98; 775]);
    (7684, [66; 803]); (7685, [98; 803]); (7686, [66; 817]);
    (7687, [98; 817]); (7688, [67; 807; 769]); (7689, [99; 807; 769]);
    (7690, [68; 775]); (7691, [100; 775]); (7692, [68; 803]);
    (7693, [100; 803]); (7694, [68; 817]); (7695, [100; 817]);
    (7696, [68; 807]); (7697, [100; 807]); (7698, [68; 813]);
    (7699, [100; 813]); (7700, [69; 772; 768]); (7701, [101; 772; 768]);
    (7702, [69; 772; 769]); (7703, [101; 772; 769]); (7704, [69; 813]);
    (7705, [101; 813]); (7706, [69; 816]); (7707, [101; 816]);
    (7708, [69; 807; 774]); (7709, [101; 807; 774]); (7710, [70; 775]);
    (7711, [102; 775]); (7712, [71; 772]); (7713, [103; 772]);
    (7714, [72; 775]); (7715, [104; 775]); (7716, [72; 803]);
    (7717, [104; 803]); (7718, [72; 776]); (7719, [104; 776]);
    (7720, [72; 807]); (7721, [104; 807]); (7722, [72; 814]);
    (7723, [104; 814]); (7724, [73; 816]); (7725, [105; 816]);
    (7726, [73; 776; 769]); (7727, [105; 776; 769]); (7728, [75; 769]);
    (7729, [107; 769]); (7730, [75; 803]); (7731, [107; 803]);
    (7732, [75; 817]); (7733, [107; 817]); (7734, [76; 803]);
    (7735, [108; 803]); (7736, [76; 803; 772]); (7737, [108; 803; 772]);
    (7738, [76; 817]); (7739, [108; 817]); (7740, [76; 813]);
    (7741, [108; 813]); (7742, [77; 769]); (7743, [109; 769]);
    (7744, [77; 775]); (7745, [109; 775]); (7746, [77; 803]);
    (7747, [109; 803]); (7748, [78; 775]); (7749, [110; 775]);
    (7750, [78; 803]); (7751, [110; 803]); (7752, [78; 817]);
    (7753, [110; 817]); (7754, [78; 813]); (7755, [110; 813]);
    (7756, [79; 771; 769]); (7757, [111; 771; 769]); (7758, [79; 771; 776]);
    (7759, [111; 771; 776]); (7760, [79; 772; 768]); (7761, [111; 772; 768]);
    (7762, [79; 772; 769]); (7763, [111; 772; 769]); (7764, [80; 769]);
    (7765, [112; 769]); (7766, [80; 775]); (7767, [112; 775]);
    (7768, [82; 775]); (7769, [114; 775]); (7770, [82; 803]);
    (7771, [114; 803]); (7772, [82; 803; 772]); (7773, [114; 803; 772]);
    (7774, [82; 817]); (7775, [114; 817]); (7776, [83; 775]);
    (7777, [115; 775]); (7778, [83; 803]); (7779, [115; 803]);
    (7780, [83; 769; 775]); (7781, [115; 769; 775]); (7782, [83; 780; 775]);
    (7783, [115; 780; 775]); (7784, [83; 803; 775]); (7785, [115; 803; 775]);
    (7786, [84; 775]); (7787, [116; 775]); (7788, [84; 803]);
    (7789, [116; 803]); (7790, [84; 817]); (7791, [116; 817]);
    (7792, [84; 813]); (7793, [116; 813]); (7794, [85; 804]);
    (7795, [117; 804]); (7796, [85; 816]); (7797, [117; 816]);
    (7798, [85; 813]); (7799, [117; 813]); (7800, [85; 771; 769]);
    (7801, [117; 771; 769]); (7802, [85; 772; 776]); (7803, [117; 772; 776]);
    (7804, [86; 771]); (7805, [118; 771]); (7806, [86; 803]);
    (7807, [118; 803]); (7808, [87; 768]); (7809, [119; 768]);
    (7810, [87; 769]); (7811, [119; 769]); (7812, [87; 776]);
    (7813, [119; 776]); (7814, [87; 775]); (7815, [119; 775]);
    (7816, [87; 803]); (7817, [119; 803]); (7818, [88; 775]);
    (7819, [120; 775]); (7820, [88; 776]); (7821, [120; 776]);
    (7822, [89; 775]); (7823, [121; 775]); (7824, [90; 770]);
    (7825, [122; 770]); (7826, [90; 803]); (7827, [122; 803]);
    (7828, [90; 817]); (7829, [122; 817]); (7830, [104; 817]);
    (7831, [116; 776]); (7832, [119; 778]); (7833, [121; 778]);
    (7835, [383; 775]); (7840, [65; 803]); (7841, [97; 803]);
    (7842, [65; 777]); (7843, [97; 777]); (7844, [65; 770; 769]);
    (7845, [97; 770; 769]); (7846, [65; 770; 768]); (7847, [97; 770; 768]);
    (7848, [65; 770; 777]); (7849, [97; 770; 777]); (7850, [65; 770; 771]);
    (7851, [97; 770; 771]); (7852, [65; 803; 770]); (7853, [97; 803; 770]);
    (7854, [65; 774; 769]); (7855, [97; 774; 769]); (7856, [65; 774; 768]);
    (7857, [97; 774; 768]); (7858, [65; 774; 777]); (7859, [97; 774; 777]);
    (7860, [65; 774; 771]); (7861, [97; 774; 771]); (7862, [65; 803; 774]);
    (7863, [97; 803; 774]); (7864, [69; 803]); (7865, [101; 803]);
    (7866, [69; 777]); (7867, [101; 777]); (7868, [69; 771]);
    (7869, [101; 771]); (7870, [69; 770; 769]); (7871, [101; 770; 769]);
    (7872, [69; 770; 768]); (7873, [101; 770; 768]); (7874, [69; 770; 777]);
    (7875, [101; 770; 777]); (7876, [69; 770; 771]); (7877, [101; 770; 771]);
    (7878, [69; 803; 770]); (7879, [101; 803; 770]); (7880, [73; 777]);
    (7881, [105; 777]); (7882, [73; 803]); (7883, [105; 803]);
    (7884, [79; 803]); (7885, [111; 803]); (7886, [79; 777]);
    (7887, [111; 777]); (7888, [79; 770; 769]); (7889, [111; 770; 769]);
    (7890, [79; 770; 768]); (7891, [111; 770; 768]); (7892, [79; 770; 777]);
    (7893, [111; 770; 777]); (7894, [79; 770; 771]); (7895, [111; 770; 771]);
    (7896, [79; 803; 770]); (7897, [111; 803; 770]); (7898, [79; 795; 769]);
    (7899, [111; 795; 769]); (7900, [79; 795; 768]); (7901, [111; 795; 768]);
    (7902, [79; 795; 777]); (7903, [111; 795; 777]); (7904, [79; 795; 771]);
    (7905, [111; 795; 771]); (7906, [79; 795; 803]); (7907, [111; 795; 803]);
    (7908, [85; 803]); (7909, [117; 803]); (7910, [85; 777]);
    (7911, [117; 777]); (7912, [85; 795; 769]); (7913, [117; 795; 769]);
    (7914, [85; 795; 768]); (7915, [117; 795; 768]); (7916, [85; 795; 777]);
    (7917, [117; 795; 777]); (7918, [85; 795; 771]); (7919, [117; 795; 771]);
    (7920, [85; 795; 803]); (7921, [117; 795; 803]); (7922, [89; 768]);
    (7923, [121; 768]); (7924, [89; 803]); (7925, [121; 803]);
    (7926, [89; 777]); (7927, [121; 777]); (7928, [89; 771]);
    (7929, [121; 771]); (7936, [945; 787]); (7937, [945; 788]);
    (7938, [945; 787; 768]); (7939, [945; 788; 768]); (7940, [945; 787; 769]);
    (7941, [945; 788; 769]); (7942, [945; 787; 834]); (7943, [945; 788; 834]);
    (7944, [913; 787]); (7945, [913; 788]); (7946, [913; 787; 768]);
    (7947, [913; 788; 768]); (7948, [913; 787; 769]); (7949, [913; 788; 769]);
    (7950, [913; 787; 834]); (7951, [913; 788; 834]); (7952, [949; 787]);
    (7953, [949; 788]); (7954, [949; 787; 768]); (7955, [949; 788; 768]);
    (7956, [949; 787; 769]); (7957, [949; 788; 769]); (7960, [917; 787]);
    (7961, [917; 788]); (7962, [917; 787; 768]); (7963, [917; 788; 768]);
    (7964, [917; 787; 769]); (7965, [917; 788; 769]); (7968, [951; 787]);
    (7969, [951; 788]); (7970, [951; 787; 768]); (7971, [951; 788; 768]);
    (7972, [951; 787; 769]); (7973, [951; 788; 769]); (7974, [951; 787; 834]);
    (7975, [951; 788; 834]); (7976, [919; 787]); (7977, [919; 788]);
    (7978, [919; 787; 768]); (7979, [919; 788; 768]); (7980, [919; 787; 769]);
    (7981, [919; 788; 769]); (7982, [919; 787; 834]); (7983, [919; 788; 834]);
    (7984, [953; 787]); (7985, [953; 788]); (7986, [953; 787; 768]);
    (7987, [953; 788; 768]); (7988, [953; 787; 769]); (7989, [953; 788; 769]);
    (7990, [953; 787; 834]); (7991, [953; 788; 834]); (7992, [921; 787]);
    (7993, [921; 788]); (7994, [921; 787; 768]); (7995, [921; 788; 768]);
    (7996, [921; 787; 769]); (7997, [921; 788; 769]); (7998, [921; 787; 834]);
    (7999, [921; 788; 834]); (8000, [959; 787]); (8001, [959; 788]);
    (8002, [959; 787; 768]); (8003, [959; 788; 768]); (8004, [959; 787; 769]);
    (8005, [959; 788; 769]); (8008, [927; 787]); (8009, [927; 788]);
    (8010, [927; 787; 768]); (8011, [927; 788; 768]); (8012, [927; 787; 769]);
    (8013, [927; 788; 769]); (8016, [965; 787]); (8017, [965; 788]);
    (8018, [965; 787; 768]); (8019, [965; 788; 768]); (8020, [965; 787; 769]);
    (8021, [965; 788; 769]); (8022, [965; 787; 834]); (8023, [965; 788; 834]);
    (8025, [933; 788]); (8027, [933; 788; 768]); (8029, [933; 788; 769]);
    (8031, [933; 788; 834]); (8032, [969; 787]); (8033, [969; 788]);
    (8034, [969; 787; 768]); (8035, [969; 788; 768]); (8036, [969; 787; 769]);
    (8037, [969; 788; 769]); (8038, [969; 787; 834]); (8039, [969; 788; 834]);
    (8040, [937; 787]); (8041, [937; 788]); (8042, [937; 787; 768]);
    (8043, [937; 788; 768]); (8044, [937; 787; 769]); (8045, [937; 788; 769]);
    (8046, [937; 787; 834]); (8047, [937; 788; 834]); (8048, [945; 768]);
    (8049, [945; 769]); (8050, [949; 768]); (8051, [949; 769]);
    (8052, [951; 768]); (8053, [951; 769]); (8054, [953; 768]);
    (8055, [953; 769]); (8056, [959; 768]); (8057, [959; 769]);
    (8058, [965; 768]); (8059, [965; 769]); (8060, [969; 768]);
    (8061, [969; 769]); (8064, [945; 787; 837]); (8065, [945; 788; 837]);
    (8066, [945; 787; 768; 837]); (8067, [945; 788; 768; 837]);
    (8068, [945; 787; 769; 837]); (8069, [945; 788; 769; 837]);
    (8070, [945; 787; 834; 837]); (8071, [945; 788; 834; 837]);
    (8072, [913; 787; 837]); (8073, [913; 788; 837]);
    (8074, [913; 787; 768; 837]); (8075, [913; 788; 768; 837]);
    (8076, [913; 787; 769; 837]); (8077, [913; 788; 769; 837]);
    (8078, [913; 787; 834; 837]); (8079, [913; 788; 834; 837]);
    (8080, [951; 787; 837]); (8081, [951; 788; 837]);
    (8082, [951; 787; 768; 837]); (8083, [951; 788; 768; 837]);
    (8084, [951; 787; 769; 837]); (8085, [951; 788; 769; 837]);
    (8086, [951; 787; 834; 837]); (8087, [951; 788; 834; 837]);
    (8088, [919; 787; 837]); (8089, [919; 788; 837]);
    (8090, [919; 787; 768; 837]); (8091, [919; 788; 768; 837]);
    (8092, [919; 787; 769; 837]); (8093, [919; 788; 769; 837]);
    (8094, [919; 787; 834; 837]); (8095, [919; 788; 834; 837]);
    (8096, [969; 787; 837]); (8097, [969; 788; 837]);
    (8098, [969; 787; 768; 837]); (8099, [969; 788; 768; 837]);
    (8100, [969; 787; 769; 837]); (8101, [969; 788; 769; 837]);
    (8102, [969; 787; 834; 837]); (8103, [969; 788; 834; 837]);
    (8104, [937; 787; 837]); (8105, [937; 788; 837]);
    (8106, [937; 787; 768; 837]); (8107, [937; 788; 768; 837]);
    (8108, [937; 787; 769; 837]); (8109, [937; 788; 769; 837]);
    (8110, [937; 787; 834; 837]); (8111, [937; 788; 834; 837]);
    (8112, [945; 774]); (8113, [945; 772]); (8114, [945; 768; 837]);
    (8115, [945; 837]); (8116, [945; 769; 837]); (8118, [945; 834]);
    (8119, [945; 834; 837]); (8120, [913; 774]); (8121, [913; 772]);
    (8122, [913; 768]); (8123, [913; 769]); (8124, [913; 837]); (8126, [953]);
    (8129, [168; 834]); (8130, [951; 768; 837]); (8131, [951; 837]);
    (8132, [951; 769; 837]); (8134, [951; 834]); (8135, [951; 834; 837]);
    (8136, [917; 768]); (8137, [917; 769]); (8138, [919; 768]);
    (8139, [919; 769]); (8140, [919; 837]); (8141, [8127; 768]);
    (8142, [8127; 769]); (8143, [8127; 834]); (8144, [953; 774]);
    (8145, [953; 772]); (8146, [953; 776; 768]); (8147, [953; 776; 769]);
    (8150, [953; 834]); (8151, [953; 776; 834]); (8152, [921; 774]);
    (8153, [921; 772]); (8154, [921; 768]); (8155, [921; 769]);
    (8157, [8190; 768]); (8158, [8190; 769]); (8159, [8190; 834]);
    (8160, [965; 774]); (8161, [965; 772]); (8162, [965; 776; 768]);
    (8163, [965; 776; 769]); (8164, [961; 787]); (8165, [961; 788]);
    (8166, [965; 834]); (8167, [965; 776; 834]); (8168, [933; 774]);
    (8169, [933; 772]); (8170, [933; 768]); (8171, [933; 769]);
    (8172, [929; 788]); (8173, [168; 768]); (8174, [168; 769]); (8175, [96]);
    (8178, [969; 768; 837]); (8179, [969; 837]); (8180, [969; 769; 837]);
    (8182, [969; 834]); (8183, [969; 834; 837]); (8184, [927; 768]);
    (8185, [927; 769]); (8186, [937; 768]); (8187, [937; 769]);
    (8188, [937; 837]); (8189, [180]); (8192, [8194]); (8193, [8195]);
    (8486, [937]); (8490, [75]); (8491, [65; 778]); (8602, [8592; 824]);
    (8603, [8594; 824]); (8622, [8596; 824]); (8653, [8656; 824]);
    (8654, [8660; 824]); (8655, [8658; 824]); (8708, [8707; 824]);
    (8713, [8712; 824]); (8716, [8715; 824]); (8740, [8739; 824]);
    (8742, [8741; 824]); (8769, [8764; 824]); (8772, [8771; 824]);
    (8775, [8773; 824]); (8777, [8776; 824]); (8800, [61; 824]);
    (8802, [8801; 824]); (8813, [8781; 824]); (8814, [60; 824]);
    (8815, [62; 824]); (8816, [8804; 824]); (8817, [8805; 824]);
    (8820, [8818; 824]); (8821, [8819; 824]); (8824, [8822; 824]);
    (8825, [8823; 824]); (8832, [8826; 824]); (8833, [8827; 824]);
    (8836, [8834; 824]); (8837, [8835; 824]); (8840, [8838; 824]);
    (8841, [8839; 824]); (8876, [8866; 824]); (8877, [8872; 824]);
    (8878, [8873; 824]); (8879, [8875; 824]); (8928, [8828; 824]);
    (8929, [8829; 824]); (8930, [8849; 824]); (8931, [8850; 824]);
    (8938, [8882; 824]); (8939, [8883; 824]); (8940, [8884; 824]);
    (8941, [8885; 824]); (9001, [12296]); (9002, [12297]);
    (10972, [10973; 824]); (12364, [12363; 12441]); (12366, [12365; 12441]);
    (12368, [12367; 12441]); (12370, [12369; 12441]); (12372, [12371; 12441]);
    (12374, [12373; 12441]); (12376, [12375; 12441]); (12378, [12377; 12441]);
    (12380, [12379; 12441]); (12382, [12381; 12441]); (12384, [12383; 12441]);
    (12386, [12385; 12441]); (12389, [12388; 12441]); (12391, [12390; 12441]);
    (12393, [12392; 12441]); (12400, [12399; 12441]); (12401, [12399; 12442]);
    (12403, [12402; 12441]); (12404, [12402; 12442]); (12406, [12405; 12441]);
    (12407, [12405; 12442]); (12409, [12408; 12441]); (12410, [12408; 12442]);
    (12412, [12411; 12441]); (12413, [12411; 12442]); (12436, [12358; 12441]);
    (12446, [12445; 12441]); (12460, [12459; 12441]); (12462, [12461; 12441]);
    (12464, [12463; 12441]); (12466, [12465; 12441]); (12468, [12467; 12441]);
    (12470, [12469; 12441]); (12472, [12471; 12441]); (12474, [12473; 12441]);
    (12476, [12475; 12441]); (12478, [12477; 12441]); (12480, [12479; 12441]);
    (12482, [12481; 12441]); (12485, [12484; 12441]); (12487, [12486; 12441]);
    (12489, [12488; 12441]); (12496, [12495; 12441]); (12497, [12495; 12442]);
    (12499, [12498; 12441]); (12500, [12498; 12442]); (12502, [12501; 12441]);
    (12503, [12501; 12442]); (12505, [12504; 12441]); (12506, [12504; 12442]);
    (12508, [12507; 12441]); (12509, [12507; 12442]); (12532, [12454; 12441]);
    (12535, [12527; 12441]); (12536, [12528; 12441]); (12537, [12529; 12441]);
    (12538, [12530; 12441]); (12542, [12541; 12441]); (63744, [35912]);
    (63745, [26356]); (63746, [36554]); (63747, [36040]); (63748, [28369]);
    (63749, [20018]); (63750, [21477]); (63751, [40860]); (63752, [40860]);
    (63753, [22865]); (63754, [37329]); (63755, [21895]); (63756, [22856]);
    (63757, [25078]); (63758, [30313]); (63759, [32645]); (63760, [34367]);
    (63761, [34746]); (63762, [35064]); (63763, [37007]); (63764, [27138]);
    (63765, [27931]); (63766, [28889]); (63767, [29662]); (63768, [33853]);
    (63769, [37226]); (63770, [39409]); (63771, [20098]); (63772, [21365]);
    (63773, [27396]); (63774, [29211]); (63775, [34349]); (63776, [40478]);
    (63777, [23888]); (63778, [28651]); (63779, [34253]); (63780, [35172]);
    (63781, [25289]); (63782, [33240]); (63783, [34847]); (63784, [24266]);
    (63785, [26391]); (63786, [28010]); (63787, [29436]); (63788, [37070]);
    (63789, [20358]); (63790, [20919]); (63791, [21214]); (63792, [25796]);
    (63793, [27347]); (63794, [29200]); (63795, [30439]); (63796, [32769]);
    (63797, [34310]); (63798, [34396]); (63799, [36335]); (63800, [38706]);
    (63801, [39791]); (63802, [40442]); (63803, [30860]); (63804, [31103]);
    (63805, [32160]); (63806, [33737]); (63807, [37636]); (63808, [40575]);
    (63809, [35542]); (63810, [22751]); (63811, [24324]); (63812, [31840]);
    (63813, [32894]); (63814, [29282]); (63815, [30922]); (63816, [36034]);
    (63817, [38647]); (63818, [22744]); (63819, [23650]); (63820, [27155]);
    (63821, [28122]); (63822, [28431]); (63823, [32047]); (63824, [32311]);
    (63825, [38475]); (63826, [21202]); (63827, [32907]); (63828, [20956]);
    (63829, [20940]); (63830, [31260]); (63831, [32190]); (63832, [33777]);
    (63833, [38517]); (63834, [35712]); (63835, [25295]); (63836, [27138]);
    (63837, [35582]); (63838, [20025]); (63839, [23527]); (63840, [24594]);
    (63841, [29575]); (63842, [30064]); (63843, [21271]); (63844, [30971]);
    (63845, [20415]); (63846, [24489]); (63847, [19981]); (63848, [27852]);
    (63849, [25976]); (63850, [32034]); (63851, [21443]); (63852, [22622]);
    (63853, [30465]); (63854, [33865]); (63855, [35498]); (63856, [27578]);
    (63857, [36784]); (63858, [27784]); (63859, [25342]); (63860, [33509]);
    (63861, [25504]); (63862, [30053]); (63863, [20142]); (63864, [20841]);
    (63865, [20937]); (63866, [26753]); (63867, [31975]); (63868, [33391]);
    (63869, [35538]); (63870, [37327]); (63871, [21237]); (63872, [21570]);
    (63873, [22899]); (63874, [24300]); (63875, [26053]); (63876, [28670]);
    (63877, [31018]); (63878, [38317]); (63879, [39530]); (63880, [40599]);
    (63881, [40654]); (63882, [21147]); (63883, [26310]); (63884, [27511]);
    (63885, [36706]); (63886, [24180]); (63887, [24976]); (63888, [25088]);
    (63889, [25754]); (63890, [28451]); (63891, [29001]); (63892, [29833]);
    (63893, [31178]); (63894, [32244]); (63895, [32879]); (63896, [36646]);
    (63897, [34030]); (63898, [36899]); (63899, [37706]); (63900, [21015]);
    (63901, [21155]); (63902, [21693]); (63903, [28872]); (63904, [35010]);
    (63905, [35498]); (63906, [24265]); (63907, [24565]); (63908, [25467]);
    (63909, [27566]); (63910, [31806]); (63911, [29557]); (63912, [20196]);
    (63913, [22265]); (63914, [23527]); (63915, [23994]); (63916, [24604]);
    (63917, [29618]); (63918, [29801]); (63919, [32666]); (63920, [32838]);
    (63921, [37428]); (63922, [38646]); (63923, [38728]); (63924, [38936]);
    (63925, [20363]); (63926, [31150]); (63927, [37300]); (63928, [38584]);
    (63929, [24801]); (63930, [20102]); (63931, [20698]); (63932, [23534]);
    (63933, [23615]); (63934, [26009]); (63935, [27138]); (63936, [29134]);
    (63937, [30274]); (63938, [34044]); (63939, [36988]); (63940, [40845]);
    (63941, [26248]); (63942, [38446]); (63943, [21129]); (63944, [26491]);
    (63945, [26611]); (63946, [27969]); (63947, [28316]); (63948, [29705]);
    (63949, [30041]); (63950, [30827]); (63951, [32016]); (63952, [39006]);
    (63953, [20845]); (63954, [25134]); (63955, [38520]); (63956, [20523]);
    (63957, [23833]); (63958, [28138]); (63959, [36650]); (63960, [24459]);
    (63961, [24900]); (63962, [26647]); (63963, [29575]); (63964, [38534]);
    (63965, [21033]); (63966, [21519]); (63967, [23653]); (63968, [26131]);
    (63969, [26446]); (63970, [26792]); (63971, [27877]); (63972, [29702]);
    (63973, [30178]); (63974, [32633]); (63975, [35023]); (63976, [35041]);
    (63977, [37324]); (63978, [38626]); (63979, [21311]); (63980, [28346]);
    (63981, [21533]); (63982, [29136]); (63983, [29848]); (63984, [34298]);
    (63985, [38563]); (63986, [40023]); (63987, [40607]); (63988, [26519]);
    (63989, [28107]); (63990, [33256]); (63991, [31435]); (63992, [31520]);
    (63993, [31890]); (63994, [29376]); (63995, [28825]); (63996, [35672]);
    (63997, [20160]); (63998, [33590]); (63999, [21050]); (64000, [20999]);
    (64001, [24230]); (64002, [25299]); (64003, [31958]); (64004, [23429]);
    (64005, [27934]); (64006, [26292]); (64007, [36667]); (64008, [34892]);
    (64009, [38477]); (64010, [35211]); (64011, [24275]); (64012, [20800]);
    (64013, [21952]); (64016, [22618]); (64018, [26228]); (64021, [20958]);
    (64022, [29482]); (64023, [30410]); (64024, [31036]); (64025, [31070]);
    (64026, [31077]); (64027, [31119]); (64028, [38742]); (64029, [31934]);
    (64030, [32701]); (64032, [34322]); (64034, [35576]); (64037, [36920]);
    (64038, [37117]); (64042, [39151]); (64043, [39164]); (64044, [39208]);
    (64045, [40372]); (64046, [37086]); (64047, [38583]); (64048, [20398]);
    (64049, [20711]); (64050, [20813]); (64051, [21193]); (64052, [21220]);
    (64053, [21329]); (64054, [21917]); (64055, [22022]); (64056, [22120]);
    (64057, [22592]); (64058, [22696]); (64059, [23652]); (64060, [23662]);
    (64061, [24724]); (64062, [24936]); (64063, [24974]); (64064, [25074]);
    (64065, [25935]); (64066, [26082]); (64067, [26257]); (64068, [26757]);
    (64069, [28023]); (64070, [28186]); (64071, [28450]); (64072, [29038]);
    (64073, [29227]); (64074, [29730]); (64075, [30865]); (64076, [31038]);
    (64077, [31049]); (64078, [31048]); (64079, [31056]); (64080, [31062]);
    (64081, [31069]); (64082, [31117]); (64083, [31118]); (64084, [31296]);
    (64085, [31361]); (64086, [31680]); (64087, [32244]); (64088, [32265]);
    (64089, [32321]); (64090, [32626]); (64091, [32773]); (64092, [33261]);
    (64093, [33401]); (64094, [33401]); (64095, [33879]); (64096, [35088]);
    (64097, [35222]); (64098, [35585]); (64099, [35641]); (64100, [36051]);
    (64101, [36104]); (64102, [36790]); (64103, [36920]); (64104, [38627]);
    (64105, [38911]); (64106, [38971]); (64107, [24693]); (64108, [148206]);
    (64109, [33304]); (64112, [20006]); (64113, [20917]); (64114, [20840]);
    (64115, [20352]); (64116, [20805]); (64117, [20864]); (64118, [21191]);
    (64119, [21242]); (64120, [21917]); (64121, [21845]); (64122, [21913]);
    (64123, [21986]); (64124, [22618]); (64125, [22707]); (64126, [22852]);
    (64127, [22868]); (64128, [23138]); (64129, [23336]); (64130, [24274]);
    (64131, [24281]); (64132, [24425]); (64133, [24493]); (64134, [24792]);
    (64135, [24910]); (64136, [24840]); (64137, [24974]); (64138, [24928]);
    (64139, [25074]); (64140, [25140]); (64141, [25540]); (64142, [25628]);
    (64143, [25682]); (64144, [25942]); (64145, [26228]); (64146, [26391]);
    (64147, [26395]); (64148, [26454]); (64149, [27513]); (64150, [27578]);
    (64151, [27969]); (64152, [28379]); (64153, [28363]); (64154, [28450]);
    (64155, [28702]); (64156, [29038]); (64157, [30631]); (64158, [29237]);
    (64159, [29359]); (64160, [29482]); (64161, [29809]); (64162, [29958]);
    (64163, [30011]); (64164, [30237]); (64165, [30239]); (64166, [30410]);
    (64167, [30427]); (64168, [30452]); (64169, [30538]); (64170, [30528]);
    (64171, [30924]); (64172, [31409]); (64173, [31680]); (64174, [31867]);
    (64175, [32091]); (64176, [32244]); (64177, [32574]); (64178, [32773]);
    (64179, [33618]); (64180, [33775]); (64181, [34681]); (64182, [35137]);
    (64183, [35206]); (64184, [35222]); (64185, [35519]); (64186, [35576]);
    (64187, [35531]); (64188, [35585]); (64189, [35582]); (64190, [35565]);
    (64191, [35641]); (64192, [35722]); (64193, [36104]); (64194, [36664]);
    (64195, [36978]); (64196, [37273]); (64197, [37494]); (64198, [38524]);
    (64199, [38627]); (64200, [38742]); (64201, [38875]); (64202, [38911]);
    (64203, [38923]); (64204, [38971]); (64205, [39698]); (64206, [40860]);
    (64207, [141386]); (64208, [141380]); (64209, [144341]); (64210, [15261]);
    (64211, [16408]); (64212, [16441]); (64213, [152137]); (64214, [154832]);
    (64215, [163539]); (64216, [40771]); (64217, [40846]);
    (64285, [1497; 1460]); (64287, [1522; 1463]); (64298, [1513; 1473]);
    (64299, [1513; 1474]); (64300, [1513; 1468; 1473]);
    (64301, [1513; 1468; 1474]); (64302, [1488; 1463]); (64303, [1488; 1464]);
    (64304, [1488; 1468]); (64305, [1489; 1468]); (64306, [1490; 1468]);
    (64307, [1491; 1468]); (64308, [1492; 1468]); (64309, [1493; 1468]);
    (64310, [1494; 1468]); (64312, [1496; 1468]); (64313, [1497; 1468]);
    (64314, [1498; 1468]); (64315, [1499; 1468]); (64316, [1500; 1468]);
    (64318, [1502; 1468]); (64320, [1504; 1468]); (64321, [1505; 1468]);
    (64323, [1507; 1468]); (64324, [1508; 1468]); (64326, [1510; 1468]);
    (64327, [1511; 1468]); (64328, [1512; 1468]); (64329, [1513; 1468]);
    (64330, [1514; 1468]); (64331, [1493; 1465]); (64332, [1489; 1471]);
    (64333, [1499; 1471]); (64334, [1508; 1471]); (69786, [69785; 69818]);
    (69788, [69787; 69818]); (69803, [69797; 69818]); (69934, [69937; 69927]);
    (69935, [69938; 69927]); (70475, [70471; 70462]); (70476, [70471; 70487]);
    (70843, [70841; 70842]); (70844, [70841; 70832]); (70846, [70841; 70845]);
    (71098, [71096; 71087]); (71099, [71097; 71087]); (71992, [71989; 71984]);
    (119134, [119127; 119141]); (119135, [119128; 119141]);
    (119136, [119128; 119141; 119150]); (119137, [119128; 119141; 119151]);
    (119138, [119128; 119141; 119152]); (119139, [119128; 119141; 119153]);
    (119140, [119128; 119141; 119154]); (119227, [119225; 119141]);
    (119228, [119226; 119141]); (119229, [119225; 119141; 119150]);
    (119230, [119226; 119141; 119150]); (119231, [119225; 119141; 119151]);
    (119232, [119226; 119141; 119151]); (194560, [20029]); (194561, [20024]);
    (194562, [20033]); (194563, [131362]); (194564, [20320]);
    (194565, [20398]); (194566, [20411]); (194567, [20482]);
    (194568, [20602]); (194569, [20633]); (194570, [20711]);
    (194571, [20687]); (194572, [13470]); (194573, [132666]);
    (194574, [20813]); (194575, [20820]); (194576, [20836]);
    (194577, [20855]); (194578, [132380]); (194579, [13497]);
    (194580, [20839]); (194581, [20877]); (194582, [132427]);
    (194583, [20887]); (194584, [20900]); (194585, [20172]);
    (194586, [20908]); (194587, [20917]); (194588, [168415]);
    (194589, [20981]); (194590, [20995]); (194591, [13535]);
    (194592, [21051]); (194593, [21062]); (194594, [21106]);
    (194595, [21111]); (194596, [13589]); (194597, [21191]);
    (194598, [21193]); (194599, [21220]); (194600, [21242]);
    (194601, [21253]); (194602, [21254]); (194603, [21271]);
    (194604, [21321]); (194605, [21329]); (194606, [21338]);
    (194607, [21363]); (194608, [21373]); (194609, [21375]);
    (194610, [21375]); (194611, [21375]); (194612, [133676]);
    (194613, [28784]); (194614, [21450]); (194615, [21471]);
    (194616, [133987]); (194617, [21483]); (194618, [21489]);
    (194619, [21510]); (194620, [21662]); (194621, [21560]);
    (194622, [21576]); (194623, [21608]); (194624, [21666]);
    (194625, [21750]); (194626, [21776]); (194627, [21843]);
    (194628, [21859]); (194629, [21892]); (194630, [21892]);
    (194631, [21913]); (194632, [21931]); (194633, [21939]);
    (194634, [21954]); (194635, [22294]); (194636, [22022]);
    (194637, [22295]); (194638, [22097]); (194639, [22132]);
    (194640, [20999]); (194641, [22766]); (194642, [22478]);
    (194643, [22516]); (194644, [22541]); (194645, [22411]);
    (194646, [22578]); (194647, [22577]); (194648, [22700]);
    (194649, [136420]); (194650, [22770]); (194651, [22775]);
    (194652, [22790]); (194653, [22810]); (194654, [22818]);
    (194655, [22882]); (194656, [136872]); (194657, [136938]);
    (194658, [23020]); (194659, [23067]); (194660, [23079]);
    (194661, [23000]); (194662, [23142]); (194663, [14062]);
    (194664, [14076]); (194665, [23304]); (194666, [23358]);
    (194667, [23358]); (194668, [137672]); (194669, [23491]);
    (194670, [23512]); (194671, [23527]); (194672, [23539]);
    (194673, [138008]); (194674, [23551]); (194675, [23558]);
    (194676, [24403]); (194677, [23586]); (194678, [14209]);
    (194679, [23648]); (194680, [23662]); (194681, [23744]);
    (194682, [23693]); (194683, [138724]); (194684, [23875]);
    (194685, [138726]); (194686, [23918]); (194687, [23915]);
    (194688, [23932]); (194689, [24033]); (194690, [24034]);
    (194691, [14383]); (194692, [24061]); (194693, [24104]);
    (194694, [24125]); (194695, [24169]); (194696, [14434]);
    (194697, [139651]); (194698, [14460]); (194699, [24240]);
    (194700, [24243]); (194701, [24246]); (194702, [24266]);
    (194703, [172946]); (194704, [24318]); (194705, [140081]);
    (194706, [140081]); (194707, [33281]); (194708, [24354]);
    (194709, [24354]); (194710, [14535]); (194711, [144056]);
    (194712, [156122]); (194713, [24418]); (194714, [24427]);
    (194715, [14563]); (194716, [24474]); (194717, [24525]);
    (194718, [24535]); (194719, [24569]); (194720, [24705]);
    (194721, [14650]); (194722, [14620]); (194723, [24724]);
    (194724, [141012]); (194725, [24775]); (194726, [24904]);
    (194727, [24908]); (194728, [24910]); (194729, [24908]);
    (194730, [24954]); (194731, [24974]); (194732, [25010]);
    (194733, [24996]); (194734, [25007]); (194735, [25054]);
    (194736, [25074]); (194737, [25078]); (194738, [25104]);
    (194739, [25115]); (194740, [25181]); (194741, [25265]);
    (194742, [25300]); (194743, [25424]); (194744, [142092]);
    (194745, [25405]); (194746, [25340]); (194747, [25448]);
    (194748, [25475]); (194749, [25572]); (194750, [142321]);
    (194751, [25634]); (194752, [25541]); (194753, [25513]);
    (194754, [14894]); (194755, [25705]); (194756, [25726]);
    (194757, [25757]); (194758, [25719]); (194759, [14956]);
    (194760, [25935]); (194761, [25964]); (194762, [143370]);
    (194763, [26083]); (194764, [26360]); (194765, [26185]);
    (194766, [15129]); (194767, [26257]); (194768, [15112]);
    (194769, [15076]); (194770, [20882]); (194771, [20885]);
    (194772, [26368]); (194773, [26268]); (194774, [32941]);
    (194775, [17369]); (194776, [26391]); (194777, [26395]);
    (194778, [26401]); (194779, [26462]); (194780, [26451]);
    (194781, [144323]); (194782, [15177]); (194783, [26618]);
    (194784, [26501]); (194785, [26706]); (194786, [26757]);
    (194787, [144493]); (194788, [26766]); (194789, [26655]);
    (194790, [26900]); (194791, [15261]); (194792, [26946]);
    (194793, [27043]); (194794, [27114]); (194795, [27304]);
    (194796, [145059]); (194797, [27355]); (194798, [15384]);
    (194799, [27425]); (194800, [145575]); (194801, [27476]);
    (194802, [15438]); (194803, [27506]); (194804, [27551]);
    (194805, [27578]); (194806, [27579]); (194807, [146061]);
    (194808, [138507]); (194809, [146170]); (194810, [27726]);
    (194811, [146620]); (194812, [27839]); (194813, [27853]);
    (194814, [27751]); (194815, [27926]); (194816, [27966]);
    (194817, [28023]); (194818, [27969]); (194819, [28009]);
    (194820, [28024]); (194821, [28037]); (194822, [146718]);
    (194823, [27956]); (194824, [28207]); (194825, [28270]);
    (194826, [15667]); (194827, [28363]); (194828, [28359]);
    (194829, [147153]); (194830, [28153]); (194831, [28526]);
    (194832, [147294]); (194833, [147342]); (194834, [28614]);
    (194835, [28729]); (194836, [28702]); (194837, [28699]);
    (194838, [15766]); (194839, [28746]); (194840, [28797]);
    (194841, [28791]); (194842, [28845]); (194843, [132389]);
    (194844, [28997]); (194845, [148067]); (194846, [29084]);
    (194847, [148395]); (194848, [29224]); (194849, [29237]);
    (194850, [29264]); (194851, [149000]); (194852, [29312]);
    (194853, [29333]); (194854, [149301]); (194855, [149524]);
    (194856, [29562]); (194857, [29579]); (194858, [16044]);
    (194859, [29605]); (194860, [16056]); (194861, [16056]);
    (194862, [29767]); (194863, [29788]); (194864, [29809]);
    (194865, [29829]); (194866, [29898]); (194867, [16155]);
    (194868, [29988]); (194869, [150582]); (194870, [30014]);
    (194871, [150674]); (194872, [30064]); (194873, [139679]);
    (194874, [30224]); (194875, [151457]); (194876, [151480]);
    (194877, [151620]); (194878, [16380]); (194879, [16392]);
    (194880, [30452]); (194881, [151795]); (194882, [151794]);
    (194883, [151833]); (194884, [151859]); (194885, [30494]);
    (194886, [30495]); (194887, [30495]); (194888, [30538]);
    (194889, [16441]); (194890, [30603]); (194891, [16454]);
    (194892, [16534]); (194893, [152605]); (194894, [30798]);
    (194895, [30860]); (194896, [30924]); (194897, [16611]);
    (194898, [153126]); (194899, [31062]); (194900, [153242]);
    (194901, [153285]); (194902, [31119]); (194903, [31211]);
    (194904, [16687]); (194905, [31296]); (194906, [31306]);
    (194907, [31311]); (194908, [153980]); (194909, [154279]);
    (194910, [154279]); (194911, [31470]); (194912, [16898]);
    (194913, [154539]); (194914, [31686]); (194915, [31689]);
    (194916, [16935]); (194917, [154752]); (194918, [31954]);
    (194919, [17056]); (194920, [31976]); (194921, [31971]);
    (194922, [32000]); (194923, [155526]); (194924, [32099]);
    (194925, [17153]); (194926, [32199]); (194927, [32258]);
    (194928, [32325]); (194929, [17204]); (194930, [156200]);
    (194931, [156231]); (194932, [17241]); (194933, [156377]);
    (194934, [32634]); (194935, [156478]); (194936, [32661]);
    (194937, [32762]); (194938, [32773]); (194939, [156890]);
    (194940, [156963]); (194941, [32864]); (194942, [157096]);
    (194943, [32880]); (194944, [144223]); (194945, [17365]);
    (194946, [32946]); (194947, [33027]); (194948, [17419]);
    (194949, [33086]); (194950, [23221]); (194951, [157607]);
    (194952, [157621]); (194953, [144275]); (194954, [144284]);
    (194955, [33281]); (194956, [33284]); (194957, [36766]);
    (194958, [17515]); (194959, [33425]); (194960, [33419]);
    (194961, [33437]); (194962, [21171]); (194963, [33457]);
    (194964, [33459]); (194965, [33469]); (194966, [33510]);
    (194967, [158524]); (194968, [33509]); (194969, [33565]);
    (194970, [33635]); (194971, [33709]); (194972, [33571]);
    (194973, [33725]); (194974, [33767]); (194975, [33879]);
    (194976, [33619]); (194977, [33738]); (194978, [33740]);
    (194979, [33756]); (194980, [158774]); (194981, [159083]);
    (194982, [158933]); (194983, [17707]); (194984, [34033]);
    (194985, [34035]); (194986, [34070]); (194987, [160714]);
    (194988, [34148]); (194989, [159532]); (194990, [17757]);
    (194991, [17761]); (194992, [159665]); (194993, [159954]);
    (194994, [17771]); (194995, [34384]); (194996, [34396]);
    (194997, [34407]); (194998, [34409]); (194999, [34473]);
    (195000, [34440]); (195001, [34574]); (195002, [34530]);
    (195003, [34681]); (195004, [34600]); (195005, [34667]);
    (195006, [34694]); (195007, [17879]); (195008, [34785]);
    (195009, [34817]); (195010, [17913]); (195011, [34912]);
    (195012, [34915]); (195013, [161383]); (195014, [35031]);
    (195015, [35038]); (195016, [17973]); (195017, [35066]);
    (195018, [13499]); (195019, [161966]); (195020, [162150]);
    (195021, [18110]); (195022, [18119]); (195023, [35488]);
    (195024, [35565]); (195025, [35722]); (195026, [35925]);
    (195027, [162984]); (195028, [36011]); (195029, [36033]);
    (195030, [36123]); (195031, [36215]); (195032, [163631]);
    (195033, [133124]); (195034, [36299]); (195035, [36284]);
    (195036, [36336]); (195037, [133342]); (195038, [36564]);
    (195039, [36664]); (195040, [165330]); (195041, [165357]);
    (195042, [37012]); (195043, [37105]); (195044, [37137]);
    (195045, [165678]); (195046, [37147]); (195047, [37432]);
    (195048, [37591]); (195049, [37592]); (195050, [37500]);
    (195051, [37881]); (195052, [37909]); (195053, [166906]);
    (195054, [38283]); (195055, [18837]); (195056, [38327]);
    (195057, [167287]); (195058, [18918]); (195059, [38595]);
    (195060, [23986]); (195061, [38691]); (195062, [168261]);
    (195063, [168474]); (195064, [19054]); (195065, [19062]);
    (195066, [38880]); (195067, [168970]); (195068, [19122]);
    (195069, [169110]); (195070, [38923]); (195071, [38923]);
    (195072, [38953]); (195073, [169398]); (195074, [39138]);
    (195075, [19251]); (195076, [39209]); (195077, [39335]);
    (195078, [39362]); (195079, [39422]); (195080, [19406]);
    (195081, [170800]); (195082, [39698]); (195083, [40000]);
    (195084, [40189]); (195085, [19662]); (195086, [19693]);
    (195087, [40295]); (195088, [172238]); (195089, [19704]);
    (195090, [172293]); (195091, [172558]); (195092, [172689]);
    (195093, [40635]); (195094, [19798]); (195095, [40697]);
    (195096, [40702]); (195097, [40709]); (195098, [40719]);
    (195099, [40726]); (195100, [40763]); (195101, [173568]) ].

(** Canonical_Combining_Class: ranges [(first, last, class)] of the code
    points whose class is not 0. *)
Definition combiningClass : list (N * N * N) :=
  [
    (768, 788, 230); (789, 789, 232); (790, 793, 220); (794, 794, 232);
    (795, 795, 216); (796, 800, 220); (801, 802, 202); (803, 806, 220);
    (807, 808, 202); (809, 819, 220); (820, 824, 1); (825, 828, 220);
    (829, 836, 230); (837, 837, 240); (838, 838, 230); (839, 841, 220);
    (842, 844, 230); (845, 846, 220); (848, 850, 230); (851, 854, 220);
    (855, 855, 230); (856, 856, 232); (857, 858, 220); (859, 859, 230);
    (860, 860, 233); (861, 862, 234); (863, 863, 233); (864, 865, 234);
    (866, 866, 233); (867, 879, 230); (1155, 1159, 230); (1425, 1425, 220);
    (1426, 1429, 230); (1430, 1430, 220); (1431, 1433, 230);
    (1434, 1434, 222); (1435, 1435, 220); (1436, 1441, 230);
    (1442, 1447, 220); (1448, 1449, 230); (1450, 1450, 220);
    (1451, 1452, 230); (1453, 1453, 222); (1454, 1454, 228);
    (1455, 1455, 230); (1456, 1456, 10); (1457, 1457, 11); (1458, 1458, 12);
    (1459, 1459, 13); (1460, 1460, 14); (1461, 1461, 15); (1462, 1462, 16);
    (1463, 1463, 17); (1464, 1464, 18); (1465, 1466, 19); (1467, 1467, 20);
    (1468, 1468, 21); (1469, 1469, 22); (1471, 1471, 23); (1473, 1473, 24);
    (1474, 1474, 25); (1476, 1476, 230); (1477, 1477, 220); (1479, 1479, 18);
    (1552, 1559, 230); (1560, 1560, 30); (1561, 1561, 31); (1562, 1562, 32);
    (1611, 1611, 27); (1612, 1612, 28); (1613, 1613, 29); (1614, 1614, 30);
    (1615, 1615, 31); (1616, 1616, 32); (1617, 1617, 33); (1618, 1618, 34);
    (1619, 1620, 230); (1621, 1622, 220); (1623, 1627, 230);
    (1628, 1628, 220); (1629, 1630, 230); (1631, 1631, 220); (1648, 1648, 35);
    (1750, 1756, 230); (1759, 1762, 230); (1763, 1763, 220);
    (1764, 1764, 230); (1767, 1768, 230); (1770, 1770, 220);
    (1771, 1772, 230); (1773, 1773, 220); (1809, 1809, 36); (1840, 1840, 230);
    (1841, 1841, 220); (1842, 1843, 230); (1844, 1844, 220);
    (1845, 1846, 230); (1847, 1849, 220); (1850, 1850, 230);
    (1851, 1852, 220); (1853, 1853, 230); (1854, 1854, 220);
    (1855, 1857, 230); (1858, 1858, 220); (1859, 1859, 230);
    (1860, 1860, 220); (1861, 1861, 230); (1862, 1862, 220);
    (1863, 1863, 230); (1864, 1864, 220); (1865, 1866, 230);
    (2027, 2033, 230); (2034, 2034, 220); (2035, 2035, 230);
    (2045, 2045, 220); (2070, 2073, 230); (2075, 2083, 230);
    (2085, 2087, 230); (2089, 2093, 230); (2137, 2139, 220);
    (2200, 2200, 230); (2201, 2203, 220); (2204, 2207, 230);
    (2250, 2254, 230); (2255, 2259, 220); (2260, 2273, 230);
    (2275, 2275, 220); (2276, 2277, 230); (2278, 2278, 220);
    (2279, 2280, 230); (2281, 2281, 220); (2282, 2284, 230);
    (2285, 2287, 220); (2288, 2288, 27); (2289, 2289, 28); (2290, 2290, 29);
    (2291, 2293, 230); (2294, 2294, 220); (2295, 2296, 230);
    (2297, 2298, 220); (2299, 2303, 230); (2364, 2364, 7); (2381, 2381, 9);
    (2385, 2385, 230); (2386, 2386, 220); (2387, 2388, 230); (2492, 2492, 7);
    (2509, 2509, 9); (2558, 2558, 230); (2620, 2620, 7); (2637, 2637, 9);
    (2748, 2748, 7); (2765, 2765, 9); (2876, 2876, 7); (2893, 2893, 9);
    (3021, 3021, 9); (3132, 3132, 7); (3149, 3149, 9); (3157, 3157, 84);
    (3158, 3158, 91); (3260, 3260, 7); (3277, 3277, 9); (3387, 3388, 9);
    (3405, 3405, 9); (3530, 3530, 9); (3640, 3641, 103); (3642, 3642, 9);
    (3656, 3659, 107); (3768, 3769, 118); (3770, 3770, 9); (3784, 3787, 122);
    (3864, 3865, 220); (3893, 3893, 220); (3895, 3895, 220);
    (3897, 3897, 216); (3953, 3953, 129); (3954, 3954, 130);
    (3956, 3956, 132); (3962, 3965, 130); (3968, 3968, 130);
    (3970, 3971, 230); (3972, 3972, 9); (3974, 3975, 230); (4038, 4038, 220);
    (4151, 4151, 7); (4153, 4154, 9); (4237, 4237, 220); (4957, 4959, 230);
    (5908, 5909, 9); (5940, 5940, 9); (6098, 6098, 9); (6109, 6109, 230);
    (6313, 6313, 228); (6457, 6457, 222); (6458, 6458, 230);
    (6459, 6459, 220); (6679, 6679, 230); (6680, 6680, 220); (6752, 6752, 9);
    (6773, 6780, 230); (6783, 6783, 220); (6832, 6836, 230);
    (6837, 6842, 220); (6843, 6844, 230); (6845, 6845, 220);
    (6847, 6848, 220); (6849, 6850, 230); (6851, 6852, 220);
    (6853, 6857, 230); (6858, 6858, 220); (6859, 6862, 230); (6964, 6964, 7);
    (6980, 6980, 9); (7019, 7019, 230); (7020, 7020, 220); (7021, 7027, 230);
    (7082, 7083, 9); (7142, 7142, 7); (7154, 7155, 9); (7223, 7223, 7);
    (7376, 7378, 230); (7380, 7380, 1); (7381, 7385, 220); (7386, 7387, 230);
    (7388, 7391, 220); (7392, 7392, 230); (7394, 7400, 1); (7405, 7405, 220);
    (7412, 7412, 230); (7416, 7417, 230); (7616, 7617, 230);
    (7618, 7618, 220); (7619, 7625, 230); (7626, 7626, 220);
    (7627, 7628, 230); (7629, 7629, 234); (7630, 7630, 214);
    (7631, 7631, 220); (7632, 7632, 202); (7633, 7669, 230);
    (7670, 7670, 232); (7671, 7672, 228); (7673, 7673, 220);
    (7674, 7674, 218); (7675, 7675, 230); (7676, 7676, 233);
    (7677, 7677, 220); (7678, 7678, 230); (7679, 7679, 220);
    (8400, 8401, 230); (8402, 8403, 1); (8404, 8407, 230); (8408, 8410, 1);
    (8411, 8412, 230); (8417, 8417, 230); (8421, 8422, 1); (8423, 8423, 230);
    (8424, 8424, 220); (8425, 8425, 230); (8426, 8427, 1); (8428, 8431, 220);
    (8432, 8432, 230); (11503, 11505, 230); (11647, 11647, 9);
    (11744, 11775, 230); (12330, 12330, 218); (12331, 12331, 228);
    (12332, 12332, 232); (12333, 12333, 222); (12334, 12335, 224);
    (12441, 12442, 8); (42607, 42607, 230); (42612, 42621, 230);
    (42654, 42655, 230); (42736, 42737, 230); (43014, 43014, 9);
    (43052, 43052, 9); (43204, 43204, 9); (43232, 43249, 230);
    (43307, 43309, 220); (43347, 43347, 9); (43443, 43443, 7);
    (43456, 43456, 9); (43696, 43696, 230); (43698, 43699, 230);
    (43700, 43700, 220); (43703, 43704, 230); (43710, 43711, 230);
    (43713, 43713, 230); (43766, 43766, 9); (44013, 44013, 9);
    (64286, 64286, 26); (65056, 65062, 230); (65063, 65069, 220);
    (65070, 65071, 230); (66045, 66045, 220); (66272, 66272, 220);
    (66422, 66426, 230); (68109, 68109, 220); (68111, 68111, 230);
    (68152, 68152, 230); (68153, 68153, 1); (68154, 68154, 220);
    (68159, 68159, 9); (68325, 68325, 230); (68326, 68326, 220);
    (68900, 68903, 230); (69291, 69292, 230); (69446, 69447, 220);
    (69448, 69450, 230); (69451, 69451, 220); (69452, 69452, 230);
    (69453, 69456, 220); (69506, 69506, 230); (69507, 69507, 220);
    (69508, 69508, 230); (69509, 69509, 220); (69702, 69702, 9);
    (69744, 69744, 9); (69759, 69759, 9); (69817, 69817, 9);
    (69818, 69818, 7); (69888, 69890, 230); (69939, 69940, 9);
    (70003, 70003, 7); (70080, 70080, 9); (70090, 70090, 7);
    (70197, 70197, 9); (70198, 70198, 7); (70377, 70377, 7);
    (70378, 70378, 9); (70459, 70460, 7); (70477, 70477, 9);
    (70502, 70508, 230); (70512, 70516, 230); (70722, 70722, 9);
    (70726, 70726, 7); (70750, 70750, 230); (70850, 70850, 9);
    (70851, 70851, 7); (71103, 71103, 9); (71104, 71104, 7);
    (71231, 71231, 9); (71350, 71350, 9); (71351, 71351, 7);
    (71467, 71467, 9); (71737, 71737, 9); (71738, 71738, 7);
    (71997, 71998, 9); (72003, 72003, 7); (72160, 72160, 9);
    (72244, 72244, 9); (72263, 72263, 9); (72345, 72345, 9);
    (72767, 72767, 9); (73026, 73026, 7); (73028, 73029, 9);
    (73111, 73111, 9); (92912, 92916, 1); (92976, 92982, 230);
    (94192, 94193, 6); (113822, 113822, 1); (119141, 119142, 216);
    (119143, 119145, 1); (119149, 119149, 226); (119150, 119154, 216);
    (119163, 119170, 220); (119173, 119177, 230); (119178, 119179, 220);
    (119210, 119213, 230); (119362, 119364, 230); (122880, 122886, 230);
    (122888, 122904, 230); (122907, 122913, 230); (122915, 122916, 230);
    (122918, 122922, 230); (123184, 123190, 230); (123566, 123566, 230);
    (123628, 123631, 230); (125136, 125142, 220); (125252, 125257, 230);
    (125258, 125258, 7) ].

(** Case_Ignorable, as ranges [(first, last)]. *)
Definition caseIgnorable : list (N * N) :=
  [
    (39, 39); (46, 46); (58, 58); (94, 94); (96, 96); (168, 168); (173, 173);
    (175, 175); (180, 180); (183, 184); (688, 879); (884, 885); (890, 890);
    (900, 901); (903, 903); (1155, 1161); (1369, 1369); (1375, 1375);
    (1425, 1469); (1471, 1471); (1473, 1474); (1476, 1477); (1479, 1479);
    (1524, 1524); (1536, 1541); (1552, 1562); (1564, 1564); (1600, 1600);
    (1611, 1631); (1648, 1648); (1750, 1757); (1759, 1768); (1770, 1773);
    (1807, 1807); (1809, 1809); (1840, 1866); (1958, 1968); (2027, 2037);
    (2042, 2042); (2045, 2045); (2070, 2093); (2137, 2139); (2184, 2184);
    (2192, 2193); (2200, 2207); (2249, 2306); (2362, 2362); (2364, 2364);
    (2369, 2376); (2381, 2381); (2385, 2391); (2402, 2403); (2417, 2417);
    (2433, 2433); (2492, 2492); (2497, 2500); (2509, 2509); (2530, 2531);
    (2558, 2558); (2561, 2562); (2620, 2620); (2625, 2626); (2631, 2632);
    (2635, 2637); (2641, 2641); (2672, 2673); (2677, 2677); (2689, 2690);
    (2748, 2748); (2753, 2757); (2759, 2760); (2765, 2765); (2786, 2787);
    (2810, 2815); (2817, 2817); (2876, 2876); (2879, 2879); (2881, 2884);
    (2893, 2893); (2901, 2902); (2914, 2915); (2946, 2946); (3008, 3008);
    (3021, 3021); (3072, 3072); (3076, 3076); (3132, 3132); (3134, 3136);
    (3142, 3144); (3146, 3149); (3157, 3158); (3170, 3171); (3201, 3201);
    (3260, 3260); (3263, 3263); (3270, 3270); (3276, 3277); (3298, 3299);
    (3328, 3329); (3387, 3388); (3393, 3396); (3405, 3405); (3426, 3427);
    (3457, 3457); (3530, 3530); (3538, 3540); (3542, 3542); (3633, 3633);
    (3636, 3642); (3654, 3662); (3761, 3761); (3764, 3772); (3782, 3782);
    (3784, 3789); (3864, 3865); (3893, 3893); (3895, 3895); (3897, 3897);
    (3953, 3966); (3968, 3972); (3974, 3975); (3981, 3991); (3993, 4028);
    (4038, 4038); (4141, 4144); (4146, 4151); (4153, 4154); (4157, 4158);
    (4184, 4185); (4190, 4192); (4209, 4212); (4226, 4226); (4229, 4230);
    (4237, 4237); (4253, 4253); (4348, 4348); (4957, 4959); (5906, 5908);
    (5938, 5939); (5970, 5971); (6002, 6003); (6068, 6069); (6071, 6077);
    (6086, 6086); (6089, 6099); (6103, 6103); (6109, 6109); (6155, 6159);
    (6211, 6211); (6277, 6278); (6313, 6313); (6432, 6434); (6439, 6440);
    (6450, 6450); (6457, 6459); (6679, 6680); (6683, 6683); (6742, 6742);
    (6744, 6750); (6752, 6752); (6754, 6754); (6757, 6764); (6771, 6780);
    (6783, 6783); (6823, 6823); (6832, 6862); (6912, 6915); (6964, 6964);
    (6966, 6970); (6972, 6972); (6978, 6978); (7019, 7027); (7040, 7041);
    (7074, 7077); (7080, 7081); (7083, 7085); (7142, 7142); (7144, 7145);
    (7149, 7149); (7151, 7153); (7212, 7219); (7222, 7223); (7288, 7293);
    (7376, 7378); (7380, 7392); (7394, 7400); (7405, 7405); (7412, 7412);
    (7416, 7417); (7468, 7530); (7544, 7544); (7579, 7679); (8125, 8125);
    (8127, 8129); (8141, 8143); (8157, 8159); (8173, 8175); (8189, 8190);
    (8203, 8207); (8216, 8217); (8228, 8228); (8231, 8231); (8234, 8238);
    (8288, 8292); (8294, 8303); (8305, 8305); (8319, 8319); (8336, 8348);
    (8400, 8432); (11388, 11389); (11503, 11505); (11631, 11631);
    (11647, 11647); (11744, 11775); (11823, 11823); (12293, 12293);
    (12330, 12333); (12337, 12341); (12347, 12347); (12441, 12446);
    (12540, 12542); (40981, 40981); (42232, 42237); (42508, 42508);
    (42607, 42610); (42612, 42621); (42623, 42623); (42652, 42655);
    (42736, 42737); (42752, 42785); (42864, 42864); (42888, 42890);
    (42994, 42996); (43000, 43001); (43010, 43010); (43014, 43014);
    (43019, 43019); (43045, 43046); (43052, 43052); (43204, 43205);
    (43232, 43249); (43263, 43263); (43302, 43309); (43335, 43345);
    (43392, 43394); (43443, 43443); (43446, 43449); (43452, 43453);
    (43471, 43471); (43493, 43494); (43561, 43566); (43569, 43570);
    (43573, 43574); (43587, 43587); (43596, 43596); (43632, 43632);
    (43644, 43644); (43696, 43696); (43698, 43700); (43703, 43704);
    (43710, 43711); (43713, 43713); (43741, 43741); (43756, 43757);
    (43763, 43764); (43766, 43766); (43867, 43871); (43881, 43883);
    (44005, 44005); (44008, 44008); (44013, 44013); (64286, 64286);
    (64434, 64450); (65024, 65039); (65043, 65043); (65056, 65071);
    (65106, 65106); (65109, 65109); (65279, 65279); (65287, 65287);
    (65294, 65294); (65306, 65306); (65342, 65342); (65344, 65344);
    (65392, 65392); (65438, 65439); (65507, 65507); (65529, 65531);
    (66045, 66045); (66272, 66272); (66422, 66426); (67456, 67461);
    (67463, 67504); (67506, 67514); (68097, 68099); (68101, 68102);
    (68108, 68111); (68152, 68154); (68159, 68159); (68325, 68326);
    (68900, 68903); (69291, 69292); (69446, 69456); (69506, 69509);
    (69633, 69633); (69688, 69702); (69744, 69744); (69747, 69748);
    (69759, 69761); (69811, 69814); (69817, 69818); (69821, 69821);
    (69826, 69826); (69837, 69837); (69888, 69890); (69927, 69931);
    (69933, 69940); (70003, 70003); (70016, 70017); (70070, 70078);
    (70089, 70092); (70095, 70095); (70191, 70193); (70196, 70196);
    (70198, 70199); (70206, 70206); (70367, 70367); (70371, 70378);
    (70400, 70401); (70459, 70460); (70464, 70464); (70502, 70508);
    (70512, 70516); (70712, 70719); (70722, 70724); (70726, 70726);
    (70750, 70750); (70835, 70840); (70842, 70842); (70847, 70848);
    (70850, 70851); (71090, 71093); (71100, 71101); (71103, 71104);
    (71132, 71133); (71219, 71226); (71229, 71229); (71231, 71232);
    (71339, 71339); (71341, 71341); (71344, 71349); (71351, 71351);
    (71453, 71455); (71458, 71461); (71463, 71467); (71727, 71735);
    (71737, 71738); (71995, 71996); (71998, 71998); (72003, 72003);
    (72148, 72151); (72154, 72155); (72160, 72160); (72193, 72202);
    (72243, 72248); (72251, 72254); (72263, 72263); (72273, 72278);
    (72281, 72283); (72330, 72342); (72344, 72345); (72752, 72758);
    (72760, 72765); (72767, 72767); (72850, 72871); (72874, 72880);
    (72882, 72883); (72885, 72886); (73009, 73014); (73018, 73018);
    (73020, 73021); (73023, 73029); (73031, 73031); (73104, 73105);
    (73109, 73109); (73111, 73111); (73459, 73460); (78896, 78904);
    (92912, 92916); (92976, 92982); (92992, 92995); (94031, 94031);
    (94095, 94111); (94176, 94177); (94179, 94180); (110576, 110579);
    (110581, 110587); (110589, 110590); (113821, 113822); (113824, 113827);
    (118528, 118573); (118576, 118598); (119143, 119145); (119155, 119170);
    (119173, 119179); (119210, 119213); (119362, 119364); (121344, 121398);
    (121403, 121452); (121461, 121461); (121476, 121476); (121499, 121503);
    (121505, 121519); (122880, 122886); (122888, 122904); (122907, 122913);
    (122915, 122916); (122918, 122922); (123184, 123197); (123566, 123566);
    (123628, 123631); (125136, 125142); (125252, 125259); (127995, 127999);
    (917505, 917505); (917536, 917631); (917760, 917999) ].

(** Cased, as ranges of the code points that are not Case_Ignorable
    (the test for Cased is only reached for those). *)
Definition casedLetter : list (N * N) :=
  [
    (65, 90); (97, 122); (170, 170); (181, 181); (186, 186); (192, 214);
    (216, 246); (248, 442); (444, 447); (452, 659); (661, 687); (880, 883);
    (886, 887); (891, 893); (895, 895); (902, 902); (904, 906); (908, 908);
    (910, 929); (931, 1013); (1015, 1153); (1162, 1327); (1329, 1366);
    (1376, 1416); (4256, 4293); (4295, 4295); (4301, 4301); (4304, 4346);
    (4349, 4351); (5024, 5109); (5112, 5117); (7296, 7304); (7312, 7354);
    (7357, 7359); (7424, 7467); (7531, 7543); (7545, 7578); (7680, 7957);
    (7960, 7965); (7968, 8005); (8008, 8013); (8016, 8023); (8025, 8025);
    (8027, 8027); (8029, 8029); (8031, 8061); (8064, 8116); (8118, 8124);
    (8126, 8126); (8130, 8132); (8134, 8140); (8144, 8147); (8150, 8155);
    (8160, 8172); (8178, 8180); (8182, 8188); (8450, 8450); (8455, 8455);
    (8458, 8467); (8469, 8469); (8473, 8477); (8484, 8484); (8486, 8486);
    (8488, 8488); (8490, 8493); (8495, 8500); (8505, 8505); (8508, 8511);
    (8517, 8521); (8526, 8526); (8544, 8575); (8579, 8580); (9398, 9449);
    (11264, 11387); (11390, 11492); (11499, 11502); (11506, 11507);
    (11520, 11557); (11559, 11559); (11565, 11565); (42560, 42605);
    (42624, 42651); (42786, 42863); (42865, 42887); (42891, 42894);
    (42896, 42954); (42960, 42961); (42963, 42963); (42965, 42969);
    (42997, 42998); (43002, 43002); (43824, 43866); (43872, 43880);
    (43888, 43967); (64256, 64262); (64275, 64279); (65313, 65338);
    (65345, 65370); (66560, 66639); (66736, 66771); (66776, 66811);
    (66928, 66938); (66940, 66954); (66956, 66962); (66964, 66965);
    (66967, 66977); (66979, 66993); (66995, 67001); (67003, 67004);
    (68736, 68786); (68800, 68850); (71840, 71903); (93760, 93823);
    (119808, 119892); (119894, 119964); (119966, 119967); (119970, 119970);
    (119973, 119974); (119977, 119980); (119982, 119993); (119995, 119995);
    (119997, 120003); (120005, 120069); (120071, 120074); (120077, 120084);
    (120086, 120092); (120094, 120121); (120123, 120126); (120128, 120132);
    (120134, 120134); (120138, 120144); (120146, 120485); (120488, 120512);
    (120514, 120538); (120540, 120570); (120572, 120596); (120598, 120628);
    (120630, 120654); (120656, 120686); (120688, 120712); (120714, 120744);
    (120746, 120770); (120772, 120779); (122624, 122633); (122635, 122654);
    (125184, 125251); (127280, 127305); (127312, 127337); (127344, 127369) ].

(** The tables indexed by code point. *)
Definition byCodePoint {A} (table : list (N * A)) : Pmap A :=
  list_to_map (List.map (fun e => (N.succ_pos (fst e), snd e)) table).

Definition lowercaseIndex : Pmap N :=
  Eval vm_compute in byCodePoint simpleLowercase.

Definition decompositionIndex : Pmap (list N) :=
  Eval vm_compute in byCodePoint canonicalDecomposition.

Definition classesOf (r : N * N * N) : list (N * N) :=
  List.map (fun k => (fst (fst r) + N.of_nat k, snd r))
    (seq 0 (N.to_nat (snd (fst r) - fst (fst r) + 1))).

Definition classIndex : Pmap N :=
  Eval vm_compute in byCodePoint (List.flat_map classesOf combiningClass).

Definition inRanges (ranges : list (N * N)) (c : N) : bool :=
  List.existsb (fun r => inRange (fst r) (snd r) c) ranges.

(** *** Code units and code points *)

Definition isHighSurrogate (c : N) : bool := inRange 55296 56319 c.
Definition isLowSurrogate (c : N) : bool := inRange 56320 57343 c.

(** StringToCodePoints: a high surrogate followed by a low one is one
    code point; any other code unit, a lone surrogate included, is the
    code point of its own value. *)
Fixpoint stringToCodePoints (s : jsstring) : list N :=
  match s with
  | [] => []
  | c :: t =>
      match t with
      | d :: t' =>
          if isHighSurrogate c && isLowSurrogate d
          then (65536 + (c - 55296) * 1024 + (d - 56320))
               :: stringToCodePoints t'
          else c :: stringToCodePoints t
      | [] => [c]
      end
  end.

(** UTF16EncodeCodePoint and CodePointsToString. *)
Definition utf16 (cp : N) : jsstring :=
  if inRange 65536 1114111 cp
  then [55296 + (cp - 65536) / 1024; 56320 + (cp - 65536) mod 1024]
  else [cp].

Definition codePointsToString (l : list N) : jsstring :=
  List.flat_map utf16 l.

(** *** [String.prototype.toLowerCase]

    The toLowercase algorithm of the Unicode default case conversion:
    every code point is replaced by its lowercase mapping, which is the
    simple mapping but for U+0130 (it maps to U+0069 U+0307) and for
    U+03A3, which maps to U+03C2 under the Final_Sigma condition and
    to U+03C3 otherwise.  The condition looks through the case-ignorable
    code points on both sides: the nearest other code point before must
    be cased, and the nearest one after must not. *)

Fixpoint casedAhead (l : list N) : bool :=
  match l with
  | [] => false
  | c :: t => if inRanges caseIgnorable c then casedAhead t
              else inRanges casedLetter c
  end.

(** [before] is the text before the sigma, nearest code point first. *)
Definition finalSigma (before after : list N) : bool :=
  casedAhead before && negb (casedAhead after).

Definition lowercaseMapping (c : N) : list N :=
  if c =? 304 then [105; 775]
  else match lowercaseIndex !! N.succ_pos c with
       | Some l => [l]
       | None => [c]
       end.

Fixpoint toLowercaseAt (before l : list N) : list N :=
  match l with
  | [] => []
  | c :: after =>
      (if c =? 931 then [if finalSigma before after then 962 else 963]
       else lowercaseMapping c)
      ++ toLowercaseAt (c :: before) after
  end.

Definition toLowerCase (s : jsstring) : jsstring :=
  codePointsToString (toLowercaseAt [] (stringToCodePoints s)).

(** *** [String.prototype.normalize] to NFD

    Every code point is replaced by its full canonical decomposition,
    then every maximal run of code points of non-zero combining class
    is sorted by class, code points of equal class keeping their
    order. *)

(** A syllable U+AC00..U+D7A3 is its leading consonant, its vowel and,
    if it has one, its trailing consonant. *)
Definition hangul (c : N) : list N :=
  let s := c - 44032 in
  [4352 + s / 588; 4449 + (s mod 588) / 28]
  ++ (if s mod 28 =? 0 then [] else [4519 + s mod 28]).

Definition decompose (c : N) : list N :=
  if inRange 44032 55203 c then hangul c
  else match decompositionIndex !! N.succ_pos c with
       | Some d => d
       | None => [c]
       end.

Definition ccc (c : N) : N := default 0 (classIndex !! N.succ_pos c).

(** [c] goes behind the marks of its run whose class is not greater. *)
Fixpoint insertMark (c : N) (run : list N) : list N :=
  match run with
  | [] => [c]
  | d :: r => if ccc d <=? ccc c then d :: insertMark c r else c :: run
  end.

(** [run] is the sorted run of marks that precedes [l]. *)
Fixpoint reorderAt (run l : list N) : list N :=
  match l with
  | [] => run
  | c :: t => if ccc c =? 0 then run ++ c :: reorderAt [] t
              else reorderAt (insertMark c run) t
  end.

Definition canonicalOrder (l : list N) : list N := reorderAt [] l.

Definition normalizeNFD (s : jsstring) : jsstring :=
  codePointsToString
    (canonicalOrder (List.flat_map decompose (stringToCodePoints s))).

(** The class [[U+0300-U+036F]] of combining diacritical marks. *)
Definition isCombiningMark (c : N) : bool := inRange 768 879 c.

(** ** Regular expressions

    The two extraction patterns are sequences of greedy, bounded or
    unbounded repetitions of a character class and of word-boundary
    assertions, joined by a top-level alternation.  [matchSeq] is the
    backtracking matcher for that fragment: it returns, for the first
    way the pattern matches at the current position, the number of code
    units each atom consumed. *)

Inductive atom : Type :=
| Rep (cls : N -> bool) (lo : nat) (hi : option nat)
| WordB.

Definition belowMax (n : nat) (hi : option nat) : bool :=
  match hi with
  | Some h => (n <? h)%nat
  | None => true
  end.

Definition isWordOpt (c : option N) : bool :=
  match c with
  | Some x => isWordChar x
  | None => false
  end.

(** [\b] between the code unit before the position and the one at it. *)
Definition atWordBoundary (prev : option N) (s : jsstring) : bool :=
  xorb (isWordOpt prev) (isWordOpt (List.head s)).

(** Greedy repetition: take one more code unit while the class and the
    upper bound allow it and the rest of the pattern then matches;
    otherwise stop here if the lower bound is met. *)
Fixpoint matchRep (cls : N -> bool) (lo : nat) (hi : option nat)
  (k : option N -> jsstring -> option (list nat))
  (n : nat) (prev : option N) (s : jsstring) {struct s}
  : option (list nat) :=
  let stop :=
    if (lo <=? n)%nat then option_map (cons n) (k prev s) else None in
  match s with
  | c :: t =>
      if cls c && belowMax n hi then
        match matchRep cls lo hi k (S n) (Some c) t with
        | Some r => Some r
        | None => stop
        end
      else stop
  | [] => stop
  end.

Fixpoint matchSeq (atoms : list atom) (prev : option N) (s : jsstring)
  : option (list nat) :=
  match atoms with
  | [] => Some []
  | Rep cls lo hi :: rest => matchRep cls lo hi (matchSeq rest) 0 prev s
  | WordB :: rest =>
      if atWordBoundary prev s
      then option_map (cons 0%nat) (matchSeq rest prev s)
      else None
  end.

(** A pattern is the list of its alternatives, tried left to right. *)
Definition regex := list (list atom).

Fixpoint matchAt (re : regex) (prev : option N) (s : jsstring)
  : option (list nat) :=
  match re with
  | [] => None
  | alt :: more =>
      match matchSeq alt prev s with
      | Some lens => Some lens
      | None => matchAt more prev s
      end
  end.

(** One match: the input from the position where the match starts, and
    the lengths consumed by the atoms. *)
Record rmatch : Type := { m_input : jsstring; m_lens : list nat }.

Definition matchLength (m : rmatch) : nat := list_sum (m_lens m).

(** [match[0]] *)
Definition matched (m : rmatch) : jsstring :=
  firstn (matchLength m) (m_input m).

(** The text consumed by atom number [i]. *)
Definition group (i : nat) (m : rmatch) : jsstring :=
  firstn (nth i (m_lens m) 0%nat)
         (skipn (list_sum (firstn i (m_lens m))) (m_input m)).

(** The loop [lastIndex = 0; while ((match = re.exec(s)) !== null)] of a
    global pattern: the leftmost match from [lastIndex] on, then again
    from the end of that match.  [skip] counts the code units still
    covered by the previous match.  Neither pattern matches the empty
    string, so no match starts at the end of the input. *)
Fixpoint execFrom (re : regex) (skip : nat) (prev : option N)
  (s : jsstring) : list rmatch :=
  match s with
  | [] => []
  | c :: t =>
      match skip with
      | S k => execFrom re k (Some c) t
      | O =>
          match matchAt re prev s with
          | Some lens =>
              {| m_input := s; m_lens := lens |}
                :: execFrom re (list_sum lens - 1) (Some c) t
          | None => execFrom re 0 (Some c) t
          end
      end
  end.

Definition execAll (re : regex) (s : jsstring) : list rmatch :=
  execFrom re 0 None s.

(** ** Data model ([types.ts]) *)

(** A [File] handle is opaque; only its identity matters. *)
Definition File : Type := N.

Record FileNode : Type := {
  name : jsstring;
  path : jsstring;
  lastModified : Z;
  fileObject : option File
}.

Inductive MatchStatus : Type := FOUND | NOT_FOUND | AMBIGUOUS | NO_QUERY.

(** [AnalysisResult].  [node] is how a row refers to its file nodes: by
    value where the code only reads them, by reference into the store
    where it updates them in place. *)
Record AnalysisResult (node : Type) : Type := {
  rowId : Z;
  originalContent : jsstring;
  targetFolder : option jsstring;
  extractedQueries : list jsstring;
  extractedDates : list jsstring;
  matchStatus : MatchStatus;
  matchedFile : option node;
  candidates : option (list node);
  manualResolutions : option (list node);
  isIgnored : option bool
}.

Arguments rowId {node} _.
Arguments originalContent {node} _.
Arguments targetFolder {node} _.
Arguments extractedQueries {node} _.
Arguments extractedDates {node} _.
Arguments matchStatus {node} _.
Arguments matchedFile {node} _.
Arguments candidates {node} _.
Arguments manualResolutions {node} _.
Arguments isIgnored {node} _.

(** ** [services/matcher.ts] *)

Module Matcher.

(** [QUOTE_REGEX]: an opening quote (U+0022 or U+201C), one or more
    code units that are not a closing quote (U+0022 or U+201D) as group
    1, and a closing quote; global. *)
Definition isOpenQuote (c : N) : bool := (c =? 34) || (c =? 8220).
Definition isCloseQuote (c : N) : bool := (c =? 34) || (c =? 8221).

Definition QUOTE_REGEX : regex :=
  [[ Rep isOpenQuote 1 (Some 1%nat);
     Rep (fun c => negb (isCloseQuote c)) 1 None;
     Rep isCloseQuote 1 (Some 1%nat) ]].

(** [DATE_REGEX =
      /\b(\d{1,2})[\/\-\.](\d{1,2})[\/\-\.](\d{4})\b
      |\b(\d{4})[\/\-\.](\d{1,2})[\/\-\.](\d{1,2})\b/g] *)
Definition isDateSep (c : N) : bool := (c =? 47) || (c =? 45) || (c =? 46).

Definition DATE_REGEX : regex :=
  [ [ WordB; Rep isDigit 1 (Some 2%nat); Rep isDateSep 1 (Some 1%nat);
      Rep isDigit 1 (Some 2%nat); Rep isDateSep 1 (Some 1%nat);
      Rep isDigit 4 (Some 4%nat); WordB ];
    [ WordB; Rep isDigit 4 (Some 4%nat); Rep isDateSep 1 (Some 1%nat);
      Rep isDigit 1 (Some 2%nat); Rep isDateSep 1 (Some 1%nat);
      Rep isDigit 1 (Some 2%nat); WordB ] ].

Definition IGNORED_TOKENS : list jsstring :=
  List.map js
    [ "fw"; "fwd"; "re"; "enc"; "tr"; "subject"; "assunto"; "encaminhado";
      "copy"; "copia";
      "de"; "do"; "da"; "dos"; "das"; "e"; "o"; "a"; "os"; "as"; "em";
      "na"; "no"; "nas"; "nos"; "com"; "para"; "por";
      "of"; "the"; "and"; "in"; "at"; "to"; "for"; "with"; "by"; "from"
    ]%string.

(** [Set.prototype.has] and [Array.prototype.includes] on strings. *)
Definition has (l : list jsstring) (x : jsstring) : bool :=
  List.existsb (jsstring_eqb x) l.

Record Metadata : Type := { queries : list jsstring; dates : list jsstring }.

(** The body of the second loop of [extractMetadata]: group 1 of the
    quote pattern is the text of its second atom. *)
Definition quoteOf (m : rmatch) : list jsstring :=
  let g := group 1 m in
  if (0 <? List.length g)%nat && (0 <? List.length (trim g))%nat
  then [trim g] else [].

Definition extractMetadata (cellContent : jsstring) : Metadata :=
  {| queries := List.flat_map quoteOf (execAll QUOTE_REGEX cellContent);
     dates := List.map matched (execAll DATE_REGEX cellContent) |}.

Definition isDatePartSep (c : N) : bool := isDateSep c || isSpace c.

(** [dateStr.split(/[\/\-\.\s]/).filter(p => p.length > 0)] *)
Definition cleanPartsOf (dateStr : jsstring) : list jsstring :=
  let parts := split isDatePartSep dateStr in
  List.filter (fun p => (0 <? List.length p)%nat) parts.

Definition getDatePermutations (dateStr : jsstring) : list jsstring :=
  match cleanPartsOf dateStr with
  | [p0; p1; p2] =>
      let '(day, month, year) :=
        if (List.length p0 =? 4)%nat then (p2, p1, p0) else (p0, p1, p2) in
      let day := padStart2 day in
      let month := padStart2 month in
      [ day ++ month ++ year;
        year ++ month ++ day;
        day ++ [45] ++ month ++ [45] ++ year;
        year ++ [45] ++ month ++ [45] ++ day;
        year ++ [95] ++ month ++ [95] ++ day;
        year ++ [46] ++ month ++ [46] ++ day;
        day ++ [95] ++ month ++ [95] ++ year;
        day ++ [46] ++ month ++ [46] ++ year;
        day ++ [32] ++ month ++ [32] ++ year ]
  | _ => [dateStr]
  end.

Definition tokenize (str : jsstring) : list jsstring :=
  List.filter (fun t => negb (has IGNORED_TOKENS t))
    (List.filter (fun t => (0 <? List.length t)%nat)
       (splitRuns isSpace
          (collapseRuns isNonWordOrUnderscore
             (removeAll isCombiningMark
                (normalizeNFD (toLowerCase str)))))).

(** *** Scoring *)

Local Open Scope float_scope.

(** A [length] as a [number]. *)
Definition ofNat (n : nat) : float :=
  PrimFloat.of_uint63 (Uint63.of_Z (Z.of_nat n)).

(** [Math.max] of two numbers (its arguments here are quotients of
    positive lengths, so signed zeros do not arise). *)
Definition mathMax (a b : float) : float :=
  if PrimFloat.is_nan a || PrimFloat.is_nan b then PrimFloat.nan
  else if a <? b then b else a.

Record Candidate : Type := { file : FileNode; score : float }.

(** Boost 1: some date permutation, reduced to its digits, has at least
    six of them and occurs in the digits of the file name. *)
Definition dateMatch (dateSearchTerms : list jsstring) (f : FileNode) : bool :=
  let cleanFileName := List.filter isDigit (name f) in
  List.existsb
    (fun term =>
       let cleanTerm := List.filter isDigit term in
       includes cleanFileName cleanTerm && (6 <=? List.length cleanTerm)%nat)
    dateSearchTerms.

Definition isDot (c : N) : bool := (c =? 46)%N.

(** Boost 2: [query.split('.').pop()?.toLowerCase()] against the same
    of the file name; both must be non-empty, equal and longer than 2. *)
Definition extensionMatch (query : jsstring) (f : FileNode) : bool :=
  let queryExt := toLowerCase (pop (split isDot query)) in
  let fileExt := toLowerCase (pop (split isDot (name f))) in
  (0 <? List.length queryExt)%nat && (0 <? List.length fileExt)%nat
  && jsstring_eqb queryExt fileExt && (2 <? List.length queryExt)%nat.

(** Boost 3: the query, lower-cased and stripped of [[\W_]], occurs in
    the file name treated the same way. *)
Definition sequenceMatch (query : jsstring) (f : FileNode) : bool :=
  let normQuery := removeAll isNonWordOrUnderscore (toLowerCase query) in
  let normFile := removeAll isNonWordOrUnderscore (toLowerCase (name f)) in
  includes normFile normQuery.

Definition boost (b : bool) (amount : float) (s : float) : float :=
  if b then s + amount else s.

(** [Math.max(fileCoverage, queryCoverage)] *)
Definition baseScore (matchCount fileLen queryLen : nat) : float :=
  let fileCoverage := ofNat matchCount / ofNat fileLen in
  let queryCoverage := ofNat matchCount / ofNat queryLen in
  mathMax fileCoverage queryCoverage.

(** The body of the inner loop up to the threshold: [None] when the
    loop [continue]s, otherwise the final [score]. *)
Definition scoreFile (query : jsstring) (queryTokens : list jsstring)
  (dateSearchTerms : list jsstring) (f : FileNode) : option float :=
  let fileTokens := tokenize (name f) in
  if (List.length fileTokens =? 0)%nat then None else
  let intersection := List.filter (has fileTokens) queryTokens in
  let matchCount := List.length intersection in
  if (matchCount =? 0)%nat then None else
  let score :=
    baseScore matchCount (List.length fileTokens) (List.length queryTokens) in
  let score := boost (dateMatch dateSearchTerms f) 0.40 score in
  let score := boost (extensionMatch query f) 0.20 score in
  let score := boost (sequenceMatch query f) 0.15 score in
  Some score.

Definition THRESHOLD : float := 0.55.

Definition scoreQuery (dateSearchTerms : list jsstring)
  (availableFiles : list FileNode) (query : jsstring) : list Candidate :=
  let queryTokens := tokenize query in
  if (List.length queryTokens =? 0)%nat then [] else
  List.flat_map
    (fun f =>
       match scoreFile query queryTokens dateSearchTerms f with
       | Some sc =>
           if THRESHOLD <=? sc then [ {| file := f; score := sc |} ] else []
       | None => []
       end)
    availableFiles.

(** *** Deduplication

    [uniqueCandidates] is a [Map] keyed by path; a [Map] iterates in the
    order its keys were first inserted, and [set] on a present key
    replaces the value in place. *)

Definition CandMap := list (jsstring * Candidate).

Fixpoint mapGet (k : jsstring) (m : CandMap) : option Candidate :=
  match m with
  | [] => None
  | (k', v) :: r => if jsstring_eqb k' k then Some v else mapGet k r
  end.

Fixpoint mapSet (k : jsstring) (v : Candidate) (m : CandMap) : CandMap :=
  match m with
  | [] => [(k, v)]
  | (k', v') :: r =>
      if jsstring_eqb k' k then (k, v) :: r else (k', v') :: mapSet k v r
  end.

Definition dedupStep (m : CandMap) (c : Candidate) : CandMap :=
  match mapGet (path (file c)) m with
  | None => mapSet (path (file c)) c m
  | Some existing =>
      if score existing <? score c then mapSet (path (file c)) c m else m
  end.

Definition deduplicate (allCandidates : list Candidate) : list Candidate :=
  List.map snd (List.fold_left dedupStep allCandidates []).

(** *** Ranking

    [sort((a, b) => b.score - a.score)]: the sort is stable, and the
    comparator puts [b] first exactly when its value is positive. *)

Definition comparator (a b : Candidate) : float := score b - score a.

Fixpoint insertSorted (x : Candidate) (l : list Candidate) : list Candidate :=
  match l with
  | [] => [x]
  | y :: r =>
      if 0 <? comparator x y then y :: insertSorted x r else x :: y :: r
  end.

Fixpoint sortCandidates (l : list Candidate) : list Candidate :=
  match l with
  | [] => []
  | x :: r => insertSorted x (sortCandidates r)
  end.

(** *** Classification *)

Record MatchResult : Type := {
  status : MatchStatus;
  resultFile : option FileNode;
  resultCandidates : option (list FileNode)
}.

(** The decision on the sorted survivors (an absent [runnerUp] is
    [undefined], which [!runnerUp] accepts). *)
Definition classify (sortedCandidates : list Candidate) : MatchResult :=
  match sortedCandidates with
  | [] => {| status := NOT_FOUND; resultFile := None;
             resultCandidates := None |}
  | best :: rest =>
      let runnerUp := List.head rest in
      if (1.2 <? score best)
         || match runnerUp with
            | None => true
            | Some r => score r + 0.1 <? score best
            end
      then {| status := FOUND; resultFile := Some (file best);
              resultCandidates := None |}
      else {| status := AMBIGUOUS; resultFile := None;
              resultCandidates :=
                Some (List.map file (firstn 5 sortedCandidates)) |}
  end.

(** The two nested loops: every pair that passes the threshold, in
    the order it is pushed. *)
Definition allCandidates (queries dates : list jsstring)
  (availableFiles : list FileNode) : list Candidate :=
  let dateSearchTerms := List.flat_map getDatePermutations dates in
  List.flat_map (scoreQuery dateSearchTerms availableFiles) queries.

Definition survivors (queries dates : list jsstring)
  (availableFiles : list FileNode) : list Candidate :=
  sortCandidates (deduplicate (allCandidates queries dates availableFiles)).

Definition findBestMatch (queries dates : list jsstring)
  (availableFiles : list FileNode) : MatchResult :=
  if (List.length queries =? 0)%nat
  then {| status := NO_QUERY; resultFile := None; resultCandidates := None |}
  else classify (survivors queries dates availableFiles).

End Matcher.

(** ** [App.tsx]: reconciliation and session reload *)

Module App.

Inductive AppStep : Type := UPLOAD | PREVIEW | PROCESSING | RESULTS.

(** File nodes are objects shared by reference: the same node may be
    reached from [matchedFile], [candidates] and [manualResolutions] of
    one or several rows.  The store maps a reference to the object. *)
Abbreviation ref := positive.
Abbreviation store := (gmap positive FileNode).

(** The part of the component state [reconcileFiles] reads and writes. *)
Record State : Type := {
  results : list (AnalysisResult ref);
  heap : store;
  step : AppStep
}.

Definition setFileObject (f : File) (n : FileNode) : FileNode :=
  {| name := name n; path := path n; lastModified := lastModified n;
     fileObject := Some f |}.

(** [if (!n.fileObject) { const f = fileSource.get(n.path);
                          if (f) n.fileObject = f; }] on the object
    behind [r]. *)
Definition attach (fileSource : gmap jsstring File) (h : store) (r : ref)
  : store :=
  match h !! r with
  | Some n =>
      match fileObject n with
      | Some _ => h
      | None =>
          match fileSource !! path n with
          | Some f => <[r := setFileObject f n]> h
          | None => h
          end
      end
  | None => h
  end.

Definition attachAll (fileSource : gmap jsstring File) (h : store)
  (rs : option (list ref)) : store :=
  match rs with
  | Some l => List.fold_left (attach fileSource) l h
  | None => h
  end.

(** The callback of [currentResults.map]: it returns [res] itself. *)
Definition reconcileResult (fileSource : gmap jsstring File) (h : store)
  (res : AnalysisResult ref) : store :=
  let h :=
    match matchedFile res with
    | Some r => attach fileSource h r
    | None => h
    end in
  let h := attachAll fileSource h (manualResolutions res) in
  attachAll fileSource h (candidates res).

Definition reconcileFiles (fileSource : gmap jsstring File) (st : State)
  : State :=
  let updatedResults := results st in
  {| results := updatedResults;
     heap := List.fold_left (reconcileResult fileSource) (results st) (heap st);
     step := if (0 <? List.length updatedResults)%nat then RESULTS
             else step st |}.

(** A record as [JSON.parse] returns it: the fields of [AnalysisResult]
    and, in files saved by earlier versions, the singular
    [manualResolution]. *)
Record StoredResult : Type := {
  fields : AnalysisResult FileNode;
  manualResolution : option FileNode
}.

Definition setManualResolutions (l : list FileNode) (r : StoredResult)
  : StoredResult :=
  let a := fields r in
  {| fields :=
       {| rowId := rowId a; originalContent := originalContent a;
          targetFolder := targetFolder a;
          extractedQueries := extractedQueries a;
          extractedDates := extractedDates a;
          matchStatus := matchStatus a; matchedFile := matchedFile a;
          candidates := candidates a; manualResolutions := Some l;
          isIgnored := isIgnored a |};
     manualResolution := manualResolution r |}.

Definition setMatchStatus (s : MatchStatus) (r : StoredResult)
  : StoredResult :=
  let a := fields r in
  {| fields :=
       {| rowId := rowId a; originalContent := originalContent a;
          targetFolder := targetFolder a;
          extractedQueries := extractedQueries a;
          extractedDates := extractedDates a;
          matchStatus := s; matchedFile := matchedFile a;
          candidates := candidates a;
          manualResolutions := manualResolutions a;
          isIgnored := isIgnored a |};
     manualResolution := manualResolution r |}.

(** [!a || a.length === 0] *)
Definition absentOrEmpty {A} (a : option (list A)) : bool :=
  match a with
  | Some l => (List.length l =? 0)%nat
  | None => true
  end.

(** [a && a.length > 0] *)
Definition presentNonEmpty {A} (a : option (list A)) : bool :=
  match a with
  | Some l => (0 <? List.length l)%nat
  | None => false
  end.

(** The callback of [json.results.map] in [handleLoadProject]. *)
Definition migrateResult (r : StoredResult) : StoredResult :=
  let r :=
    match manualResolution r with
    | Some legacy =>
        if absentOrEmpty (manualResolutions (fields r))
        then setManualResolutions [legacy] r else r
    | None => r
    end in
  if presentNonEmpty (manualResolutions (fields r))
  then setMatchStatus FOUND r else r.

Definition migratedResults (jsonResults : list StoredResult)
  : list StoredResult :=
  List.map migrateResult jsonResults.

End App.

(** ** [services/excelHelper.ts]: the export *)

Module Excel.

(** A cell of the array-of-arrays handed to the workbook writer:
    [undefined] or a hole, a string, a number, or the object
    [{ t: 's', v, l: { Target, Tooltip } }] that carries a hyperlink. *)
Inductive Cell : Type :=
| Blank
| Text (s : jsstring)
| Number (z : Z)
| Link (v : jsstring) (target : jsstring) (tooltip : jsstring).

Abbreviation Row := (list Cell).

(** [newData]: an element is a row, or [undefined] where an assignment
    past the end left a hole. *)
Abbreviation Grid := (list (option (list Cell))).

(** [a[i] = v]: in range the element is replaced; past the end the
    array grows and the skipped indices are holes. *)
Fixpoint arraySet {A} (hole : A) (i : nat) (v : A) (a : list A) : list A :=
  match i, a with
  | O, [] => [v]
  | O, _ :: t => v :: t
  | S k, [] => hole :: arraySet hole k v []
  | S k, x :: t => x :: arraySet hole k v t
  end.

(** [a[i]] *)
Definition arrayGet {A} (hole : A) (i : nat) (a : list A) : A :=
  nth i a hole.

Definition cellAt (g : Grid) (r c : nat) : Cell :=
  match arrayGet None r g with
  | Some row => arrayGet Blank c row
  | None => Blank
  end.

Definition setCell (g : Grid) (r c : nat) (v : Cell) : Grid :=
  match arrayGet None r g with
  | Some row => arraySet None r (Some (arraySet Blank c v row)) g
  | None => g
  end.

(** [if (!newData[rowIndex]) newData[rowIndex] = []] *)
Definition ensureRow (g : Grid) (r : nat) : Grid :=
  match arrayGet None r g with
  | Some _ => g
  | None => arraySet None r (Some []) g
  end.

(** U+00CD and U+00FA are the accented letters of the two labels. *)
Definition AMBIGUO : jsstring := js "AMB" ++ [205%N] ++ js "GUO: ".
Definition MULTIPLOS : jsstring := js "(M" ++ [250%N] ++ js "ltiplos) ".
Definition FALHA : jsstring := js "FALHA - Verificar Manualmente".

Definition finalFilesOf (res : AnalysisResult FileNode) : list FileNode :=
  if App.presentNonEmpty (manualResolutions res)
  then default [] (manualResolutions res)
  else match matchedFile res with
       | Some f => [f]
       | None => []
       end.

Definition namesOf (l : list FileNode) : jsstring :=
  join (js ", ") (List.map name l).

Definition linkCell (finalFiles : list FileNode) (primaryFile : FileNode)
  : Cell :=
  let fileNames := namesOf finalFiles in
  Link (if (1 <? List.length finalFiles)%nat
        then MULTIPLOS ++ fileNames else fileNames)
       (path primaryFile)
       (if (1 <? List.length finalFiles)%nat
        then js "Abre: " ++ name primaryFile
             ++ js ". (Outros ficheiros listados no texto)"
        else js "Abrir ficheiro local: " ++ name primaryFile).

Definition isTrue (b : option bool) : bool := default false b.

Definition MatchStatus_eqb (a b : MatchStatus) : bool :=
  match a, b with
  | FOUND, FOUND | NOT_FOUND, NOT_FOUND
  | AMBIGUOUS, AMBIGUOUS | NO_QUERY, NO_QUERY => true
  | _, _ => false
  end.

(** The callback of [results.forEach].  A [rowId] below 1 gives a
    negative index: the assignments then land on a property that is not
    an element of the array, and no cell changes. *)
Definition writeResult (newData : Grid) (res : AnalysisResult FileNode)
  : Grid :=
  if (rowId res - 1 <? 0)%Z then newData else
  let rowIndex := Z.to_nat (rowId res - 1) in
  let newData := ensureRow newData rowIndex in
  let finalFiles := finalFilesOf res in
  match finalFiles with
  | primaryFile :: _ =>
      setCell newData rowIndex 3 (linkCell finalFiles primaryFile)
  | [] =>
      if MatchStatus_eqb (matchStatus res) AMBIGUOUS then
        let candidateNames :=
          match candidates res with
          | Some l => namesOf l
          | None => []
          end in
        setCell newData rowIndex 3 (Text (AMBIGUO ++ candidateNames))
      else if MatchStatus_eqb (matchStatus res) NOT_FOUND
              && negb (isTrue (isIgnored res)) then
        setCell newData rowIndex 3 (Text FALHA)
      else newData
  end.

(** [generateAndDownloadExcel] up to the call of the workbook writer:
    the array of arrays it hands over. *)
Definition generateExcelData (originalData : list Row)
  (results : list (AnalysisResult FileNode)) : Grid :=
  List.fold_left writeResult results (List.map Some originalData).

End Excel.

(** ** [types.ts] and [services/matcher.ts]: routing rows to folders *)

Module Routing.

Record RowMapping : Type := { start : Z; end_ : Z; folder : jsstring }.

Definition ROW_MAPPINGS : list RowMapping :=
  [ {| start := 4; end_ := 10; folder := js "Ponto 1" |};
    {| start := 13; end_ := 41; folder := js "Ponto 2" |};
    {| start := 45; end_ := 286; folder := js "Ponto 3" |};
    {| start := 289; end_ := 312; folder := js "Ponto 4" |};
    {| start := 316; end_ := 532; folder := js "Ponto 5" |};
    {| start := 882; end_ := 921; folder := js "Ponto 6" |};
    {| start := 924; end_ := 1478; folder := js "Ponto 7" |};
    {| start := 1481; end_ := 1782; folder := js "Ponto 8" |};
    {| start := 1784; end_ := 2194; folder := js "Ponto 9" |};
    {| start := 2199; end_ := 2443; folder := js "Ponto 12" |};
    {| start := 2446; end_ := 2500; folder := js "Ponto 13" |} ].

Definition contains (rowIndex : Z) (m : RowMapping) : bool :=
  ((start m <=? rowIndex) && (rowIndex <=? end_ m))%Z.

(** [ROW_MAPPINGS.find(...)], then [mapping ? mapping.folder : null] *)
Definition getTargetFolderForRow (rowIndex : Z) : option jsstring :=
  match List.find (contains rowIndex) ROW_MAPPINGS with
  | Some mapping => Some (folder mapping)
  | None => None
  end.

End Routing.

(** ** [services/geminiService.ts] *)

Module Gemini.

(** [sanitize]: every double quote (U+0022) becomes an apostrophe
    (U+0027), then every line feed (U+000A) becomes a space. *)
Definition sanitize (str : jsstring) : jsstring :=
  List.map (fun c => if (c =? 10)%N then 32%N else c)
    (List.map (fun c => if (c =? 34)%N then 39%N else c) str).

End Gemini.

(** ** A [Map] with string keys

    Iteration follows the order in which the keys were first set. *)

Section JsMaps.

Context {V : Type}.

Definition JsMap : Type := list (jsstring * V).

Fixpoint jsMapGet (k : jsstring) (m : JsMap) : option V :=
  match m with
  | [] => None
  | (k', v) :: r => if jsstring_eqb k' k then Some v else jsMapGet k r
  end.

Fixpoint jsMapSet (k : jsstring) (v : V) (m : JsMap) : JsMap :=
  match m with
  | [] => [(k, v)]
  | (k', v') :: r =>
      if jsstring_eqb k' k then (k, v) :: r else (k', v') :: jsMapSet k v r
  end.

End JsMaps.

Arguments JsMap V : clear implicits.

(** ** [App.tsx]: upload, analysis and edits *)

Module Session.

(** A [File] of the browser's [FileList]. *)
Record BrowserFile : Type := {
  fileName : jsstring;
  webkitRelativePath : jsstring;
  fileLastModified : Z;
  handleOf : File
}.

Definition isSlash (c : N) : bool := (c =? 47)%N.

(** [p.toLowerCase().startsWith('ponto ')] *)
Definition isPontoSegment (p : jsstring) : bool :=
  isPrefixOf (js "ponto ") (toLowerCase p).

(** [file.webkitRelativePath.split('/').find(...)] *)
Definition pontoFolderOf (f : BrowserFile) : option jsstring :=
  List.find isPontoSegment (split isSlash (webkitRelativePath f)).

Definition nodeOf (f : BrowserFile) : FileNode :=
  {| name := fileName f; path := webkitRelativePath f;
     lastModified := fileLastModified f; fileObject := Some (handleOf f) |}.

(** The three locals of [handleFolderUpload]. *)
Record Upload : Type := {
  fileMap : JsMap (list FileNode);
  allFilesMap : gmap jsstring File;
  folderFileCount : nat
}.

(** The callback of [Array.from(files).forEach]. *)
Definition uploadStep (u : Upload) (f : BrowserFile) : Upload :=
  let all := <[webkitRelativePath f := handleOf f]> (allFilesMap u) in
  match pontoFolderOf f with
  | Some key =>
      let existing := default [] (jsMapGet key (fileMap u)) in
      {| fileMap := jsMapSet key (existing ++ [nodeOf f]) (fileMap u);
         allFilesMap := all;
         folderFileCount := S (folderFileCount u) |}
  | None =>
      {| fileMap := fileMap u; allFilesMap := all;
         folderFileCount := folderFileCount u |}
  end.

Definition groupFiles (files : list BrowserFile) : Upload :=
  List.fold_left uploadStep files
    {| fileMap := []; allFilesMap := ∅; folderFileCount := 0 |}.

(** [handleFolderUpload]: the grouping, then the reconciliation of a
    loaded project that has results. *)
Definition handleFolderUpload (files : list BrowserFile) (projectLoaded : bool)
  (st : App.State) : Upload * App.State :=
  let u := groupFiles files in
  (u, if projectLoaded && (0 <? List.length (App.results st))%nat
      then App.reconcileFiles (allFilesMap u) st else st).

(** [allFiles]: the folders of the map flattened in iteration order. *)
Definition allFiles (m : JsMap (list FileNode)) : list FileNode :=
  List.flat_map snd m.

(** The body of the row loop of [processExcel]: the record pushed for
    row [i], if any.  A cell is a string when it is a [Text]. *)
Definition analyseRow (m : JsMap (list FileNode)) (i : nat)
  (row : list Excel.Cell) : list (AnalysisResult FileNode) :=
  let rowNum := (Z.of_nat i + 1)%Z in
  let targetFolder := Routing.getTargetFolderForRow rowNum in
  let contentC := Excel.arrayGet Excel.Blank 2 row in
  match targetFolder, contentC with
  | Some folderName, Excel.Text content =>
      if (0 <? List.length folderName)%nat then
        let md := Matcher.extractMetadata content in
        if (0 <? List.length (Matcher.queries md))%nat then
          let filesInFolder := default [] (jsMapGet folderName m) in
          let matchResult :=
            Matcher.findBestMatch (Matcher.queries md) (Matcher.dates md)
              filesInFolder in
          [ {| rowId := rowNum; originalContent := content;
               targetFolder := targetFolder;
               extractedQueries := Matcher.queries md;
               extractedDates := Matcher.dates md;
               matchStatus := Matcher.status matchResult;
               matchedFile := Matcher.resultFile matchResult;
               candidates := Matcher.resultCandidates matchResult;
               manualResolutions := None; isIgnored := None |} ]
        else
          [ {| rowId := rowNum; originalContent := content;
               targetFolder := targetFolder;
               extractedQueries := [];
               extractedDates := Matcher.dates md;
               matchStatus := NO_QUERY;
               matchedFile := None; candidates := None;
               manualResolutions := None; isIgnored := None |} ]
      else []
  | _, _ => []
  end.

Fixpoint analyseFrom (m : JsMap (list FileNode)) (i : nat)
  (data : list (list Excel.Cell)) : list (AnalysisResult FileNode) :=
  match data with
  | [] => []
  | row :: rest => analyseRow m i row ++ analyseFrom m (S i) rest
  end.

(** [analysisResults] at the end of the loop [for (i = 0; ...)]. *)
Definition processExcel (data : list (list Excel.Cell))
  (m : JsMap (list FileNode)) : list (AnalysisResult FileNode) :=
  analyseFrom m 0 data.

(** [prev.map(r => r.rowId === updatedResult.rowId ? updatedResult : r)] *)
Definition handleUpdateResult (updatedResult : AnalysisResult FileNode)
  (prev : list (AnalysisResult FileNode)) : list (AnalysisResult FileNode) :=
  List.map (fun r => if (rowId r =? rowId updatedResult)%Z
                     then updatedResult else r) prev.

(** [{ ...result, manualResolutions: [matched], matchStatus: 'FOUND' }] *)
Definition resolvedWith (matched : FileNode) (result : AnalysisResult FileNode)
  : AnalysisResult FileNode :=
  {| rowId := rowId result; originalContent := originalContent result;
     targetFolder := targetFolder result;
     extractedQueries := extractedQueries result;
     extractedDates := extractedDates result;
     matchStatus := FOUND; matchedFile := matchedFile result;
     candidates := candidates result;
     manualResolutions := Some [matched];
     isIgnored := isIgnored result |}.

(** [handleResolveAI] from the answer of the oracle on: [answer] is
    what [resolveAmbiguityWithAI] resolved to, a name or [null].  With
    no candidates the oracle is not asked and nothing changes. *)
Definition handleResolveAI (answer : option jsstring)
  (result : AnalysisResult FileNode) (results : list (AnalysisResult FileNode))
  : list (AnalysisResult FileNode) :=
  if App.absentOrEmpty (candidates result) then results else
  match answer with
  | Some bestFileName =>
      if (0 <? List.length bestFileName)%nat then
        match List.find (fun c => jsstring_eqb (name c) bestFileName)
                (default [] (candidates result)) with
        | Some matched => handleUpdateResult (resolvedWith matched result) results
        | None => results
        end
      else results
  | None => results
  end.

(** What [JSON.stringify] with the replacer of [handleSaveProject]
    writes of a node, and [JSON.parse] reads back: every key but
    [fileObject]. *)
Definition withoutFileObject (n : FileNode) : FileNode :=
  {| name := name n; path := path n; lastModified := lastModified n;
     fileObject := None |}.

End Session.

(** ** [components/ResultsTable.tsx] *)

Module Table.

Inductive FilterType : Type :=
| ALL | OnlyFOUND | OnlyAMBIGUOUS | OnlyNOT_FOUND | IGNORED.

(** [r.matchStatus === activeFilter] *)
Definition statusIs (activeFilter : FilterType) (s : MatchStatus) : bool :=
  match activeFilter, s with
  | OnlyFOUND, FOUND | OnlyAMBIGUOUS, AMBIGUOUS
  | OnlyNOT_FOUND, NOT_FOUND => true
  | _, _ => false
  end.

Definition validResults (results : list (AnalysisResult FileNode))
  : list (AnalysisResult FileNode) :=
  List.filter
    (fun r => negb (Excel.MatchStatus_eqb (matchStatus r) NO_QUERY)) results.

Definition shown (activeFilter : FilterType) (r : AnalysisResult FileNode)
  : bool :=
  match activeFilter with
  | IGNORED => Excel.isTrue (isIgnored r)
  | _ =>
      if Excel.isTrue (isIgnored r) then false
      else match activeFilter with
           | ALL => true
           | _ => statusIs activeFilter (matchStatus r)
           end
  end.

Definition filteredResults (activeFilter : FilterType)
  (results : list (AnalysisResult FileNode))
  : list (AnalysisResult FileNode) :=
  List.filter (shown activeFilter) (validResults results).

Record Counts : Type := {
  countALL : nat; countFOUND : nat; countAMBIGUOUS : nat;
  countNOT_FOUND : nat; countIGNORED : nat
}.

Definition countWhere (p : AnalysisResult FileNode -> bool)
  (l : list (AnalysisResult FileNode)) : nat :=
  List.length (List.filter p l).

Definition counts (results : list (AnalysisResult FileNode)) : Counts :=
  let valid := validResults results in
  let active (s : MatchStatus) (r : AnalysisResult FileNode) :=
    Excel.MatchStatus_eqb (matchStatus r) s
    && negb (Excel.isTrue (isIgnored r)) in
  {| countALL := countWhere (fun r => negb (Excel.isTrue (isIgnored r))) valid;
     countFOUND := countWhere (active FOUND) valid;
     countAMBIGUOUS := countWhere (active AMBIGUOUS) valid;
     countNOT_FOUND := countWhere (active NOT_FOUND) valid;
     countIGNORED := countWhere (fun r => Excel.isTrue (isIgnored r)) valid |}.

(** The record spreads of the three handlers; each result goes to
    [onUpdateResult]. *)
Definition handleSelectionUpdate (result : AnalysisResult FileNode)
  (files : list FileNode) : AnalysisResult FileNode :=
  {| rowId := rowId result; originalContent := originalContent result;
     targetFolder := targetFolder result;
     extractedQueries := extractedQueries result;
     extractedDates := extractedDates result;
     matchStatus := matchStatus result; matchedFile := matchedFile result;
     candidates := candidates result;
     manualResolutions := Some files;
     isIgnored := isIgnored result |}.

Definition confirmMatch (result : AnalysisResult FileNode)
  : AnalysisResult FileNode :=
  {| rowId := rowId result; originalContent := originalContent result;
     targetFolder := targetFolder result;
     extractedQueries := extractedQueries result;
     extractedDates := extractedDates result;
     matchStatus := FOUND; matchedFile := matchedFile result;
     candidates := candidates result;
     manualResolutions := manualResolutions result;
     isIgnored := Some false |}.

Definition toggleIgnore (result : AnalysisResult FileNode)
  : AnalysisResult FileNode :=
  {| rowId := rowId result; originalContent := originalContent result;
     targetFolder := targetFolder result;
     extractedQueries := extractedQueries result;
     extractedDates := extractedDates result;
     matchStatus := matchStatus result; matchedFile := matchedFile result;
     candidates := candidates result;
     manualResolutions := manualResolutions result;
     isIgnored := Some (negb (Excel.isTrue (isIgnored result))) |}.

(** [FileMultiSelect]: the selection handed to [onUpdate], or [None]
    when [onUpdate] is not called. *)
Definition handleAddFile (currentSelections : list FileNode) (f : FileNode)
  : option (list FileNode) :=
  if List.existsb (fun s => jsstring_eqb (path s) (path f)) currentSelections
  then None else Some (currentSelections ++ [f]).

Definition handleRemoveFile (currentSelections : list FileNode)
  (p : jsstring) : list FileNode :=
  List.filter (fun f => negb (jsstring_eqb (path f) p)) currentSelections.

(** [failures] of [handleCopyFailuresOriginal] and the text it copies. *)
Definition failures (results : list (AnalysisResult FileNode))
  : list (AnalysisResult FileNode) :=
  List.filter
    (fun r => Excel.MatchStatus_eqb (matchStatus r) NOT_FOUND
              && negb (Excel.isTrue (isIgnored r)))
    (validResults results).

End Table.

(** * Vocabulary of the properties *)

Import Matcher.

Section ClassifierTerms.

Local Open Scope float_scope.

Definition found (f : FileNode) : MatchResult :=
  {| status := FOUND; resultFile := Some f; resultCandidates := None |}.

Definition ambiguous (l : list FileNode) : MatchResult :=
  {| status := AMBIGUOUS; resultFile := None; resultCandidates := Some l |}.

Definition notFound : MatchResult :=
  {| status := NOT_FOUND; resultFile := None; resultCandidates := None |}.

Definition noQuery : MatchResult :=
  {| status := NO_QUERY; resultFile := None; resultCandidates := None |}.

(** The winner condition as the specification words it. *)
Definition decisive (best : Candidate) (rest : list Candidate) : Prop :=
  (1.2 <? score best) = true
  \/ rest = []
  \/ exists runnerUp more,
       rest = runnerUp :: more /\ (score runnerUp + 0.1 <? score best) = true.

End ClassifierTerms.

Section ScenarioTerms.

Local Open Scope float_scope.

(** The cell text: Email, the quoted title with its acute o (U+00F3),
    and the date. *)
Definition scenarioCell : jsstring :=
  js "Email " ++ [34%N] ++ js "Relat" ++ [243%N] ++ js "rio Final" ++ [34%N]
  ++ js " de 20/04/2010".

Definition scenarioQuery : jsstring :=
  js "Relat" ++ [243%N] ++ js "rio Final".

Definition scenarioDate : jsstring := js "20/04/2010".

Definition scenarioFile (p : jsstring) (modified : Z) (handle : option File)
  : FileNode :=
  {| name := js "RE_Relatorio_Final_20042010.pdf"; path := p;
     lastModified := modified; fileObject := handle |}.

End ScenarioTerms.

Section NoQueryTerms.

(** A quoted substring of [s]: an opening quote, a non-empty body free
    of closing quotes, and a closing quote. *)
Definition quotedSubstring (s : jsstring) : Prop :=
  exists pre o body c post,
    s = pre ++ o :: body ++ c :: post
    /\ isOpenQuote o = true /\ isCloseQuote c = true
    /\ body <> [] /\ Forall (fun x => isCloseQuote x = false) body.

Definition withinMax (n : nat) (hi : option nat) : Prop :=
  match hi with
  | Some h => (n <= h)%nat
  | None => True
  end.

End NoQueryTerms.

Section FloatOrderTerms.

Local Open Scope Z_scope.

(** A key whose lexicographic order is the order of the numbers:
    class (negative infinity, negative, zero, positive, positive
    infinity), then exponent, then mantissa. *)
Definition sfKey (f : spec_float) : Z * Z * Z :=
  match f with
  | S754_zero _ => (0, 0, 0)
  | S754_infinity true => (-2, 0, 0)
  | S754_infinity false => (2, 0, 0)
  | S754_nan => (0, 0, 0)
  | S754_finite true m e => (-1, - e, - Z.pos m)
  | S754_finite false m e => (1, e, Z.pos m)
  end.

Definition lexCompare (a b : Z * Z * Z) : comparison :=
  let '(a1, a2, a3) := a in
  let '(b1, b2, b3) := b in
  match a1 ?= b1 with
  | Eq => match a2 ?= b2 with
          | Eq => a3 ?= b3
          | c => c
          end
  | c => c
  end.

Definition sfNumber (f : spec_float) : Prop := f <> S754_nan.

Local Close Scope Z_scope.
Local Open Scope float_scope.

(** A score is a number when it is not NaN. *)
Definition isNumber (x : float) : Prop := PrimFloat.is_nan x = false.

End FloatOrderTerms.

Section DeduplicationTerms.

Local Open Scope float_scope.

Definition keyOf (c : Candidate) : jsstring := path (file c).

(** What the map holds while the candidates are folded in: one entry
    per key, filed under its own path, with a score that is a number. *)
Definition wellKeyed (m : CandMap) : Prop :=
  List.NoDup (List.map fst m)
  /\ forall k v, mapGet k m = Some v -> k = keyOf v /\ isNumber (score v).

(** Deduplication keeps the maximum: the kept paths are pairwise
    distinct, so that a path has at most one kept entry; every kept
    entry is one of the scored pairs; and every scored pair is
    dominated by the kept entry of its path. *)
Definition keepsMaximum (allCandidates : list Candidate) : Prop :=
  List.NoDup (List.map keyOf (deduplicate allCandidates))
  /\ (forall k1 k2,
        In k1 (deduplicate allCandidates) ->
        In k2 (deduplicate allCandidates) ->
        keyOf k1 = keyOf k2 -> k1 = k2)
  /\ (forall kept, In kept (deduplicate allCandidates) ->
        In kept allCandidates)
  /\ (forall c, In c allCandidates ->
        exists kept,
          In kept (deduplicate allCandidates)
          /\ keyOf kept = keyOf c
          /\ (score c <=? score kept) = true).

End DeduplicationTerms.

Section ReconciliationTerms.

Import App.

Variable fileSource : gmap jsstring File.

(** What reconciliation makes of one node: a node without a handle
    takes the handle filed under its path, if there is one. *)
Definition rehydrate (n : FileNode) : FileNode :=
  match fileObject n with
  | Some _ => n
  | None =>
      match fileSource !! path n with
      | Some f => setFileObject f n
      | None => n
      end
  end.

(** The references a row holds, in the order the code visits them. *)
Definition refsOf (res : AnalysisResult ref) : list ref :=
  match matchedFile res with Some r => [r] | None => [] end
  ++ default [] (manualResolutions res)
  ++ default [] (candidates res).

Definition allRefs (rs : list (AnalysisResult ref)) : list ref :=
  List.flat_map refsOf rs.

(** A session in which one node is shared: the row's matched file, its
    manual resolution and its first candidate are the same object 1,
    which has no handle; object 2 already has handle 7. *)
Definition sharedNode : FileNode :=
  {| name := js "a.pdf"; path := js "Raiz/Ponto 1/a.pdf"; lastModified := 0;
     fileObject := None |}.

Definition attachedNode : FileNode :=
  {| name := js "b.pdf"; path := js "Raiz/Ponto 1/b.pdf"; lastModified := 0;
     fileObject := Some 7%N |}.

Definition sharedSession : State :=
  {| results :=
       [ {| rowId := 4; originalContent := js "Email"; targetFolder := None;
            extractedQueries := []; extractedDates := [];
            matchStatus := AMBIGUOUS; matchedFile := Some 1%positive;
            candidates := Some [1%positive; 2%positive];
            manualResolutions := Some [1%positive];
            isIgnored := None |} ];
     heap := <[1%positive := sharedNode]> (<[2%positive := attachedNode]> ∅);
     step := UPLOAD |}.

Definition freshFiles : gmap jsstring File :=
  <[js "Raiz/Ponto 1/a.pdf" := 5%N]> (<[js "Raiz/Ponto 1/b.pdf" := 9%N]> ∅).

End ReconciliationTerms.

Section ExcelExportTerms.

Import Excel.

(** What the callback writes, if anything. *)
Definition written (res : AnalysisResult FileNode) : option Cell :=
  match finalFilesOf res with
  | primaryFile :: _ => Some (linkCell (finalFilesOf res) primaryFile)
  | [] =>
      match matchStatus res with
      | AMBIGUOUS =>
          Some (Text (AMBIGUO
                      ++ match candidates res with
                         | Some l => namesOf l
                         | None => []
                         end))
      | NOT_FOUND =>
          if isTrue (isIgnored res) then None else Some (Text FALHA)
      | _ => None
      end
  end.

Definition rowIndexOf (res : AnalysisResult FileNode) : nat :=
  Z.to_nat (rowId res - 1).

(** The display text of a hyperlink cell: the names, prefixed when
    there are several. *)
Definition displayText (finalFiles : list FileNode) : jsstring :=
  match finalFiles with
  | _ :: _ :: _ => MULTIPLOS ++ namesOf finalFiles
  | _ => namesOf finalFiles
  end.

Definition sampleNode (n : string) : FileNode :=
  {| name := js n; path := js "Raiz/Ponto 1/" ++ js n; lastModified := 0;
     fileObject := None |}.

Definition sampleGrid : Grid :=
  [Some [Text (js "1"); Text (js "Ponto 1"); Text (js "Email"); Text (js "x")]].

(** An ignored row for which the user has picked a file without
    validating it yet. *)
Definition ignoredResolved : AnalysisResult FileNode :=
  {| rowId := 1; originalContent := js "Email"; targetFolder := None;
     extractedQueries := []; extractedDates := [];
     matchStatus := NOT_FOUND; matchedFile := None; candidates := None;
     manualResolutions := Some [sampleNode "a.pdf"];
     isIgnored := Some true |}.

(** An ignored ambiguous row without resolution. *)
Definition ignoredAmbiguous : AnalysisResult FileNode :=
  {| rowId := 1; originalContent := js "Email"; targetFolder := None;
     extractedQueries := []; extractedDates := [];
     matchStatus := AMBIGUOUS; matchedFile := None;
     candidates := Some [sampleNode "a.pdf"; sampleNode "b.pdf"];
     manualResolutions := None; isIgnored := Some true |}.

Definition foundRow : AnalysisResult FileNode :=
  {| rowId := 1; originalContent := js "Email"; targetFolder := None;
     extractedQueries := []; extractedDates := [];
     matchStatus := FOUND; matchedFile := Some (sampleNode "a.pdf");
     candidates := None; manualResolutions := None; isIgnored := None |}.

End ExcelExportTerms.

Section DatePermutationsTerms.

(** The fixed list, from the padded day and month and the year. *)
Definition dateVariants (day month year : jsstring) : list jsstring :=
  [ day ++ month ++ year;
    year ++ month ++ day;
    day ++ js "-" ++ month ++ js "-" ++ year;
    year ++ js "-" ++ month ++ js "-" ++ day;
    year ++ js "_" ++ month ++ js "_" ++ day;
    year ++ js "." ++ month ++ js "." ++ day;
    day ++ js "_" ++ month ++ js "_" ++ year;
    day ++ js "." ++ month ++ js "." ++ year;
    day ++ js " " ++ month ++ js " " ++ year ].

Definition noSep (p : jsstring) : Prop :=
  Forall (fun c => isDatePartSep c = false) p.

Definition allDigits (p : jsstring) : Prop :=
  Forall (fun c => isDigit c = true) p.

End DatePermutationsTerms.

Section ExtensionBoostTerms.

Local Open Scope float_scope.

Definition reportPdf : FileNode :=
  {| name := js "report.pdf"; path := js "Raiz/Ponto 1/report.pdf";
     lastModified := 0; fileObject := None |}.

End ExtensionBoostTerms.

Section TokenizationTerms.

(** Canonical decomposition of one code unit taken alone. *)
Definition nfdOf (c : N) : jsstring := codePointsToString (decompose c).

(** Lower-casing, then decomposition, of one code unit taken alone. *)
Definition foldAll (c : N) : jsstring :=
  List.flat_map nfdOf (codePointsToString (lowercaseMapping c)).

(** The normalization up to the collapsing of separators, one code
    unit at a time: lower-case, decompose, drop the combining marks. *)
Definition foldUnit (c : N) : jsstring :=
  removeAll isCombiningMark (foldAll c).

(** The accent folding of the tokenizer applied on its own:
    [normalize] to NFD, then the removal of [[U+0300-U+036F]]. *)
Definition stripAccents (s : jsstring) : jsstring :=
  removeAll isCombiningMark (normalizeNFD s).

Definition underscoreToSpace (c : N) : N := if (c =? 95)%N then 32%N else c.

(** The accented letters of the two working languages and of their
    neighbours, each with the letter it is written on: A, C, E, I, N,
    O, U and Y with grave, acute, circumflex, tilde, diaeresis, ring or
    cedilla, capital and small. *)
Definition accentedLetters : list (N * N) :=
  [ (192, 65); (193, 65); (194, 65); (195, 65); (196, 65); (197, 65);
    (199, 67);
    (200, 69); (201, 69); (202, 69); (203, 69);
    (204, 73); (205, 73); (206, 73); (207, 73);
    (209, 78);
    (210, 79); (211, 79); (212, 79); (213, 79); (214, 79);
    (217, 85); (218, 85); (219, 85); (220, 85);
    (221, 89);
    (224, 97); (225, 97); (226, 97); (227, 97); (228, 97); (229, 97);
    (231, 99);
    (232, 101); (233, 101); (234, 101); (235, 101);
    (236, 105); (237, 105); (238, 105); (239, 105);
    (241, 110);
    (242, 111); (243, 111); (244, 111); (245, 111); (246, 111);
    (249, 117); (250, 117); (251, 117); (252, 117);
    (253, 121); (255, 121) ].

(** The letter without its accent; any other code unit is kept. *)
Definition unaccent (c : N) : N :=
  match List.find (fun e => fst e =? c) accentedLetters with
  | Some e => snd e
  | None => c
  end.

(** The capital of an ASCII small letter; any other code unit is kept. *)
Definition asciiUpper (c : N) : N := if inRange 97 122 c then c - 32 else c.

(** The maximal runs of code units outside [cls], in order. *)
Fixpoint wordsAt (cls : N -> bool) (cur : jsstring) (s : jsstring)
  : list jsstring :=
  match s with
  | [] => match cur with [] => [] | _ => [cur] end
  | c :: t =>
      if cls c then
        match cur with
        | [] => wordsAt cls [] t
        | _ => cur :: wordsAt cls [] t
        end
      else wordsAt cls (cur ++ [c]) t
  end.

Definition nonEmpty (t : jsstring) : bool := (0 <? List.length t)%nat.

Definition notIgnored (t : jsstring) : bool := negb (has IGNORED_TOKENS t).

End TokenizationTerms.


Section ExtractionTerms.

(** [x] occurs in [s] as a contiguous substring. *)
Definition substringOf (x s : jsstring) : Prop :=
  exists pre post, s = pre ++ x ++ post.

(** The two layouts the date pattern accepts: one or two digits, a
    separator, one or two digits, a separator and four digits, or the
    four digits first. *)
Definition dateShaped (d : jsstring) : Prop :=
  exists a b c s1 s2,
    d = a ++ [s1] ++ b ++ [s2] ++ c
    /\ allDigits a /\ allDigits b /\ allDigits c
    /\ isDateSep s1 = true /\ isDateSep s2 = true
    /\ ((1 <= List.length a <= 2 /\ 1 <= List.length b <= 2
         /\ List.length c = 4)%nat
        \/ (List.length a = 4 /\ 1 <= List.length b <= 2
            /\ 1 <= List.length c <= 2)%nat).

(** The variants of a date whose two concatenations are eight digits. *)
Definition eightDigitVariants (d : jsstring) : Prop :=
  exists dmy ymd rest,
    getDatePermutations d = dmy :: ymd :: rest
    /\ List.length rest = 7%nat
    /\ List.length dmy = 8%nat /\ List.length ymd = 8%nat
    /\ allDigits dmy /\ allDigits ymd.

(** A query as the extractor leaves it. *)
Definition cleanQuery (cell q : jsstring) : Prop :=
  q <> [] /\ trim q = q
  /\ Forall (fun c => isCloseQuote c = false) q
  /\ substringOf q cell.

End ExtractionTerms.

Section TokenTerms.

(** [[a-z0-9]] *)
Definition isLowerAlnum (c : N) : bool := inRange 97 122 c || isDigit c.

(** A token as the tokenizer leaves it: non-empty, of lower-case ASCII
    letters and digits, and not a stop word. *)
Definition goodToken (t : jsstring) : Prop :=
  t <> []
  /\ Forall (fun c => isLowerAlnum c = true) t
  /\ has IGNORED_TOKENS t = false.

End TokenTerms.

Section WordViewTerms.

(** The words of a normalized string, [cur] being the word under way:
    the combining marks go, every other code unit outside [[A-Za-z0-9]]
    separates. *)
Definition wordsFrom (cur x : jsstring) : list jsstring :=
  wordsAt isNonWordOrUnderscore cur (removeAll isCombiningMark x).

(** Two strings that no continuation tells apart by its words. *)
Definition sameWords (x y : jsstring) : Prop :=
  forall cur w, wordsFrom cur (x ++ w) = wordsFrom cur (y ++ w).

(** A form that decides it: marks dropped, each run of separators
    turned into one space. *)
Definition wordForm (x : jsstring) : jsstring :=
  collapseRuns isNonWordOrUnderscore (removeAll isCombiningMark x).

Definition sameWordsb (x y : jsstring) : bool :=
  jsstring_eqb (wordForm x) (wordForm y).

(** Nothing but separators and marks. *)
Definition blankb (x : jsstring) : bool :=
  List.forallb isNonWordOrUnderscore x.

(** Nothing but separators and marks, with a separator among them. *)
Definition separatorb (x : jsstring) : bool :=
  blankb x && List.existsb (fun c => negb (isCombiningMark c)) x.

(** [foldAll] behind the removal of the combining marks. *)
Definition foldKept (c : N) : jsstring :=
  if isCombiningMark c then [] else foldAll c.

(** A code unit that every step leaves as it is, and that separates. *)
Definition fixedUnitb (u : N) : bool :=
  jsstring_eqb (lowercaseMapping u) [u] && jsstring_eqb (decompose u) [u]
  && jsstring_eqb (utf16 u) [u]
  && isNonWordOrUnderscore u && negb (isCombiningMark u).

(** [f] on every number of [k] bits behind the bits of [prefix]. *)
Fixpoint allBits (k : nat) (prefix : N) (f : N -> bool) : bool :=
  match k with
  | O => f prefix
  | S k' => allBits k' (2 * prefix) f && allBits k' (2 * prefix + 1) f
  end.

(** What the proofs read off the tables for a code point of the Basic
    Multilingual Plane. *)
Definition planeFacts (c : N) : bool :=
  List.forallb (fun u => isNonWordOrUnderscore u || isLowerAlnum u)
    (foldUnit c)
  && sameWordsb
       (List.flat_map foldAll (codePointsToString (lowercaseMapping c)))
       (foldAll c)
  && sameWordsb (List.flat_map foldKept (nfdOf c)) (foldAll c)
  && sameWordsb (foldAll (unaccent c)) (foldAll c)
  && sameWordsb (foldAll (asciiUpper c)) (foldAll c)
  && ((ccc c =? 0)
      || (isNonWordOrUnderscore c && blankb (foldKept c)))
  && (negb (isHighSurrogate c || isLowSurrogate c) || fixedUnitb c)
  && (negb (isLowerAlnum c) || jsstring_eqb (foldAll c) [c]).

(** The same for a code point beyond it: whichever way it is folded,
    only separators are left. *)
Definition astralFacts (c : N) : bool :=
  separatorb (nfdOf c)
  && separatorb (foldAll c)
  && separatorb (List.flat_map foldKept (nfdOf c))
  && separatorb
       (List.flat_map foldAll (codePointsToString (lowercaseMapping c)))
  && ((ccc c =? 0)
      || (blankb (utf16 c) && blankb (List.flat_map foldKept (utf16 c)))).

(** The code points that a table lists, those of the plane and those
    beyond it. *)
Definition tableKeys : list N :=
  List.map fst simpleLowercase ++ List.map fst canonicalDecomposition
  ++ List.map fst (List.flat_map classesOf combiningClass).

Definition planeKeys : list N :=
  List.filter (fun c => c <? 65536) tableKeys.

Definition astralKeys : list N :=
  List.filter (fun c => 65536 <=? c) tableKeys.

(** No table lists a surrogate, a Hangul syllable or one of the
    consonants and vowels the syllables are made of; every table
    lists only code points; the accented letters and U+0130 are
    listed; and the facts of the plane hold of the combining marks. *)
Definition keyFacts : bool :=
  List.forallb
    (fun k => negb (inRange 55296 57343 k) && negb (inRange 44032 55203 k)
              && negb (inRange 4352 4546 k) && (k <? 1114112))
    tableKeys
  && List.forallb (fun i => planeFacts (768 + N.of_nat i)) (seq 0 112)
  && List.forallb (fun e => List.existsb (N.eqb (fst e)) tableKeys)
       accentedLetters
  && List.existsb (N.eqb 304) tableKeys.

End WordViewTerms.

Section MatchResultTerms.

Local Open Scope float_scope.

(** A file the engine may hand back for a row: it is one of the files
    searched, it reached the threshold against some query, and it
    shares a token with that query. *)
Definition justified (queries dates : list jsstring)
  (availableFiles : list FileNode) (f : FileNode) : Prop :=
  In f availableFiles
  /\ exists q sc,
       In q queries
       /\ scoreFile q (tokenize q)
            (List.flat_map getDatePermutations dates) f = Some sc
       /\ (THRESHOLD <=? sc) = true
       /\ exists t, In t (tokenize q) /\ In t (tokenize (name f)).

End MatchResultTerms.

Section ReturnedFilesTerms.

(** The files a result hands back: the matched file, or the candidates. *)
Definition returnedFiles (r : MatchResult) : list FileNode :=
  match resultFile r with Some f => [f] | None => [] end
  ++ default [] (resultCandidates r).

End ReturnedFilesTerms.

Section DateBoostTerms.

(** [s.replace(/[^0-9]/g, '')] *)
Definition digitsOf (s : jsstring) : jsstring := List.filter isDigit s.

(** The date boost of one date amounts to two tests on the digits of
    the file name. *)
Definition twoDigitTests (d : jsstring) : Prop :=
  exists dmy ymd rest,
    getDatePermutations d = dmy :: ymd :: rest
    /\ List.length dmy = 8%nat /\ List.length ymd = 8%nat
    /\ forall f,
         dateMatch (getDatePermutations d) f
         = includes (digitsOf (name f)) dmy
           || includes (digitsOf (name f)) ymd.

End DateBoostTerms.

Section UploadTerms.

Import Session.

(** [fileMap.get(folder) || []]: what a row routed to [folder] is
    matched against. *)
Definition folderOf (key : jsstring) (m : JsMap (list FileNode))
  : list FileNode :=
  default [] (jsMapGet key m).

(** The file lies under the folder labelled [key]: [key] is the first
    segment of its path that starts with ponto and a space, whatever
    the case. *)
Definition inFolder (key : jsstring) (f : BrowserFile) : bool :=
  match pontoFolderOf f with
  | Some k => jsstring_eqb k key
  | None => false
  end.

Definition hasFolder (f : BrowserFile) : bool :=
  match pontoFolderOf f with Some _ => true | None => false end.

End UploadTerms.

Section SessionTerms.

Import App.

(** Every node a row refers to has its handle. *)
Definition allAttached (st : State) : Prop :=
  forall r n,
    r ∈ allRefs (results st) -> heap st !! r = Some n ->
    exists f, fileObject n = Some f.

End SessionTerms.

Section SavedSessionTerms.

Import App.

(** The nodes behind the references of a list. *)
Definition nodesAt (h : store) (rs : list ref) : list FileNode :=
  omap (fun r => h !! r) rs.

(** A row with the objects themselves where the row of the state holds
    references: what a reader of the row sees. *)
Definition byValue (h : store) (res : AnalysisResult ref)
  : AnalysisResult FileNode :=
  {| rowId := rowId res; originalContent := originalContent res;
     targetFolder := targetFolder res;
     extractedQueries := extractedQueries res;
     extractedDates := extractedDates res;
     matchStatus := matchStatus res;
     matchedFile := matchedFile res ≫= (fun r => h !! r);
     candidates := nodesAt h <$> candidates res;
     manualResolutions := nodesAt h <$> manualResolutions res;
     isIgnored := isIgnored res |}.

Definition view (st : State) : list (AnalysisResult FileNode) :=
  List.map (byValue (heap st)) (results st).

(** Every reference of a row leads to an object. *)
Definition allocated (st : State) : Prop :=
  forall r, r ∈ allRefs (results st) -> is_Some (heap st !! r).

(** [f] on every node of a row. *)
Definition onNodes (f : FileNode -> FileNode) (res : AnalysisResult FileNode)
  : AnalysisResult FileNode :=
  {| rowId := rowId res; originalContent := originalContent res;
     targetFolder := targetFolder res;
     extractedQueries := extractedQueries res;
     extractedDates := extractedDates res;
     matchStatus := matchStatus res;
     matchedFile := f <$> matchedFile res;
     candidates := List.map f <$> candidates res;
     manualResolutions := List.map f <$> manualResolutions res;
     isIgnored := isIgnored res |}.

(** [results] as [handleSaveProject] writes it: [JSON.stringify] writes
    every node where a row refers to it, and the replacer leaves the
    key [fileObject] out.  The rows of this state carry no singular
    [manualResolution]. *)
Definition saved (st : State) : list StoredResult :=
  List.map
    (fun res =>
       {| fields := onNodes Session.withoutFileObject (byValue (heap st) res);
          manualResolution := None |})
    (results st).

(** [JSON.parse] makes a new object of every node it reads: the nodes
    of a list, a field and a row are stored from reference [next] on. *)
Fixpoint parseNodes (next : ref) (h : store) (l : list FileNode)
  : ref * store * list ref :=
  match l with
  | [] => (next, h, [])
  | n :: t =>
      let '(next', h', rs) := parseNodes (Pos.succ next) (<[next := n]> h) t in
      (next', h', next :: rs)
  end.

Definition parseNode (next : ref) (h : store) (o : option FileNode)
  : ref * store * option ref :=
  match o with
  | Some n => (Pos.succ next, <[next := n]> h, Some next)
  | None => (next, h, None)
  end.

Definition parseList (next : ref) (h : store) (o : option (list FileNode))
  : ref * store * option (list ref) :=
  match o with
  | Some l => let '(next', h', rs) := parseNodes next h l in
              (next', h', Some rs)
  | None => (next, h, None)
  end.

Definition parseRow (next : ref) (h : store) (res : AnalysisResult FileNode)
  : ref * store * AnalysisResult ref :=
  let '(n1, h1, m) := parseNode next h (matchedFile res) in
  let '(n2, h2, c) := parseList n1 h1 (candidates res) in
  let '(n3, h3, r) := parseList n2 h2 (manualResolutions res) in
  (n3, h3,
   {| rowId := rowId res; originalContent := originalContent res;
      targetFolder := targetFolder res;
      extractedQueries := extractedQueries res;
      extractedDates := extractedDates res;
      matchStatus := matchStatus res;
      matchedFile := m; candidates := c; manualResolutions := r;
      isIgnored := isIgnored res |}).

Fixpoint parseRows (next : ref) (h : store)
  (l : list (AnalysisResult FileNode))
  : ref * store * list (AnalysisResult ref) :=
  match l with
  | [] => (next, h, [])
  | res :: t =>
      let '(n1, h1, row) := parseRow next h res in
      let '(n2, h2, rows) := parseRows n1 h1 t in
      (n2, h2, row :: rows)
  end.

(** [handleLoadProject]: the records are migrated, they become the
    results, and the step is the upload.  (The migration is applied to
    the records as read; the node it files under [manualResolutions]
    is reached from nowhere else in the state.) *)
Definition loadProject (json : list StoredResult) : State :=
  let '(_, h, rows) :=
    parseRows 1%positive ∅ (List.map fields (migratedResults json)) in
  {| results := rows; heap := h; step := UPLOAD |}.

(** The session after it was saved and the saved project loaded. *)
Definition reloaded (st : State) : State := loadProject (saved st).


(** The nodes of a row. *)
Definition nodesOf (res : AnalysisResult FileNode) : list FileNode :=
  match matchedFile res with Some n => [n] | None => [] end
  ++ default [] (manualResolutions res)
  ++ default [] (candidates res).

End SavedSessionTerms.

Section AnalysisTerms.

Import Excel.

(** A record as the analysis creates it from the sheet [data] and the
    grouped files [m]. *)
Definition analysed (m : JsMap (list FileNode)) (data : list Row)
  (res : AnalysisResult FileNode) : Prop :=
  exists row folderName,
    (1 <= rowId res <= Z.of_nat (List.length data))%Z
    /\ nth_error data (rowIndexOf res) = Some row
    /\ arrayGet Blank 2 row = Text (originalContent res)
    /\ Routing.getTargetFolderForRow (rowId res) = Some folderName
    /\ targetFolder res = Some folderName
    /\ extractedQueries res = queries (extractMetadata (originalContent res))
    /\ extractedDates res = dates (extractMetadata (originalContent res))
    /\ manualResolutions res = None /\ isIgnored res = None
    /\ (matchStatus res = NO_QUERY <-> extractedQueries res = [])
    /\ match matchStatus res with
       | FOUND =>
           candidates res = None
           /\ exists f, matchedFile res = Some f
                        /\ In f (folderOf folderName m)
       | AMBIGUOUS =>
           matchedFile res = None
           /\ exists l, candidates res = Some l
                        /\ (2 <= List.length l <= 5)%nat
                        /\ Forall (fun f => In f (folderOf folderName m)) l
       | NOT_FOUND | NO_QUERY =>
           matchedFile res = None /\ candidates res = None
       end.

(** The results after a sequence of edits, each handed to
    [handleUpdateResult]. *)
Definition edited (edits results : list (AnalysisResult FileNode))
  : list (AnalysisResult FileNode) :=
  List.fold_left (fun rs u => Session.handleUpdateResult u rs) edits results.

End AnalysisTerms.

(** * Properties *)

Lemma jsstring_eqb_eq (a b : jsstring) : jsstring_eqb a b = true <-> a = b.
Proof. unfold jsstring_eqb. destruct (decide (a = b)); split; congruence. Qed.


(** ** The classifier *)

Section Classifier.

Local Open Scope float_scope.

Lemma decisive_dec (best : Candidate) (rest : list Candidate) :
  {decisive best rest} + {~ decisive best rest}.
Proof.
  unfold decisive.
  destruct (1.2 <? score best) eqn:Hhigh; [left; auto|].
  destruct rest as [|r more]; [left; auto|].
  destruct (score r + 0.1 <? score best) eqn:Hmargin.
  - left. right. right. exists r, more. auto.
  - right. intros [H|[H|(r' & more' & Heq & H)]]; try discriminate.
    inversion Heq; subst. congruence.
Qed.

Lemma classify_found (best : Candidate) (rest : list Candidate) :
  decisive best rest -> classify (best :: rest) = found (file best).
Proof.
  intros [H|[H|(r & more & Heq & H)]]; unfold classify; subst.
  - now rewrite H.
  - simpl. now rewrite orb_true_r.
  - simpl. now rewrite H, orb_true_r.
Qed.

Lemma classify_ambiguous (best : Candidate) (rest : list Candidate) :
  ~ decisive best rest ->
  classify (best :: rest) = ambiguous (List.map file (firstn 5 (best :: rest))).
Proof.
  intros Hn. unfold classify.
  destruct (1.2 <? score best) eqn:Hhigh.
  { exfalso. apply Hn. now left. }
  destruct rest as [|r more].
  { exfalso. apply Hn. right. now left. }
  cbn [List.head orb].
  destruct (score r + 0.1 <? score best) eqn:Hmargin; [|reflexivity].
  exfalso. apply Hn. right. right. exists r, more. auto.
Qed.

(** C1. The classifier answers NOT_FOUND on no survivor; on a non-empty
    survivor list it answers FOUND with the top survivor exactly when
    its score exceeds 1.2, or there is no runner-up, or it exceeds the
    runner-up's score plus 0.1, and in every other case AMBIGUOUS with
    the first five survivors in order.  [findBestMatch] applies this
    decision to the sorted, deduplicated survivors whenever there is a
    query. *)
Theorem classifier_margin_rule :
  classify [] = notFound
  /\ (forall best rest,
        (decisive best rest <->
           classify (best :: rest) = found (file best))
        /\ (~ decisive best rest <->
              classify (best :: rest)
              = ambiguous (List.map file (firstn 5 (best :: rest)))))
  /\ (forall q queries dates availableFiles,
        findBestMatch (q :: queries) dates availableFiles
        = classify (survivors (q :: queries) dates availableFiles)).
Proof.
  split; [reflexivity|]. split; [|reflexivity].
  intros best rest. split; split.
  - apply classify_found.
  - intros Hc. destruct (decisive_dec best rest) as [|Hn]; [assumption|].
    rewrite (classify_ambiguous _ _ Hn) in Hc. discriminate.
  - apply classify_ambiguous.
  - intros Hc Hd. rewrite (classify_found _ _ Hd) in Hc. discriminate.
Qed.

(** Two versions of one report, scored alike: neither wins, and both
    are offered in the order of the folder. *)
Example classify_two_versions :
  let v1 := sampleNode "Relatorio_Final_v1.pdf" in
  let v2 := sampleNode "Relatorio_Final_v2.pdf" in
  findBestMatch [js "Relatorio Final"] [js "20/04/2010"] [v1; v2]
  = ambiguous [v1; v2].
Proof. vm_compute. reflexivity. Qed.

End Classifier.

(** ** The dated-report scenario *)

Section Scenario.

Local Open Scope float_scope.

(** C2. The cell yields the one query and the one date; against the
    file the token overlap is complete (base score 1), the date boost
    applies and the two other boosts do not, so the score is 1 + 0.40,
    above 1.2; and the classification over the folder holding that file
    is FOUND with that file. *)
Theorem scenario_dated_report (p : jsstring) (modified : Z)
  (handle : option File) :
  let f := scenarioFile p modified handle in
  extractMetadata scenarioCell
  = {| queries := [scenarioQuery]; dates := [scenarioDate] |}
  /\ tokenize scenarioQuery = [js "relatorio"; js "final"]
  /\ tokenize (name f)
     = [js "relatorio"; js "final"; js "20042010"; js "pdf"]
  /\ dateMatch (getDatePermutations scenarioDate) f = true
  /\ extensionMatch scenarioQuery f = false
  /\ sequenceMatch scenarioQuery f = false
  /\ scoreFile scenarioQuery (tokenize scenarioQuery)
       (getDatePermutations scenarioDate) f
     = Some (baseScore 2 4 2 + 0.40)
  /\ baseScore 2 4 2 = 1
  /\ (1.2 <? baseScore 2 4 2 + 0.40) = true
  /\ findBestMatch (queries (extractMetadata scenarioCell))
       (dates (extractMetadata scenarioCell)) [f]
     = found f.
Proof.
  intros f. subst f.
  repeat split; vm_compute; reflexivity.
Qed.

End Scenario.

(** ** Extraction without quotes *)

Section NoQuery.

(** What a successful repetition consumed. *)
Lemma matchRep_sound cls lo hi k :
  forall s n prev r,
    matchRep cls lo hi k n prev s = Some r ->
    exists taken rest p' lens,
      s = taken ++ rest
      /\ Forall (fun c => cls c = true) taken
      /\ (lo <= n + List.length taken)%nat
      /\ (withinMax n hi -> withinMax (n + List.length taken) hi)
      /\ k p' rest = Some lens
      /\ r = (n + List.length taken)%nat :: lens.
Proof.
  assert (Hstop : forall s n prev r,
    (if (lo <=? n)%nat then option_map (cons n) (k prev s) else None) = Some r ->
    exists taken rest p' lens,
      s = taken ++ rest
      /\ Forall (fun c => cls c = true) taken
      /\ (lo <= n + List.length taken)%nat
      /\ (withinMax n hi -> withinMax (n + List.length taken) hi)
      /\ k p' rest = Some lens
      /\ r = (n + List.length taken)%nat :: lens).
  { intros s n prev r H.
    destruct (lo <=? n)%nat eqn:Hlo; [|discriminate].
    destruct (k prev s) as [lens|] eqn:Hk; [|discriminate].
    injection H as <-.
    exists [], s, prev, lens. simpl. rewrite Nat.add_0_r.
    apply Nat.leb_le in Hlo. repeat split; auto. }
  induction s as [|c t IH]; intros n prev r H; simpl in H.
  - now apply Hstop in H.
  - destruct (cls c && belowMax n hi) eqn:Hc; [|now apply Hstop in H].
    destruct (matchRep cls lo hi k (S n) (Some c) t) as [r'|] eqn:Hrec;
      [|now apply Hstop in H].
    injection H as <-.
    apply andb_true_iff in Hc as [Hcls Hbelow].
    destruct (IH _ _ _ Hrec) as (taken & rest & p' & lens & -> & Hall & Hlo & Hhi & Hk & ->).
    exists (c :: taken), rest, p', lens. simpl.
    replace (n + S (List.length taken))%nat
      with (S n + List.length taken)%nat by lia.
    repeat split; auto.
    intros _. apply Hhi. destruct hi as [h|]; simpl in *; [|exact I].
    apply Nat.ltb_lt in Hbelow. lia.
Qed.

Lemma quote_match_sound (prev : option N) (s : jsstring) (lens : list nat) :
  matchAt QUOTE_REGEX prev s = Some lens ->
  exists o body c post,
    s = o :: body ++ c :: post
    /\ isOpenQuote o = true /\ isCloseQuote c = true
    /\ body <> [] /\ Forall (fun x => isCloseQuote x = false) body.
Proof.
  unfold QUOTE_REGEX. cbn [matchAt matchSeq]. intros H.
  destruct (matchRep isOpenQuote 1 (Some 1%nat) _ 0 prev s) as [l1|] eqn:H1;
    [clear H|discriminate].
  apply matchRep_sound in H1
    as (t1 & r1 & p1 & l1' & -> & Ho & Hlo1 & Hhi1 & H2 & _).
  apply matchRep_sound in H2
    as (t2 & r2 & p2 & l2' & -> & Hb & Hlo2 & _ & H3 & _).
  apply matchRep_sound in H3
    as (t3 & r3 & p3 & l3' & -> & Hc & Hlo3 & Hhi3 & _ & _).
  simpl in Hlo1, Hhi1, Hlo2, Hlo3, Hhi3.
  specialize (Hhi1 ltac:(lia)). specialize (Hhi3 ltac:(lia)).
  destruct t1 as [|o [|? ?]]; simpl in *; try lia.
  destruct t3 as [|c [|? ?]]; simpl in *; try lia.
  exists o, t2, c, r3. repeat split.
  - now inversion Ho.
  - now inversion Hc.
  - destruct t2; simpl in *; [lia|discriminate].
  - eapply List.Forall_impl; [|exact Hb]. intros x Hx. simpl in Hx.
    now apply negb_true_iff.
Qed.

Lemma execFrom_no_match (re : regex) :
  forall s skip prev,
    (forall pre suf p, s = pre ++ suf -> matchAt re p suf = None) ->
    execFrom re skip prev s = [].
Proof.
  induction s as [|c t IH]; intros skip prev Hno; [reflexivity|].
  assert (Ht : forall pre suf p, t = pre ++ suf -> matchAt re p suf = None).
  { intros pre suf p ->. apply (Hno (c :: pre)). reflexivity. }
  simpl. destruct skip as [|k]; [|now apply IH].
  rewrite (Hno [] (c :: t) prev eq_refl). now apply IH.
Qed.

Lemma no_quoted_no_match (cell : jsstring) :
  ~ quotedSubstring cell -> execAll QUOTE_REGEX cell = [].
Proof.
  intros Hno. apply execFrom_no_match. intros pre suf p ->.
  destruct (matchAt QUOTE_REGEX p suf) as [lens|] eqn:Hm; [|reflexivity].
  exfalso. apply Hno.
  destruct (quote_match_sound _ _ _ Hm) as (o & body & c & post & -> & H).
  exists pre, o, body, c, post. now split.
Qed.

(** C3. A cell with no quoted substring yields no query, whatever
    dates it holds, and [findBestMatch] on an empty query list answers
    NO_QUERY for every date list and file pool. *)
Theorem no_quotes_no_query :
  (forall cell, ~ quotedSubstring cell ->
     queries (extractMetadata cell) = [])
  /\ (forall dates availableFiles,
        findBestMatch [] dates availableFiles = noQuery)
  /\ (forall cell availableFiles, ~ quotedSubstring cell ->
        status (findBestMatch (queries (extractMetadata cell))
                  (dates (extractMetadata cell)) availableFiles)
        = NO_QUERY).
Proof.
  assert (Hq : forall cell, ~ quotedSubstring cell ->
                 queries (extractMetadata cell) = []).
  { intros cell Hno. unfold extractMetadata. cbn [queries].
    now rewrite (no_quoted_no_match _ Hno). }
  split; [exact Hq|]. split; [reflexivity|].
  intros cell files Hno. now rewrite (Hq _ Hno).
Qed.

Lemma no_quote_character (s : jsstring) :
  Forall (fun c => isOpenQuote c = false) s -> ~ quotedSubstring s.
Proof.
  intros Hall (pre & o & body & c & post & -> & Ho & _).
  apply List.Forall_app in Hall as [_ Hall].
  inversion Hall; subst. congruence.
Qed.

(** A cell with a date and no quotes: the date is extracted, no query
    is, and the row is NO_QUERY. *)
Example dated_cell_without_quotes :
  let cell := js "Reuniao de 20/04/2010" in
  ~ quotedSubstring cell
  /\ extractMetadata cell = {| queries := []; dates := [js "20/04/2010"] |}
  /\ forall availableFiles,
       findBestMatch (queries (extractMetadata cell))
         (dates (extractMetadata cell)) availableFiles
       = noQuery.
Proof.
  intros cell. split; [|split; [reflexivity|reflexivity]].
  apply no_quote_character. subst cell. vm_compute.
  repeat constructor.
Qed.

End NoQuery.

(** ** The order of scores

    The comparisons of binary64 numbers, read through their
    specification: away from NaN they form a total preorder. *)

Section FloatOrder.

Local Open Scope Z_scope.

Lemma SFcompare_key (a b : spec_float) :
  sfNumber a -> sfNumber b ->
  SFcompare a b = Some (lexCompare (sfKey a) (sfKey b)).
Proof.
  unfold sfNumber.
  destruct a as [sa|sa| |sa ma ea], b as [sb|sb| |sb mb eb];
    intros Ha Hb; try congruence;
    try (destruct sa); try (destruct sb); try reflexivity.
  - cbn [SFcompare sfKey lexCompare]. simpl (-1 ?= -1).
    destruct (Z.compare_spec ea eb), (Z.compare_spec (- ea) (- eb));
      try lia; reflexivity.
Qed.

Lemma lexCompare_refl a : lexCompare a a = Eq.
Proof.
  destruct a as [[a1 a2] a3]. unfold lexCompare.
  now rewrite !Z.compare_refl.
Qed.

Lemma lexCompare_antisym a b : lexCompare b a = CompOpp (lexCompare a b).
Proof.
  destruct a as [[a1 a2] a3], b as [[b1 b2] b3]. unfold lexCompare.
  rewrite (Z.compare_antisym a1 b1), (Z.compare_antisym a2 b2),
    (Z.compare_antisym a3 b3).
  destruct (a1 ?= b1), (a2 ?= b2), (a3 ?= b3); reflexivity.
Qed.

Lemma lexCompare_le_trans a b c :
  lexCompare a b <> Gt -> lexCompare b c <> Gt -> lexCompare a c <> Gt.
Proof.
  destruct a as [[a1 a2] a3], b as [[b1 b2] b3], c as [[c1 c2] c3].
  unfold lexCompare.
  destruct (Z.compare_spec a1 b1), (Z.compare_spec b1 c1),
    (Z.compare_spec a1 c1); try lia; try congruence;
  destruct (Z.compare_spec a2 b2), (Z.compare_spec b2 c2),
    (Z.compare_spec a2 c2); try lia; try congruence;
  destruct (Z.compare_spec a3 b3), (Z.compare_spec b3 c3),
    (Z.compare_spec a3 c3); try lia; congruence.
Qed.

Local Close Scope Z_scope.
Local Open Scope float_scope.

Lemma isNumber_spec (x : float) : isNumber x <-> sfNumber (Prim2SF x).
Proof.
  unfold isNumber, PrimFloat.is_nan, sfNumber.
  rewrite FloatAxioms.eqb_spec. unfold SFeqb. split.
  - intros H Hn. rewrite Hn in H. discriminate.
  - intros H. rewrite (SFcompare_key _ _ H H), lexCompare_refl. reflexivity.
Qed.

Lemma leb_isNumber (x y : float) :
  (x <=? y) = true -> isNumber x /\ isNumber y.
Proof.
  rewrite FloatAxioms.leb_spec, !isNumber_spec. unfold SFleb, sfNumber.
  destruct (Prim2SF x), (Prim2SF y); simpl; intros H;
    split; congruence.
Qed.

Lemma leb_key (x y : float) :
  isNumber x -> isNumber y ->
  ((x <=? y) = true
   <-> lexCompare (sfKey (Prim2SF x)) (sfKey (Prim2SF y)) <> Gt).
Proof.
  rewrite !isNumber_spec, FloatAxioms.leb_spec. intros Hx Hy. unfold SFleb.
  rewrite (SFcompare_key _ _ Hx Hy).
  destruct (lexCompare _ _); split; congruence.
Qed.

Lemma ltb_key (x y : float) :
  isNumber x -> isNumber y ->
  ((x <? y) = true
   <-> lexCompare (sfKey (Prim2SF x)) (sfKey (Prim2SF y)) = Lt).
Proof.
  rewrite !isNumber_spec, FloatAxioms.ltb_spec. intros Hx Hy. unfold SFltb.
  rewrite (SFcompare_key _ _ Hx Hy).
  destruct (lexCompare _ _); split; congruence.
Qed.

Lemma leb_refl (x : float) : isNumber x -> (x <=? x) = true.
Proof.
  intros Hx. apply (leb_key _ _ Hx Hx). now rewrite lexCompare_refl.
Qed.

Lemma leb_trans (x y z : float) :
  (x <=? y) = true -> (y <=? z) = true -> (x <=? z) = true.
Proof.
  intros Hxy Hyz.
  destruct (leb_isNumber _ _ Hxy) as [Hx Hy].
  destruct (leb_isNumber _ _ Hyz) as [_ Hz].
  apply (leb_key _ _ Hx Hz).
  eapply lexCompare_le_trans; [apply (leb_key x y)|apply (leb_key y z)];
    assumption.
Qed.

Lemma ltb_leb (x y : float) :
  isNumber x -> isNumber y -> (x <? y) = true -> (x <=? y) = true.
Proof.
  intros Hx Hy H. apply (leb_key _ _ Hx Hy).
  apply (ltb_key _ _ Hx Hy) in H. congruence.
Qed.

Lemma not_ltb_leb (x y : float) :
  isNumber x -> isNumber y -> (x <? y) = false -> (y <=? x) = true.
Proof.
  intros Hx Hy H. apply (leb_key _ _ Hy Hx).
  rewrite lexCompare_antisym. intros Hgt.
  assert (Hlt : (x <? y) = true).
  { apply (ltb_key _ _ Hx Hy).
    destruct (lexCompare _ _); simpl in Hgt; congruence. }
  congruence.
Qed.

End FloatOrder.

(** ** Deduplication by path *)

Section Deduplication.

Local Open Scope float_scope.

Lemma jsstring_eqb_refl (a : jsstring) : jsstring_eqb a a = true.
Proof. now apply jsstring_eqb_eq. Qed.

Lemma mapGet_mapSet_same k v m : mapGet k (mapSet k v m) = Some v.
Proof.
  induction m as [|[k' v'] r IH]; simpl.
  - now rewrite jsstring_eqb_refl.
  - destruct (jsstring_eqb k' k) eqn:E; simpl.
    + now rewrite jsstring_eqb_refl.
    + now rewrite E.
Qed.

Lemma mapGet_mapSet_other k k' v m :
  k' <> k -> mapGet k' (mapSet k v m) = mapGet k' m.
Proof.
  intros Hne. induction m as [|[k0 v0] r IH]; simpl.
  - unfold jsstring_eqb. destruct (decide (k = k')); congruence.
  - destruct (jsstring_eqb k0 k) eqn:E; simpl.
    + apply jsstring_eqb_eq in E. subst k0.
      unfold jsstring_eqb. destruct (decide (k = k')); congruence.
    + destruct (jsstring_eqb k0 k'); auto.
Qed.

Lemma mapSet_keys k v m :
  mapGet k m <> None -> List.map fst (mapSet k v m) = List.map fst m.
Proof.
  induction m as [|[k0 v0] r IH]; simpl; [congruence|].
  destruct (jsstring_eqb k0 k) eqn:E; simpl; intros H.
  - apply jsstring_eqb_eq in E. now subst.
  - now rewrite IH.
Qed.

Lemma mapSet_keys_new k v m :
  mapGet k m = None -> List.map fst (mapSet k v m) = List.map fst m ++ [k].
Proof.
  induction m as [|[k0 v0] r IH]; simpl; [reflexivity|].
  destruct (jsstring_eqb k0 k) eqn:E; simpl; intros H; [discriminate|].
  now rewrite IH.
Qed.

Lemma mapGet_None_notin k m : mapGet k m = None -> ~ In k (List.map fst m).
Proof.
  induction m as [|[k0 v0] r IH]; simpl; [tauto|].
  destruct (jsstring_eqb k0 k) eqn:E; [discriminate|].
  intros H [Heq|Hin]; [|now apply IH].
  subst. unfold jsstring_eqb in E. destruct (decide (k = k)); congruence.
Qed.

Lemma mapGet_In k v m : mapGet k m = Some v -> In (k, v) m.
Proof.
  induction m as [|[k0 v0] r IH]; simpl; [discriminate|].
  destruct (jsstring_eqb k0 k) eqn:E; intros H.
  - apply jsstring_eqb_eq in E. left. congruence.
  - right. auto.
Qed.

Lemma In_mapGet k v m :
  List.NoDup (List.map fst m) -> In (k, v) m -> mapGet k m = Some v.
Proof.
  induction m as [|[k0 v0] r IH]; simpl; [tauto|].
  intros Hnd. apply List.NoDup_cons_iff in Hnd as [Hnot Hnd].
  intros [Heq|Hin].
  - inversion Heq; subst. unfold jsstring_eqb.
    now destruct (decide (k = k)).
  - destruct (jsstring_eqb k0 k) eqn:E; [|auto].
    apply jsstring_eqb_eq in E. subst k0. exfalso. apply Hnot.
    change k with (fst (k, v)). now apply List.in_map.
Qed.

Lemma wellKeyed_mapSet c m :
  isNumber (score c) -> wellKeyed m -> wellKeyed (mapSet (keyOf c) c m).
Proof.
  intros Hnum [Hnd Hkeys]. split.
  - destruct (mapGet (keyOf c) m) eqn:Hget.
    + rewrite mapSet_keys; [assumption|congruence].
    + rewrite (mapSet_keys_new _ _ _ Hget).
      apply List.NoDup_app; [assumption| |].
      * apply List.NoDup_cons; [simpl; tauto|constructor].
      * intros x Hx [<-|[]]. now apply (mapGet_None_notin _ _ Hget).
  - intros k v. destruct (decide (k = keyOf c)) as [->|Hne].
    + rewrite mapGet_mapSet_same. intros [= <-]. auto.
    + rewrite (mapGet_mapSet_other _ _ _ _ Hne). apply Hkeys.
Qed.

(** One step of the fold: the entry under the candidate's path
    dominates both the candidate and the entry it may have replaced,
    and every other key is untouched. *)
Lemma dedupStep_spec c m :
  isNumber (score c) -> wellKeyed m ->
  wellKeyed (dedupStep m c)
  /\ (exists v, mapGet (keyOf c) (dedupStep m c) = Some v
                /\ (score c <=? score v) = true
                /\ (v = c \/ mapGet (keyOf c) m = Some v)
                /\ forall e, mapGet (keyOf c) m = Some e ->
                             (score e <=? score v) = true)
  /\ forall k, k <> keyOf c -> mapGet k (dedupStep m c) = mapGet k m.
Proof.
  intros Hnum Hwk. unfold dedupStep. fold (keyOf c).
  destruct (mapGet (keyOf c) m) as [e|] eqn:Hget.
  - destruct (proj2 Hwk _ _ Hget) as [_ He].
    destruct (score e <? score c) eqn:Hlt.
    + split; [now apply wellKeyed_mapSet|]. split.
      * exists c. rewrite mapGet_mapSet_same. repeat split; auto.
        -- now apply leb_refl.
        -- intros e' [= <-]. now apply ltb_leb.
      * intros k Hne. now apply mapGet_mapSet_other.
    + split; [assumption|]. split; [|reflexivity].
      exists e. repeat split; auto.
      * now apply not_ltb_leb.
      * intros e' [= <-]. now apply leb_refl.
  - split; [now apply wellKeyed_mapSet|]. split.
    + exists c. rewrite mapGet_mapSet_same. repeat split; auto.
      * now apply leb_refl.
      * discriminate.
    + intros k Hne. now apply mapGet_mapSet_other.
Qed.

Lemma dedupFold_spec :
  forall l m,
    Forall (fun c => isNumber (score c)) l -> wellKeyed m ->
    let m' := List.fold_left dedupStep l m in
    wellKeyed m'
    /\ (forall k v, mapGet k m' = Some v -> mapGet k m = Some v \/ In v l)
    /\ (forall k e, mapGet k m = Some e ->
          exists v, mapGet k m' = Some v /\ (score e <=? score v) = true)
    /\ (forall c, In c l ->
          exists v, mapGet (keyOf c) m' = Some v
                    /\ (score c <=? score v) = true).
Proof.
  induction l as [|c l IH]; intros m Hall Hwk; simpl.
  - split; [exact Hwk|]. split; [auto|]. split.
    + intros k e He. exists e. split; [assumption|].
      apply leb_refl. now apply (proj2 Hwk _ _ He).
    + intros c [].
  - inversion Hall as [|? ? Hc Hl]; subst.
    destruct (dedupStep_spec c m Hc Hwk)
      as (Hwk1 & (v & Hv & Hcv & Horigin & Hdom) & Hother).
    destruct (IH (dedupStep m c) Hl Hwk1) as (Hwk' & Hfrom & Hkeep & Hin).
    cbv zeta in *. split; [exact Hwk'|]. split; [|split].
    + intros k w Hw. destruct (Hfrom _ _ Hw) as [Hstep|Hinl]; [|auto].
      destruct (decide (k = keyOf c)) as [->|Hne].
      * rewrite Hv in Hstep. injection Hstep as <-.
        destruct Horigin as [->|Hm]; auto.
      * rewrite (Hother _ Hne) in Hstep. auto.
    + intros k e He. destruct (decide (k = keyOf c)) as [->|Hne].
      * destruct (Hkeep _ _ Hv) as (w & Hw & Hvw).
        exists w. split; [assumption|].
        eapply leb_trans; [apply (Hdom _ He)|exact Hvw].
      * apply Hkeep. now rewrite (Hother _ Hne).
    + intros c' [<-|Hc'].
      * destruct (Hkeep _ _ Hv) as (w & Hw & Hvw).
        exists w. split; [assumption|]. eapply leb_trans; eassumption.
      * now apply Hin.
Qed.

Lemma wellKeyed_empty : wellKeyed [].
Proof. split; [constructor|]. intros k v H. discriminate. Qed.

Lemma keys_of_values m :
  wellKeyed m -> List.map keyOf (List.map snd m) = List.map fst m.
Proof.
  intros [Hnd Hkeys]. rewrite List.map_map. apply List.map_ext_in.
  intros [k v] Hin. simpl. symmetry.
  now apply (Hkeys k v), In_mapGet.
Qed.

Lemma NoDup_map_unique {A B} (f : A -> B) (l : list A) :
  List.NoDup (List.map f l) ->
  forall x y, In x l -> In y l -> f x = f y -> x = y.
Proof.
  induction l as [|a l IH]; simpl; intros Hnd x y Hx Hy Hf; [destruct Hx|].
  apply List.NoDup_cons_iff in Hnd as [Hnot Hnd].
  destruct Hx as [<-|Hx], Hy as [<-|Hy]; auto.
  - exfalso. apply Hnot. rewrite Hf. now apply List.in_map.
  - exfalso. apply Hnot. rewrite <- Hf. now apply List.in_map.
Qed.

Lemma deduplicate_numbers (allCandidates : list Candidate) :
  Forall (fun c => isNumber (score c)) allCandidates ->
  keepsMaximum allCandidates.
Proof.
  intros Hall.
  destruct (dedupFold_spec allCandidates [] Hall wellKeyed_empty)
    as (Hwk & Hfrom & _ & Hin).
  cbv zeta in *. unfold keepsMaximum, deduplicate.
  set (m' := List.fold_left dedupStep allCandidates []) in *.
  assert (Hnd : List.NoDup (List.map keyOf (List.map snd m')))
    by (rewrite (keys_of_values _ Hwk); apply Hwk).
  split; [exact Hnd|]. split; [exact (NoDup_map_unique _ _ Hnd)|]. split.
  - intros kept Hk. apply List.in_map_iff in Hk as ([k v] & <- & Hkv).
    apply (In_mapGet _ _ _ (proj1 Hwk)) in Hkv.
    destruct (Hfrom _ _ Hkv) as [H|H]; [discriminate|exact H].
  - intros c Hc. destruct (Hin _ Hc) as (v & Hv & Hle).
    exists v. repeat split; [| |assumption].
    + apply List.in_map_iff. exists (keyOf c, v). split; [reflexivity|].
      now apply mapGet_In.
    + symmetry. now apply (proj2 Hwk _ _ Hv).
Qed.

(** Every pair the scoring loops push has passed the threshold, so its
    score is a number. *)
Lemma allCandidates_numbers queries dates availableFiles :
  Forall (fun c => isNumber (score c))
    (allCandidates queries dates availableFiles).
Proof.
  unfold allCandidates. apply List.Forall_forall. intros c Hc.
  apply List.in_flat_map in Hc as (q & _ & Hc). unfold scoreQuery in Hc.
  destruct (List.length (tokenize q) =? 0)%nat; [destruct Hc|].
  apply List.in_flat_map in Hc as (f & _ & Hc).
  destruct (scoreFile _ _ _ f) as [sc|]; [|destruct Hc].
  destruct (THRESHOLD <=? sc) eqn:Hth; [|destruct Hc].
  destruct Hc as [<-|[]]. simpl. now apply leb_isNumber in Hth.
Qed.

(** C5. Deduplication keeps exactly one entry per path, and its score
    is the maximum over the scored pairs sharing that path: the paths
    of the result are pairwise distinct, every entry kept is one of
    the scored pairs, and for every scored pair the kept entry of its
    path has a score at least as large.  This holds of every list of
    pairs whose scores are numbers, and so of the pairs the scoring
    loops produce across all queries of a row. *)
Theorem deduplicate_keeps_maximum :
  (forall allCandidates,
     Forall (fun c => isNumber (score c)) allCandidates ->
     keepsMaximum allCandidates)
  /\ (forall queries dates availableFiles,
        keepsMaximum (allCandidates queries dates availableFiles)).
Proof.
  split; [exact deduplicate_numbers|].
  intros queries dates availableFiles.
  apply deduplicate_numbers, allCandidates_numbers.
Qed.

Example deduplicate_example :
  let a := sampleNode "a.pdf" in
  let b := sampleNode "b.pdf" in
  deduplicate [ {| file := a; score := 0.6 |}; {| file := b; score := 0.7 |};
                {| file := a; score := 0.9 |}; {| file := a; score := 0.8 |} ]
  = [ {| file := a; score := 0.9 |}; {| file := b; score := 0.7 |} ].
Proof. reflexivity. Qed.

End Deduplication.

(** ** Reconciliation *)

Section Reconciliation.

Import App.

Variable fileSource : gmap jsstring File.

Lemma rehydrate_idem (n : FileNode) : rehydrate fileSource (rehydrate fileSource n) = rehydrate fileSource n.
Proof.
  unfold rehydrate. destruct (fileObject n) eqn:Hobj; [now rewrite Hobj|].
  destruct (fileSource !! path n) eqn:Hsrc; simpl; [reflexivity|].
  now rewrite Hobj, Hsrc.
Qed.

Lemma rehydrate_present (n : FileNode) (f : File) :
  fileObject n = Some f -> rehydrate fileSource n = n.
Proof. unfold rehydrate. now intros ->. Qed.

Lemma attach_lookup (h : store) (r r' : ref) :
  attach fileSource h r !! r'
  = if decide (r' = r) then rehydrate fileSource <$> h !! r' else h !! r'.
Proof.
  unfold attach. destruct (decide (r' = r)) as [->|Hne].
  - destruct (h !! r) as [n|] eqn:Hn; [|now rewrite Hn].
    unfold rehydrate. destruct (fileObject n) eqn:Hobj.
    + rewrite Hn. simpl. now rewrite Hobj.
    + destruct (fileSource !! path n) eqn:Hsrc.
      * rewrite lookup_insert_eq. simpl. now rewrite Hobj, Hsrc.
      * rewrite Hn. simpl. now rewrite Hobj, Hsrc.
  - destruct (h !! r) as [n|]; [|reflexivity].
    destruct (fileObject n); [reflexivity|].
    destruct (fileSource !! path n); [|reflexivity].
    now rewrite lookup_insert_ne.
Qed.

Lemma attach_fold_lookup (l : list ref) :
  forall (h : store) (r' : ref),
    List.fold_left (attach fileSource) l h !! r'
    = if decide (r' ∈ l) then rehydrate fileSource <$> h !! r' else h !! r'.
Proof.
  induction l as [|a l IH]; intros h r'; simpl.
  - destruct (decide (r' ∈ [])) as [Hin|]; [|reflexivity].
    now apply elem_of_nil in Hin.
  - rewrite IH, attach_lookup.
    destruct (decide (r' ∈ l)) as [Hl|Hl],
             (decide (r' = a)) as [->|Ha],
             (decide (_ ∈ a :: l)) as [Hal|Hal];
      try reflexivity;
      try (exfalso; apply Hal; set_solver);
      try (exfalso; apply elem_of_cons in Hal as [|]; contradiction).
    destruct (h !! a) as [n|]; simpl; [|reflexivity].
    now rewrite rehydrate_idem.
Qed.

Lemma reconcileResult_fold (h : store) (res : AnalysisResult ref) :
  reconcileResult fileSource h res
  = List.fold_left (attach fileSource) (refsOf res) h.
Proof.
  unfold reconcileResult, refsOf, attachAll.
  rewrite !List.fold_left_app.
  destruct (matchedFile res), (manualResolutions res), (candidates res);
    reflexivity.
Qed.

Lemma reconcile_fold (rs : list (AnalysisResult ref)) :
  forall h : store,
    List.fold_left (reconcileResult fileSource) rs h
    = List.fold_left (attach fileSource) (allRefs rs) h.
Proof.
  induction rs as [|res rs IH]; intros h; simpl; [reflexivity|].
  now rewrite List.fold_left_app, IH, reconcileResult_fold.
Qed.

(** The store after reconciliation, object by object. *)
Lemma reconcileFiles_lookup (st : State) (r : ref) :
  heap (reconcileFiles fileSource st) !! r
  = if decide (r ∈ allRefs (results st))
    then rehydrate fileSource <$> heap st !! r else heap st !! r.
Proof.
  unfold reconcileFiles. cbn [heap].
  now rewrite reconcile_fold, attach_fold_lookup.
Qed.

Lemma reconcileFiles_idem (st : State) :
  reconcileFiles fileSource (reconcileFiles fileSource st)
  = reconcileFiles fileSource st.
Proof.
  assert (Hheap : heap (reconcileFiles fileSource (reconcileFiles fileSource st))
                  = heap (reconcileFiles fileSource st)).
  { apply map_eq. intros r. rewrite !reconcileFiles_lookup.
    cbn [results reconcileFiles].
    destruct (decide (r ∈ allRefs (results st))); [|reflexivity].
    destruct (heap st !! r) as [n|]; simpl; [|reflexivity].
    now rewrite rehydrate_idem. }
  destruct st as [rs h s]. unfold reconcileFiles in *.
  cbn [results heap step] in *. f_equal; [exact Hheap|].
  now destruct (0 <? List.length rs)%nat.
Qed.

(** C4. Reconciling twice with one mapping gives the state reconciling
    once gives: the rows are the rows it was given, and in the store
    no object appears or disappears, a node that has a handle is left
    exactly as it is, and a node without one is changed in nothing but
    the handle, which it gains only if a row refers to it and the
    mapping has its path. *)
Theorem reconcile_idempotent_monotone (st : State) :
  reconcileFiles fileSource (reconcileFiles fileSource st)
  = reconcileFiles fileSource st
  /\ results (reconcileFiles fileSource st) = results st
  /\ (forall r, heap (reconcileFiles fileSource st) !! r = None
                <-> heap st !! r = None)
  /\ (forall r n f,
        heap st !! r = Some n -> fileObject n = Some f ->
        heap (reconcileFiles fileSource st) !! r = Some n)
  /\ (forall r n,
        heap st !! r = Some n -> fileObject n = None ->
        exists n',
          heap (reconcileFiles fileSource st) !! r = Some n'
          /\ name n' = name n /\ path n' = path n
          /\ lastModified n' = lastModified n
          /\ fileObject n'
             = if decide (r ∈ allRefs (results st))
               then fileSource !! path n else None).
Proof.
  split; [apply reconcileFiles_idem|]. split; [reflexivity|].
  split; [|split].
  - intros r. rewrite reconcileFiles_lookup.
    destruct (decide _); [|reflexivity].
    destruct (heap st !! r); simpl; split; congruence.
  - intros r n f Hn Hf. rewrite reconcileFiles_lookup, Hn.
    destruct (decide _); [|reflexivity].
    simpl. now rewrite (rehydrate_present _ _ Hf).
  - intros r n Hn Hf. rewrite reconcileFiles_lookup, Hn.
    destruct (decide _); simpl.
    + exists (rehydrate fileSource n). split; [reflexivity|].
      unfold rehydrate. rewrite Hf.
      destruct (fileSource !! path n); simpl; auto.
    + exists n. auto.
Qed.

End Reconciliation.

(** The shared node gains handle 5 once, through whichever field reaches
    it first; the node that had handle 7 keeps it although the mapping
    offers 9. *)
Example reconcile_shared_node :
  let st := App.reconcileFiles freshFiles sharedSession in
  App.heap st !! 1%positive = Some (App.setFileObject 5%N sharedNode)
  /\ App.heap st !! 2%positive = Some attachedNode
  /\ App.step st = App.RESULTS.
Proof. vm_compute. repeat split. Qed.

(** ** Session reload *)

Section Reload.

Import App.

Lemma migrateResult_legacy (r : StoredResult) (legacy : FileNode) :
  manualResolution r = Some legacy ->
  absentOrEmpty (manualResolutions (fields r)) = true ->
  manualResolutions (fields (migrateResult r)) = Some [legacy].
Proof.
  intros Hl He. unfold migrateResult. rewrite Hl, He. reflexivity.
Qed.

Lemma migrateResult_kept (r : StoredResult) :
  manualResolution r = None
  \/ absentOrEmpty (manualResolutions (fields r)) = false ->
  manualResolutions (fields (migrateResult r))
  = manualResolutions (fields r).
Proof.
  unfold migrateResult.
  intros [Hl|He]; [rewrite Hl|destruct (manualResolution r); rewrite ?He];
    now destruct (presentNonEmpty _).
Qed.

Lemma migrateResult_status (r : StoredResult) :
  matchStatus (fields (migrateResult r))
  = if presentNonEmpty (manualResolutions (fields (migrateResult r)))
    then FOUND else matchStatus (fields r).
Proof.
  unfold migrateResult.
  destruct (manualResolution r) as [legacy|];
    [destruct (absentOrEmpty _)|];
    match goal with
    | |- context [if presentNonEmpty ?l then _ else _] =>
        destruct (presentNonEmpty l) eqn:Hp
    end; cbn [fields matchStatus manualResolutions setMatchStatus
              setManualResolutions] in *; rewrite ?Hp; reflexivity.
Qed.

(** C6. On reload every record is migrated: a legacy singular manual
    resolution becomes the one-element list when the list is absent or
    empty, the list is otherwise left as stored, and after migration a
    record whose list is non-empty has status FOUND (any other record
    keeps its stored status). *)
Theorem reload_migrates_and_forces_found (jsonResults : list StoredResult) :
  List.length (App.migratedResults jsonResults) = List.length jsonResults
  /\ forall i r,
       nth_error jsonResults i = Some r ->
       exists r',
         nth_error (App.migratedResults jsonResults) i = Some r'
         /\ r' = App.migrateResult r
         /\ (forall legacy,
               manualResolution r = Some legacy ->
               absentOrEmpty (manualResolutions (fields r)) = true ->
               manualResolutions (fields r') = Some [legacy])
         /\ (manualResolution r = None
             \/ absentOrEmpty (manualResolutions (fields r)) = false ->
             manualResolutions (fields r') = manualResolutions (fields r))
         /\ (presentNonEmpty (manualResolutions (fields r')) = true ->
             matchStatus (fields r') = FOUND)
         /\ (presentNonEmpty (manualResolutions (fields r')) = false ->
             matchStatus (fields r') = matchStatus (fields r)).
Proof.
  unfold migratedResults. split; [apply List.length_map|].
  intros i r Hr. exists (migrateResult r).
  split; [now rewrite List.nth_error_map, Hr|]. split; [reflexivity|].
  split; [apply migrateResult_legacy|]. split; [apply migrateResult_kept|].
  rewrite migrateResult_status.
  split; intros ->; reflexivity.
Qed.

End Reload.

(** ** The export *)

Section ExcelExport.

Import Excel.

Lemma arrayGet_arraySet_same {A} (hole v : A) :
  forall i a, arrayGet hole i (arraySet hole i v a) = v.
Proof.
  unfold arrayGet. induction i as [|i IH]; intros [|x a]; simpl; auto.
Qed.

Lemma arrayGet_arraySet_other {A} (hole v : A) :
  forall i j a, i <> j ->
    arrayGet hole j (arraySet hole i v a) = arrayGet hole j a.
Proof.
  unfold arrayGet.
  induction i as [|i IH]; intros [|j] [|x a] Hne; simpl; try congruence;
    try reflexivity.
  - now destruct j.
  - rewrite IH by congruence. now destruct j.
  - apply IH. congruence.
Qed.

Lemma cellAt_setCell (g : Grid) (r c : nat) (v : Cell) (row : Row) :
  arrayGet None r g = Some row ->
  forall r' c',
    cellAt (setCell g r c v) r' c'
    = if decide (r' = r /\ c' = c) then v else cellAt g r' c'.
Proof.
  intros Hrow r' c'. unfold setCell, cellAt. rewrite Hrow.
  destruct (decide (r' = r)) as [->|Hr].
  - rewrite arrayGet_arraySet_same, Hrow.
    destruct (decide (c' = c)) as [->|Hc].
    + rewrite arrayGet_arraySet_same. now destruct (decide _) as [|[]].
    + rewrite arrayGet_arraySet_other by congruence.
      destruct (decide _) as [[_ ?]|]; [contradiction|reflexivity].
  - rewrite arrayGet_arraySet_other by congruence.
    destruct (decide _) as [[? _]|]; [contradiction|reflexivity].
Qed.

Lemma ensureRow_row (g : Grid) (r : nat) :
  exists row, arrayGet None r (ensureRow g r) = Some row.
Proof.
  unfold ensureRow. destruct (arrayGet None r g) as [row|] eqn:H.
  - now exists row.
  - exists []. apply arrayGet_arraySet_same.
Qed.

Lemma ensureRow_cells (g : Grid) (r : nat) :
  forall r' c', cellAt (ensureRow g r) r' c' = cellAt g r' c'.
Proof.
  intros r' c'. unfold ensureRow.
  destruct (arrayGet None r g) as [row|] eqn:H; [reflexivity|].
  unfold cellAt. destruct (decide (r' = r)) as [->|Hr].
  - rewrite arrayGet_arraySet_same, H. now destruct c'.
  - now rewrite arrayGet_arraySet_other by congruence.
Qed.

Lemma cellAt_write (g : Grid) (r : nat) (v : Cell) :
  forall r' c',
    cellAt (setCell (ensureRow g r) r 3 v) r' c'
    = if decide (r' = r /\ c' = 3%nat) then v else cellAt g r' c'.
Proof.
  intros r' c'. destruct (ensureRow_row g r) as [row Hrow].
  rewrite (cellAt_setCell _ _ _ _ _ Hrow). now rewrite ensureRow_cells.
Qed.

Lemma writeResult_cells (g : Grid) (res : AnalysisResult FileNode) :
  (1 <= rowId res)%Z ->
  forall r c,
    cellAt (writeResult g res) r c
    = match written res with
      | Some v =>
          if decide (r = rowIndexOf res /\ c = 3%nat) then v
          else cellAt g r c
      | None => cellAt g r c
      end.
Proof.
  intros Hid r c. unfold writeResult, written.
  destruct (rowId res - 1 <? 0)%Z eqn:Hneg; [apply Z.ltb_lt in Hneg; lia|].
  fold (rowIndexOf res).
  destruct (finalFilesOf res) as [|primaryFile more].
  - destruct (matchStatus res); cbn [MatchStatus_eqb andb].
    + apply ensureRow_cells.
    + destruct (isTrue (isIgnored res)); cbn [negb].
      * apply ensureRow_cells.
      * apply cellAt_write.
    + apply cellAt_write.
    + apply ensureRow_cells.
  - apply cellAt_write.
Qed.

Lemma finalFilesOf_manual (res : AnalysisResult FileNode) l :
  manualResolutions res = Some l -> l <> [] -> finalFilesOf res = l.
Proof.
  intros Hm Hne. unfold finalFilesOf. rewrite Hm. simpl.
  destruct l; [contradiction|reflexivity].
Qed.

Lemma finalFilesOf_matched (res : AnalysisResult FileNode) :
  App.absentOrEmpty (manualResolutions res) = true ->
  finalFilesOf res
  = match matchedFile res with Some f => [f] | None => [] end.
Proof.
  unfold finalFilesOf. destruct (manualResolutions res) as [[|x l]|];
    simpl; intros H; try discriminate; reflexivity.
Qed.

(** C7, as amended.  For a record of row [rowId >= 1] the writer
    touches no cell other than column 3 of row [rowId - 1], and there:
    a record with a resolution (the non-empty manual resolutions, else
    the matched file) gets a hyperlink cell showing the resolved names,
    prefixed when there are several, and targeting the path of the
    first; a record without resolution gets, if AMBIGUOUS and not
    ignored, the flagged list of candidate names and, if NOT_FOUND and
    not ignored, the failure marker; and a record without resolution
    that is NO_QUERY, FOUND, or NOT_FOUND and ignored leaves every cell
    as it was. *)
Theorem export_column_3 (g : Grid) (res : AnalysisResult FileNode) :
  (1 <= rowId res)%Z ->
  let i := rowIndexOf res in
  let g' := writeResult g res in
  (forall r c, ~ (r = i /\ c = 3%nat) -> cellAt g' r c = cellAt g r c)
  /\ (forall l, manualResolutions res = Some l -> l <> [] ->
        finalFilesOf res = l)
  /\ (App.absentOrEmpty (manualResolutions res) = true ->
      finalFilesOf res
      = match matchedFile res with Some f => [f] | None => [] end)
  /\ (forall first more,
        finalFilesOf res = first :: more ->
        exists tooltip,
          cellAt g' i 3
          = Link (displayText (first :: more)) (path first) tooltip)
  /\ (finalFilesOf res = [] -> matchStatus res = AMBIGUOUS ->
      isTrue (isIgnored res) = false ->
      cellAt g' i 3
      = Text (AMBIGUO ++ namesOf (default [] (candidates res))))
  /\ (finalFilesOf res = [] -> matchStatus res = NOT_FOUND ->
      isTrue (isIgnored res) = false ->
      cellAt g' i 3 = Text FALHA)
  /\ (finalFilesOf res = [] ->
      matchStatus res = NO_QUERY \/ matchStatus res = FOUND
      \/ (matchStatus res = NOT_FOUND /\ isTrue (isIgnored res) = true) ->
      forall r c, cellAt g' r c = cellAt g r c).
Proof.
  intros Hid i g'. subst i g'.
  pose proof (writeResult_cells g res Hid) as Hcells.
  split.
  { intros r c Hrc. rewrite Hcells.
    destruct (written res); [|reflexivity].
    destruct (decide _); [contradiction|reflexivity]. }
  split; [apply finalFilesOf_manual|]. split; [apply finalFilesOf_matched|].
  assert (Hat : forall v, written res = Some v ->
                          cellAt (writeResult g res) (rowIndexOf res) 3 = v).
  { intros v Hv. rewrite Hcells, Hv. destruct (decide _) as [|[]]; auto. }
  unfold written in *. repeat split.
  - intros first more Hfin. rewrite Hfin in Hat.
    eexists. rewrite (Hat _ eq_refl). unfold linkCell, displayText.
    destruct more; reflexivity.
  - intros Hfin Hst Hig. rewrite Hfin, Hst in Hat.
    rewrite (Hat _ eq_refl). now destruct (candidates res).
  - intros Hfin Hst Hig. rewrite Hfin, Hst, Hig in Hat. now apply Hat.
  - intros Hfin Hst r c. rewrite Hcells, Hfin.
    destruct Hst as [->|[->|[-> ->]]]; reflexivity.
Qed.

(** The statement at a row the engine has found. *)
Lemma export_column_3_witness :
  (1 <= rowId foundRow)%Z
  /\ (exists tooltip,
        cellAt (writeResult sampleGrid foundRow) 0 3
        = Link (js "a.pdf") (js "Raiz/Ponto 1/a.pdf") tooltip)
  /\ cellAt (writeResult sampleGrid foundRow) 0 2 = Text (js "Email").
Proof.
  assert (Hid : (1 <= rowId foundRow)%Z) by (vm_compute; discriminate).
  split; [exact Hid|].
  destruct (export_column_3 sampleGrid foundRow Hid)
    as (Hframe & _ & _ & Hlink & _).
  split.
  - exact (Hlink (sampleNode "a.pdf") [] eq_refl).
  - rewrite Hframe; [reflexivity|]. intros [_ H]. discriminate.
Defined.

(** C7 as worded fails on ignored rows: they are written.  On the
    one-row sheet whose column 3 holds x, the ignored row with a picked
    file gets its hyperlink and the ignored ambiguous row gets the
    flagged list of its candidates, so it is not the case that every
    ignored row leaves the sheet as it was. *)
Lemma export_writes_ignored_rows :
  cellAt sampleGrid 0 3 = Text (js "x")
  /\ isIgnored ignoredResolved = Some true
  /\ cellAt (writeResult sampleGrid ignoredResolved) 0 3
     = Link (js "a.pdf") (js "Raiz/Ponto 1/a.pdf")
         (js "Abrir ficheiro local: a.pdf")
  /\ isIgnored ignoredAmbiguous = Some true
  /\ cellAt (writeResult sampleGrid ignoredAmbiguous) 0 3
     = Text (AMBIGUO ++ js "a.pdf, b.pdf")
  /\ ~ (forall g res,
          (1 <= rowId res)%Z -> isTrue (isIgnored res) = true ->
          forall r c, cellAt (writeResult g res) r c = cellAt g r c).
Proof.
  repeat split.
  intros H.
  specialize (H sampleGrid ignoredResolved ltac:(vm_compute; discriminate)
                eq_refl 0%nat 3%nat).
  vm_compute in H. discriminate.
Qed.

(** The whole export, for rows that are numbered from 1 and pairwise
    distinct: each record decides column 3 of its own row, and no other
    cell of the original data changes. *)
Lemma writeResults_cells :
  forall (results : list (AnalysisResult FileNode)) (g : Grid),
    Forall (fun res => (1 <= rowId res)%Z) results ->
    List.NoDup (List.map rowIndexOf results) ->
    (forall res, In res results ->
       cellAt (List.fold_left writeResult results g) (rowIndexOf res) 3
       = default (cellAt g (rowIndexOf res) 3) (written res))
    /\ (forall r c,
          c <> 3%nat \/ ~ In r (List.map rowIndexOf results) ->
          cellAt (List.fold_left writeResult results g) r c = cellAt g r c).
Proof.
  induction results as [|a l IH]; intros g Hall Hnd.
  - split; [intros res []|reflexivity].
  - inversion Hall as [|? ? Ha Hl]; subst.
    apply List.NoDup_cons_iff in Hnd as [Hnotin Hnd].
    destruct (IH (writeResult g a) Hl Hnd) as [Hown Hframe].
    assert (Hstep : forall r c,
              c <> 3%nat \/ r <> rowIndexOf a ->
              cellAt (writeResult g a) r c = cellAt g r c).
    { intros r c Hrc. rewrite (writeResult_cells g a Ha).
      destruct (written a); [|reflexivity].
      destruct (decide _) as [[-> ->]|]; [|reflexivity].
      destruct Hrc; contradiction. }
    cbn [List.fold_left]. split.
    + intros res [<-|Hin].
      * rewrite Hframe by (right; exact Hnotin).
        rewrite (writeResult_cells g a Ha).
        destruct (written a); simpl; [|reflexivity].
        now destruct (decide _) as [|[]].
      * rewrite (Hown _ Hin). rewrite Hstep; [reflexivity|].
        right. intros Heq. apply Hnotin. rewrite <- Heq.
        now apply List.in_map.
    + intros r c Hrc. rewrite Hframe.
      * apply Hstep. destruct Hrc as [Hc|Hr]; [now left|].
        right. intros ->. apply Hr. now left.
      * destruct Hrc as [Hc|Hr]; [now left|].
        right. intros Hin. apply Hr. now right.
Qed.

Lemma generateExcelData_cells (originalData : list Row)
  (results : list (AnalysisResult FileNode)) :
  Forall (fun res => (1 <= rowId res)%Z) results ->
  List.NoDup (List.map rowIndexOf results) ->
  forall res, In res results ->
    cellAt (generateExcelData originalData results) (rowIndexOf res) 3
    = default (cellAt (List.map Some originalData) (rowIndexOf res) 3)
        (written res).
Proof.
  intros Hall Hnd. unfold generateExcelData.
  apply (writeResults_cells results _ Hall Hnd).
Qed.

End ExcelExport.

(** ** Date permutations *)

Section DatePermutations.

Lemma splitAt_part (sep : N -> bool) (p : jsstring) :
  Forall (fun c => sep c = false) p ->
  forall cur rest, splitAt sep cur (p ++ rest) = splitAt sep (cur ++ p) rest.
Proof.
  induction 1 as [|c p Hc _ IH]; intros cur rest; simpl.
  - now rewrite List.app_nil_r.
  - rewrite Hc, IH, <- List.app_assoc. reflexivity.
Qed.

Lemma cleanPartsOf_three (p0 p1 p2 : jsstring) (s1 s2 : N) :
  p0 <> [] -> p1 <> [] -> p2 <> [] ->
  noSep p0 -> noSep p1 -> noSep p2 ->
  isDatePartSep s1 = true -> isDatePartSep s2 = true ->
  cleanPartsOf (p0 ++ [s1] ++ p1 ++ [s2] ++ p2) = [p0; p1; p2].
Proof.
  intros H0 H1 H2 N0 N1 N2 S1 S2. unfold cleanPartsOf, split.
  rewrite (splitAt_part _ _ N0). simpl. rewrite S1.
  rewrite (splitAt_part _ _ N1). simpl. rewrite S2.
  rewrite <- (List.app_nil_r p2), (splitAt_part _ _ N2). simpl.
  rewrite List.app_nil_r.
  destruct p0, p1, p2; try contradiction. reflexivity.
Qed.

Lemma digits_noSep (p : jsstring) : allDigits p -> noSep p.
Proof.
  apply List.Forall_impl. intros c Hc.
  unfold isDigit, inRange in Hc. apply andb_true_iff in Hc as [Hlo Hhi].
  apply N.leb_le in Hlo, Hhi.
  unfold isDatePartSep, isDateSep, isSpace, inRange.
  repeat match goal with
         | |- context [(c =? ?k)%N] =>
             let E := fresh in
             destruct (N.eqb_spec c k) as [E|E]; [lia|]
         | |- context [(?k <=? c)%N] =>
             let E := fresh in
             destruct (N.leb_spec k c) as [E|E]; try lia
         | |- context [(c <=? ?k)%N] =>
             let E := fresh in
             destruct (N.leb_spec c k) as [E|E]; try lia
         end; reflexivity.
Qed.

Lemma padStart2_digits (p : jsstring) : allDigits p -> allDigits (padStart2 p).
Proof.
  intros H. unfold padStart2. apply List.Forall_app. split; [|assumption].
  apply List.Forall_forall. intros c Hc. apply List.repeat_spec in Hc.
  now subst.
Qed.

Lemma padStart2_length (p : jsstring) :
  (1 <= List.length p <= 2)%nat -> List.length (padStart2 p) = 2%nat.
Proof.
  intros H. unfold padStart2. rewrite List.length_app, List.repeat_length. lia.
Qed.

Lemma getDatePermutations_three (dateStr p0 p1 p2 : jsstring) :
  cleanPartsOf dateStr = [p0; p1; p2] ->
  getDatePermutations dateStr
  = if (List.length p0 =? 4)%nat
    then dateVariants (padStart2 p2) (padStart2 p1) p0
    else dateVariants (padStart2 p0) (padStart2 p1) p2.
Proof.
  intros H. unfold getDatePermutations. rewrite H.
  destruct (List.length p0 =? 4)%nat; reflexivity.
Qed.

Lemma getDatePermutations_fallback (dateStr : jsstring) :
  List.length (cleanPartsOf dateStr) <> 3%nat ->
  getDatePermutations dateStr = [dateStr].
Proof.
  intros H. unfold getDatePermutations.
  destruct (cleanPartsOf dateStr) as [|? [|? [|? [|? ?]]]];
    simpl in H; try reflexivity.
  contradiction.
Qed.

Lemma nonempty_of_length (p : jsstring) : (1 <= List.length p)%nat -> p <> [].
Proof. destruct p; simpl; [lia|discriminate]. Qed.

(** C8, corrected statement.  A raw date string that leaves exactly
    three non-empty parts when split at the separators yields the fixed
    list of nine variants built from the padded day and month and the
    year, read year-first when the first part has four characters and
    day-first otherwise: the concatenation in both orders, the hyphen-,
    underscore- and dot-separated variants in both orders, and the
    space-separated variant in day-first order only.  For the numeric
    shapes the date pattern extracts, in either layout, the two
    concatenations are eight digits.  A raw string that does not leave
    exactly three non-empty parts is returned unchanged as the sole
    variant. *)
Theorem date_permutations_fixed_list :
  (forall dateStr p0 p1 p2,
     cleanPartsOf dateStr = [p0; p1; p2] ->
     getDatePermutations dateStr
     = if (List.length p0 =? 4)%nat
       then dateVariants (padStart2 p2) (padStart2 p1) p0
       else dateVariants (padStart2 p0) (padStart2 p1) p2)
  /\ (forall d m y s1 s2,
        allDigits d -> allDigits m -> allDigits y ->
        (1 <= List.length d <= 2)%nat -> (1 <= List.length m <= 2)%nat ->
        List.length y = 4%nat ->
        isDateSep s1 = true -> isDateSep s2 = true ->
        let dd := padStart2 d in
        let mm := padStart2 m in
        getDatePermutations (d ++ [s1] ++ m ++ [s2] ++ y)
        = dateVariants dd mm y
        /\ getDatePermutations (y ++ [s1] ++ m ++ [s2] ++ d)
           = dateVariants dd mm y
        /\ List.length (dd ++ mm ++ y) = 8%nat
        /\ List.length (y ++ mm ++ dd) = 8%nat
        /\ allDigits (dd ++ mm ++ y) /\ allDigits (y ++ mm ++ dd))
  /\ (forall dateStr,
        List.length (cleanPartsOf dateStr) <> 3%nat ->
        getDatePermutations dateStr = [dateStr]).
Proof.
  split; [exact getDatePermutations_three|].
  split; [|exact getDatePermutations_fallback].
  intros d m y s1 s2 Dd Dm Dy Ld Lm Ly S1 S2 dd mm. subst dd mm.
  assert (P1 : isDatePartSep s1 = true)
    by (unfold isDatePartSep; now rewrite S1).
  assert (P2 : isDatePartSep s2 = true)
    by (unfold isDatePartSep; now rewrite S2).
  assert (Hd : d <> []) by (apply nonempty_of_length; lia).
  assert (Hm : m <> []) by (apply nonempty_of_length; lia).
  assert (Hy : y <> []) by (apply nonempty_of_length; lia).
  pose proof (digits_noSep _ Dd) as Nd.
  pose proof (digits_noSep _ Dm) as Nm.
  pose proof (digits_noSep _ Dy) as Ny.
  split; [|split].
  - rewrite (getDatePermutations_three _ d m y)
      by now apply cleanPartsOf_three.
    destruct (Nat.eqb_spec (List.length d) 4); [lia|reflexivity].
  - rewrite (getDatePermutations_three _ y m d)
      by now apply cleanPartsOf_three.
    now rewrite Ly.
  - rewrite !List.length_app, !padStart2_length, Ly by assumption.
    repeat split; try reflexivity;
      unfold allDigits; rewrite !List.Forall_app;
      repeat split; auto; now apply padStart2_digits.
Qed.

(** C8 as worded fails on the space-separated variant, which exists in
    day-first order only, and on a string of three parts that are not
    numbers, which is not returned unchanged. *)
Lemma date_permutations_no_year_first_space :
  ~ In (js "2010 04 20") (getDatePermutations (js "20/04/2010"))
  /\ In (js "20 04 2010") (getDatePermutations (js "20/04/2010"))
  /\ getDatePermutations (js "a-b-c") <> [js "a-b-c"].
Proof.
  split; [|split].
  - vm_compute. intros H.
    repeat (destruct H as [H|H]; [discriminate|]). exact H.
  - vm_compute. do 8 right. left. reflexivity.
  - vm_compute. discriminate.
Qed.

Example date_permutations_example :
  getDatePermutations (js "20/04/2010")
  = List.map js [ "20042010"; "20100420"; "20-04-2010"; "2010-04-20";
                  "2010_04_20"; "2010.04.20"; "20_04_2010"; "20.04.2010";
                  "20 04 2010" ]%string
  /\ getDatePermutations (js "2010.4.2")
     = dateVariants (js "02") (js "04") (js "2010")
  /\ getDatePermutations (js "20/04") = [js "20/04"].
Proof. repeat split. Qed.

End DatePermutations.

(** ** The extension boost *)

Section ExtensionBoost.

Local Open Scope float_scope.

Lemma split_no_separator (sep : N -> bool) (s : jsstring) :
  Forall (fun c => sep c = false) s -> split sep s = [s].
Proof.
  intros H. unfold split.
  pose proof (splitAt_part sep s H [] []) as E.
  rewrite List.app_nil_r in E. exact E.
Qed.

Lemma shared_token_lengths (queryTokens fileTokens : list jsstring) :
  List.filter (has fileTokens) queryTokens <> [] ->
  (List.length fileTokens =? 0)%nat = false
  /\ (List.length (List.filter (has fileTokens) queryTokens) =? 0)%nat = false.
Proof.
  intros H. split.
  - destruct fileTokens; [|reflexivity].
    exfalso. apply H. induction queryTokens; simpl; auto.
  - destruct (List.filter _ _); [contradiction|reflexivity].
Qed.

(** C10. For a query without a dot that shares a token with the file
    name, if the file name's last dot-separated piece, lower-cased and
    longer than two code units, is the whole lower-cased query, the
    extension test succeeds and the score is the base score with the
    date boost if any, plus 0.20, with the sequence boost if any: the
    boost needs no dot in the query. *)
Theorem extension_boost_without_dot (query : jsstring) (f : FileNode)
  (dateSearchTerms : list jsstring) :
  Forall (fun c => isDot c = false) query ->
  List.filter (has (tokenize (name f))) (tokenize query) <> [] ->
  toLowerCase (pop (split isDot (name f))) = toLowerCase query ->
  (2 < List.length (toLowerCase (pop (split isDot (name f)))))%nat ->
  extensionMatch query f = true
  /\ scoreFile query (tokenize query) dateSearchTerms f
     = Some
         (boost (sequenceMatch query f) 0.15
            (boost (dateMatch dateSearchTerms f) 0.40
               (baseScore
                  (List.length
                     (List.filter (has (tokenize (name f))) (tokenize query)))
                  (List.length (tokenize (name f)))
                  (List.length (tokenize query)))
             + 0.20)).
Proof.
  intros Hdot Hshared Hext Hlen.
  assert (Hmatch : extensionMatch query f = true).
  { unfold extensionMatch. rewrite (split_no_separator _ _ Hdot).
    cbn [pop List.last]. rewrite <- Hext, jsstring_eqb_refl.
    destruct (List.length _) as [|[|[|n]]]; try lia. reflexivity. }
  split; [exact Hmatch|].
  destruct (shared_token_lengths _ _ Hshared) as [Hfile Hcount].
  unfold scoreFile. rewrite Hfile, Hcount, Hmatch. reflexivity.
Qed.

(** The query pdf against report.pdf: base score 1, the extension
    boost and the sequence boost. *)
Lemma extension_boost_without_dot_witness :
  Forall (fun c => isDot c = false) (js "pdf")
  /\ extensionMatch (js "pdf") reportPdf = true
  /\ scoreFile (js "pdf") (tokenize (js "pdf")) [] reportPdf
     = Some (1 + 0.20 + 0.15).
Proof.
  assert (Hdot : Forall (fun c => isDot c = false) (js "pdf"))
    by (repeat constructor).
  split; [exact Hdot|].
  destruct (extension_boost_without_dot (js "pdf") reportPdf [] Hdot)
    as [Hmatch Hscore].
  - vm_compute. discriminate.
  - reflexivity.
  - vm_compute. lia.
  - split; [exact Hmatch|]. rewrite Hscore. vm_compute. reflexivity.
Defined.

End ExtensionBoost.

(** ** Tokenization *)

Section CodeUnitClasses.

(** Case analysis on the ten low bits of a code unit: every range test
    above is settled by them. *)
Ltac settle :=
  first [ reflexivity
        | let H := fresh in
          intros H; first [ reflexivity | cbv in H; discriminate H ] ].

Ltac by_bits c :=
  destruct c as [|c]; [settle|];
  do 10 (try destruct c as [c|c|]); settle.

Lemma class_underscore (c : N) :
  isNonWordOrUnderscore (underscoreToSpace c) = isNonWordOrUnderscore c
  /\ (isNonWordOrUnderscore c = false -> underscoreToSpace c = c).
Proof. split; by_bits c. Qed.

Lemma word_not_space (c : N) :
  isNonWordOrUnderscore c = false -> isSpace c = false.
Proof. by_bits c. Qed.

Lemma flat_map_flat_map {A B C} (f : A -> list B) (g : B -> list C)
  (l : list A) :
  List.flat_map g (List.flat_map f l)
  = List.flat_map (fun a => List.flat_map g (f a)) l.
Proof.
  induction l as [|a l IH]; simpl; [reflexivity|].
  now rewrite List.flat_map_app, IH.
Qed.

Lemma flat_map_map {A B C} (f : A -> B) (g : B -> list C) (l : list A) :
  List.flat_map g (List.map f l) = List.flat_map (fun a => g (f a)) l.
Proof. induction l as [|a l IH]; simpl; [reflexivity|]. now rewrite IH. Qed.

Lemma map_flat_map {A B C} (f : A -> list B) (g : B -> C) (l : list A) :
  List.map g (List.flat_map f l)
  = List.flat_map (fun a => List.map g (f a)) l.
Proof.
  induction l as [|a l IH]; simpl; [reflexivity|].
  now rewrite List.map_app, IH.
Qed.

(** Collapsing the separators, splitting at the spaces and dropping the
    empty pieces leaves the maximal runs of word characters. *)
Lemma collapse_split_words (cls : N -> bool) :
  (forall c, cls c = false -> isSpace c = false) ->
  forall x,
    (forall cur,
       List.filter nonEmpty
         (splitRunsAt isSpace cur false (collapseRunsAt cls false x))
       = wordsAt cls cur x)
    /\ List.filter nonEmpty
         (splitRunsAt isSpace [] true (collapseRunsAt cls true x))
       = wordsAt cls [] x.
Proof.
  intros Hcls. induction x as [|c x [IHf IHt]]; simpl.
  - split; [|reflexivity]. intros [|a cur]; reflexivity.
  - destruct (cls c) eqn:Hc.
    + split; [|exact IHt].
      intros cur. cbn [splitRunsAt]. change (isSpace 32) with true.
      cbn iota. cbn [List.filter]. rewrite IHt.
      destruct cur; reflexivity.
    + cbn [splitRunsAt]. rewrite (Hcls _ Hc). split; [|apply IHf].
      intros cur. apply IHf.
Qed.

Lemma wordsAt_separator (cls : N -> bool) (sep : N) :
  cls sep = true ->
  forall a cur b,
    wordsAt cls cur (a ++ sep :: b) = wordsAt cls cur a ++ wordsAt cls [] b.
Proof.
  intros Hsep. induction a as [|c a IH]; intros cur b; simpl.
  - rewrite Hsep. destruct cur; reflexivity.
  - destruct (cls c); [|apply IH].
    destruct cur; rewrite IH; reflexivity.
Qed.

Lemma wordsAt_underscore :
  forall x cur,
    wordsAt isNonWordOrUnderscore cur (List.map underscoreToSpace x)
    = wordsAt isNonWordOrUnderscore cur x.
Proof.
  induction x as [|c x IH]; intros cur; simpl; [reflexivity|].
  destruct (class_underscore c) as [Hcls Hsame]. rewrite Hcls.
  destruct (isNonWordOrUnderscore c) eqn:Hc.
  - now rewrite IH.
  - rewrite (Hsame eq_refl). apply IH.
Qed.

End CodeUnitClasses.

(** *** Words of a normalized string *)

Section WordView.

Lemma sameWords_refl (x : jsstring) : sameWords x x.
Proof. intros cur w. reflexivity. Qed.

Lemma sameWords_sym (x y : jsstring) : sameWords x y -> sameWords y x.
Proof. intros H cur w. symmetry. apply H. Qed.

Lemma sameWords_trans (x y z : jsstring) :
  sameWords x y -> sameWords y z -> sameWords x z.
Proof. intros H1 H2 cur w. now rewrite H1. Qed.

Lemma sameWords_app_r (x y z : jsstring) :
  sameWords x y -> sameWords (x ++ z) (y ++ z).
Proof. intros H cur w. rewrite <- !List.app_assoc. apply H. Qed.

Lemma sameWords_app_l (z x y : jsstring) :
  sameWords x y -> sameWords (z ++ x) (z ++ y).
Proof.
  intros H cur w. rewrite <- !List.app_assoc. revert cur.
  unfold sameWords, wordsFrom, removeAll in *.
  induction z as [|a z IH]; intros cur; [apply H|].
  cbn [app List.filter]. destruct (negb (isCombiningMark a)); [|apply IH].
  cbn [wordsAt]. destruct (isNonWordOrUnderscore a); [|apply IH].
  destruct cur; now rewrite IH.
Qed.

Lemma sameWords_app (x x' y y' : jsstring) :
  sameWords x x' -> sameWords y y' -> sameWords (x ++ y) (x' ++ y').
Proof.
  intros Hx Hy. apply (sameWords_trans _ (x' ++ y)).
  - now apply sameWords_app_r.
  - now apply sameWords_app_l.
Qed.

Lemma sameWords_flat_map {A} (f g : A -> jsstring) (l : list A) :
  (forall a, sameWords (f a) (g a)) ->
  sameWords (List.flat_map f l) (List.flat_map g l).
Proof.
  intros H. induction l as [|a l IH]; [apply sameWords_refl|].
  cbn [List.flat_map]. now apply sameWords_app.
Qed.

Lemma sameWords_words (x y : jsstring) :
  sameWords x y -> wordsFrom [] x = wordsFrom [] y.
Proof.
  intros H. specialize (H [] []). now rewrite !List.app_nil_r in H.
Qed.

(** Collapsing the runs of separators does not change the words. *)
Lemma wordsAt_collapse (cls : N -> bool) :
  cls 32 = true ->
  forall v w,
    (forall cur,
       wordsAt cls cur (v ++ w)
       = wordsAt cls cur (collapseRunsAt cls false v ++ w))
    /\ wordsAt cls [] (v ++ w)
       = wordsAt cls [] (collapseRunsAt cls true v ++ w).
Proof.
  intros Hsp v w. induction v as [|c v [IHf IHt]]; [now split|].
  cbn [app collapseRunsAt wordsAt]. destruct (cls c) eqn:Hc.
  - split; [|exact IHt].
    intros cur. cbn [app wordsAt]. rewrite Hsp, IHt. reflexivity.
  - cbn [app wordsAt]. rewrite Hc. split; [intros cur|]; apply IHf.
Qed.

Lemma sameWordsb_sound (x y : jsstring) :
  sameWordsb x y = true -> sameWords x y.
Proof.
  unfold sameWordsb, wordForm, collapseRuns. intros H.
  apply jsstring_eqb_eq in H. intros cur w.
  assert (Happ : forall a b,
            removeAll isCombiningMark (a ++ b)
            = removeAll isCombiningMark a ++ removeAll isCombiningMark b)
    by (intros a b; apply List.filter_app).
  unfold wordsFrom. rewrite !Happ.
  rewrite (proj1 (wordsAt_collapse _ eq_refl
                    (removeAll isCombiningMark x) _) cur), H.
  now rewrite <- (proj1 (wordsAt_collapse _ eq_refl
                           (removeAll isCombiningMark y) _) cur).
Qed.

Lemma blank_form (x : jsstring) :
  blankb x = true ->
  forall b,
    collapseRunsAt isNonWordOrUnderscore b (removeAll isCombiningMark x)
    = if List.existsb (fun c => negb (isCombiningMark c)) x && negb b
      then [32] else [].
Proof.
  unfold blankb, removeAll.
  induction x as [|c x IH]; intros Hx b; [reflexivity|].
  cbn [List.forallb] in Hx. apply andb_true_iff in Hx as [Hc Hx].
  cbn [List.filter List.existsb]. destruct (negb (isCombiningMark c)).
  - cbn [collapseRunsAt orb andb]. rewrite Hc, (IH Hx true).
    rewrite andb_false_r. now destruct b.
  - cbn [orb]. now apply IH.
Qed.

Lemma separator_form (x : jsstring) :
  separatorb x = true -> wordForm x = [32].
Proof.
  unfold separatorb. intros H. apply andb_true_iff in H as [Hb He].
  unfold wordForm, collapseRuns. now rewrite (blank_form _ Hb), He.
Qed.

Lemma separator_same (x y : jsstring) :
  separatorb x = true -> separatorb y = true -> sameWords x y.
Proof.
  intros Hx Hy. apply sameWordsb_sound. unfold sameWordsb.
  rewrite (separator_form _ Hx), (separator_form _ Hy). reflexivity.
Qed.

Lemma separator_app (x y : jsstring) :
  separatorb x = true -> blankb y = true -> separatorb (x ++ y) = true.
Proof.
  unfold separatorb, blankb. intros Hx Hy.
  apply andb_true_iff in Hx as [Hb He].
  rewrite List.forallb_app, List.existsb_app, Hb, Hy, He. reflexivity.
Qed.

Lemma separator_blank (x : jsstring) :
  separatorb x = true -> blankb x = true.
Proof. unfold separatorb. intros H. now apply andb_true_iff in H. Qed.

Lemma blank_app (x y : jsstring) :
  blankb x = true -> blankb y = true -> blankb (x ++ y) = true.
Proof. unfold blankb. intros Hx Hy. now rewrite List.forallb_app, Hx, Hy. Qed.

Lemma blank_comm (x y : jsstring) :
  blankb x = true -> blankb y = true -> sameWords (x ++ y) (y ++ x).
Proof.
  intros Hx Hy. apply sameWordsb_sound.
  unfold sameWordsb, wordForm, collapseRuns.
  rewrite (blank_form _ (blank_app _ _ Hx Hy)).
  rewrite (blank_form _ (blank_app _ _ Hy Hx)).
  rewrite !List.existsb_app, orb_comm. apply jsstring_eqb_refl.
Qed.

Lemma blank_flat_map {A} (g : A -> jsstring) (l : list A) :
  Forall (fun a => blankb (g a) = true) l ->
  blankb (List.flat_map g l) = true.
Proof.
  induction 1 as [|a l Ha _ IH]; [reflexivity|].
  cbn [List.flat_map]. now apply blank_app.
Qed.

End WordView.

Section Simulation.

Variable g : N -> jsstring.

(** Surrogate pairs. *)
Lemma codePoints_sim :
  (forall h l,
     isHighSurrogate h = true -> isLowSurrogate l = true ->
     sameWords (g (65536 + (h - 55296) * 1024 + (l - 56320)))
       (g h ++ g l)) ->
  forall s,
    sameWords (List.flat_map g (stringToCodePoints s)) (List.flat_map g s).
Proof.
  intros Hpair s.
  assert (H : forall (n : nat) s, (List.length s <= n)%nat ->
              sameWords (List.flat_map g (stringToCodePoints s))
                (List.flat_map g s)).
  { clear s. induction n as [|n IH]; intros s Hn.
    - destruct s; [apply sameWords_refl|cbn in Hn; lia].
    - destruct s as [|c [|d t]]; [apply sameWords_refl..|].
      cbn [stringToCodePoints].
      destruct (isHighSurrogate c && isLowSurrogate d) eqn:E.
      + apply andb_true_iff in E as [Hc Hd].
        change (List.flat_map g (c :: d :: t))
          with (g c ++ g d ++ List.flat_map g t).
        cbn [List.flat_map]. rewrite List.app_assoc.
        apply sameWords_app; [now apply Hpair|].
        apply IH. cbn [List.length] in Hn. lia.
      + cbn [List.flat_map]. apply sameWords_app_l.
        apply (IH (d :: t)). cbn [List.length] in *. lia. }
  now apply (H (List.length s)).
Qed.

(** The canonical ordering. *)
Lemma insertMark_sim (c : N) (run : list N) :
  blankb (g c) = true ->
  Forall (fun d => blankb (g d) = true) run ->
  sameWords (List.flat_map g (insertMark c run))
    (List.flat_map g run ++ g c).
Proof.
  intros Hc. induction 1 as [|d r Hd Hr IH].
  - cbn. rewrite List.app_nil_r. apply sameWords_refl.
  - cbn [insertMark]. destruct (ccc d <=? ccc c).
    + cbn [List.flat_map]. rewrite <- List.app_assoc.
      now apply sameWords_app_l.
    + change (List.flat_map g (c :: d :: r))
        with (g c ++ List.flat_map g (d :: r)).
      apply blank_comm; [exact Hc|].
      apply blank_flat_map. now constructor.
Qed.

Lemma insertMark_Forall (P : N -> Prop) (c : N) (run : list N) :
  P c -> Forall P run -> Forall P (insertMark c run).
Proof.
  intros Hc. induction 1 as [|d r Hd Hr IH]; cbn [insertMark].
  - now constructor.
  - destruct (ccc d <=? ccc c); repeat constructor; assumption.
Qed.

Lemma reorderAt_sim :
  (forall d, ccc d <> 0 -> blankb (g d) = true) ->
  forall l run,
    Forall (fun d => blankb (g d) = true) run ->
    sameWords (List.flat_map g (reorderAt run l))
      (List.flat_map g run ++ List.flat_map g l).
Proof.
  intros Hmark. induction l as [|c t IH]; intros run Hrun.
  - cbn. rewrite List.app_nil_r. apply sameWords_refl.
  - cbn [reorderAt]. destruct (N.eqb_spec (ccc c) 0) as [E|E].
    + rewrite List.flat_map_app. apply sameWords_app_l.
      cbn [List.flat_map]. apply sameWords_app_l.
      apply (IH []). constructor.
    + apply (sameWords_trans _
               (List.flat_map g (insertMark c run) ++ List.flat_map g t)).
      * apply IH. apply insertMark_Forall; auto.
      * cbn [List.flat_map]. rewrite List.app_assoc.
        apply sameWords_app_r. apply insertMark_sim; auto.
Qed.

(** The context of a sigma. *)
Lemma toLowercaseAt_sim :
  sameWords (g 962) (g 963) ->
  forall l before,
    sameWords (List.flat_map g (toLowercaseAt before l))
      (List.flat_map g (List.flat_map lowercaseMapping l)).
Proof.
  intros Hsigma. induction l as [|c after IH]; intros before.
  - apply sameWords_refl.
  - cbn [toLowercaseAt List.flat_map]. rewrite !List.flat_map_app.
    apply sameWords_app; [|apply IH].
    destruct (N.eqb_spec c 931) as [->|_]; [|apply sameWords_refl].
    change (lowercaseMapping 931) with [963].
    cbn [List.flat_map]. apply sameWords_app_r.
    destruct (finalSigma before after); [exact Hsigma|apply sameWords_refl].
Qed.

End Simulation.

(** *** What the tables say of a code unit *)

Section TableFacts.

Lemma allBits_sound (f : N -> bool) :
  forall k prefix,
    allBits k prefix f = true ->
    forall c,
      prefix * 2 ^ N.of_nat k <= c < (prefix + 1) * 2 ^ N.of_nat k ->
      f c = true.
Proof.
  induction k as [|k IH]; intros prefix H c Hc.
  - cbn in Hc. now replace c with prefix by lia.
  - cbn [allBits] in H. apply andb_true_iff in H as [H0 H1].
    rewrite Nat2N.inj_succ, N.pow_succ_r' in Hc.
    set (m := 2 ^ N.of_nat k) in *.
    destruct (N.lt_ge_cases c ((2 * prefix + 1) * m)) as [Hlt|Hge].
    + apply (IH _ H0). fold m. lia.
    + apply (IH _ H1). fold m. lia.
Qed.

Lemma byCodePoint_lookup {A} (table : list (N * A)) (c : N) (v : A) :
  byCodePoint table !! N.succ_pos c = Some v -> In (c, v) table.
Proof.
  unfold byCodePoint. intros H.
  apply elem_of_list_to_map_2 in H. apply list_elem_of_In in H.
  apply List.in_map_iff in H as ([c' v'] & Heq & Hin).
  cbn [fst snd] in Heq. injection Heq as Hc ->.
  assert (c' = c) as ->; [|exact Hin].
  apply N.succ_inj. now rewrite <- !N.succ_pos_spec, Hc.
Qed.

Lemma lowercaseIndex_table : lowercaseIndex = byCodePoint simpleLowercase.
Proof. vm_cast_no_check (eq_refl lowercaseIndex). Qed.

Lemma decompositionIndex_table :
  decompositionIndex = byCodePoint canonicalDecomposition.
Proof. vm_cast_no_check (eq_refl decompositionIndex). Qed.

Lemma classIndex_table :
  classIndex = byCodePoint (List.flat_map classesOf combiningClass).
Proof. vm_cast_no_check (eq_refl classIndex). Qed.

Lemma key_lowercase (c l : N) :
  lowercaseIndex !! N.succ_pos c = Some l -> In c tableKeys.
Proof.
  rewrite lowercaseIndex_table. intros H. apply byCodePoint_lookup in H.
  unfold tableKeys. apply List.in_or_app. left.
  now apply (List.in_map fst) in H.
Qed.

Lemma key_decomposition (c : N) (d : list N) :
  decompositionIndex !! N.succ_pos c = Some d -> In c tableKeys.
Proof.
  rewrite decompositionIndex_table. intros H. apply byCodePoint_lookup in H.
  unfold tableKeys. apply List.in_or_app. right. apply List.in_or_app. left.
  now apply (List.in_map fst) in H.
Qed.

Lemma key_class (c k : N) :
  classIndex !! N.succ_pos c = Some k -> In c tableKeys.
Proof.
  rewrite classIndex_table. intros H. apply byCodePoint_lookup in H.
  unfold tableKeys. apply List.in_or_app. right. apply List.in_or_app. right.
  now apply (List.in_map fst) in H.
Qed.

(** The tables, read once. *)
Lemma keyFacts_hold : keyFacts = true.
Proof. vm_cast_no_check (eq_refl true). Qed.

Lemma asciiFacts : allBits 7 0 planeFacts = true.
Proof. vm_cast_no_check (eq_refl true). Qed.

Lemma planeKeys_facts : List.forallb planeFacts planeKeys = true.
Proof. vm_cast_no_check (eq_refl true). Qed.

Lemma astralKeys_facts : List.forallb astralFacts astralKeys = true.
Proof. vm_cast_no_check (eq_refl true). Qed.

End TableFacts.

Section UnitFacts.

Ltac conjuncts H :=
  repeat match type of H with
         | (_ && _) = true =>
             let H' := fresh "H" in
             apply andb_true_iff in H as [H H']
         end.

Lemma above_ascii (u : N) :
  128 <= u -> isNonWordOrUnderscore u = true.
Proof.
  intros Hu. unfold isNonWordOrUnderscore, isWordChar, isDigit, inRange.
  repeat match goal with
         | |- context [?a <=? ?b] =>
             destruct (N.leb_spec a b); try lia
         | |- context [?a =? ?b] =>
             destruct (N.eqb_spec a b); try lia
         end; reflexivity.
Qed.

Lemma above_marks (u : N) : 880 <= u -> isCombiningMark u = false.
Proof.
  intros Hu. unfold isCombiningMark, inRange.
  destruct (N.leb_spec u 879); [lia|]. apply andb_false_r.
Qed.

Lemma fixed_spec (u : N) :
  fixedUnitb u = true ->
  lowercaseMapping u = [u] /\ decompose u = [u] /\ utf16 u = [u]
  /\ isNonWordOrUnderscore u = true /\ isCombiningMark u = false.
Proof.
  unfold fixedUnitb. intros H. conjuncts H.
  apply jsstring_eqb_eq in H, H2, H3. apply negb_true_iff in H0.
  auto.
Qed.

Lemma fixed_list (x : jsstring) :
  Forall (fun u => fixedUnitb u = true) x ->
  List.flat_map nfdOf x = x /\ List.flat_map foldAll x = x
  /\ List.flat_map foldKept x = x /\ blankb x = true
  /\ (x <> [] -> separatorb x = true).
Proof.
  induction 1 as [|u x Hu _ (IH1 & IH2 & IH3 & IH4 & IH5)].
  - repeat split; try reflexivity. now intros [].
  - destruct (fixed_spec _ Hu) as (Hl & Hd & Hu16 & Hcls & Hmk).
    assert (Hn : nfdOf u = [u]).
    { unfold nfdOf, codePointsToString. rewrite Hd. cbn [List.flat_map].
      now rewrite Hu16. }
    assert (Hf : foldAll u = [u]).
    { unfold foldAll, codePointsToString. rewrite Hl. cbn [List.flat_map].
      rewrite Hu16. cbn [app List.flat_map]. now rewrite Hn. }
    assert (Hk : foldKept u = [u]) by (unfold foldKept; now rewrite Hmk).
    cbn [List.flat_map]. rewrite IH1, IH2, IH3, Hn, Hf, Hk.
    repeat split; try reflexivity.
    + unfold blankb in *. cbn [List.forallb]. now rewrite Hcls.
    + intros _. unfold separatorb, blankb in *. cbn [List.forallb List.existsb].
      now rewrite Hcls, IH4, Hmk.
Qed.

Lemma listed (k : N) :
  List.existsb (N.eqb k) tableKeys = true -> In k tableKeys.
Proof.
  intros H. apply List.existsb_exists in H as (x & Hx & Hk).
  apply N.eqb_eq in Hk. now subst.
Qed.

Lemma key_range (k : N) :
  In k tableKeys ->
  inRange 55296 57343 k = false /\ inRange 44032 55203 k = false
  /\ inRange 4352 4546 k = false /\ k < 1114112.
Proof.
  intros Hk. pose proof keyFacts_hold as H. unfold keyFacts in H.
  conjuncts H. rewrite List.forallb_forall in H. specialize (H k Hk).
  conjuncts H. apply negb_true_iff in H, H4, H5. apply N.ltb_lt in H3.
  auto.
Qed.

Lemma marks_facts (c : N) : isCombiningMark c = true -> planeFacts c = true.
Proof.
  intros Hc. unfold isCombiningMark, inRange in Hc.
  apply andb_true_iff in Hc as [Hlo Hhi]. apply N.leb_le in Hlo, Hhi.
  pose proof keyFacts_hold as H. unfold keyFacts in H. conjuncts H.
  rewrite List.forallb_forall in H2.
  specialize (H2 (N.to_nat (c - 768))).
  rewrite N2Nat.id in H2. replace (768 + (c - 768)) with c in H2 by lia.
  apply H2. apply List.in_seq. lia.
Qed.

Lemma accented_listed (c : N) : unaccent c <> c -> In c tableKeys.
Proof.
  unfold unaccent. intros Hc.
  destruct (List.find _ accentedLetters) as [e|] eqn:E; [|contradiction].
  apply List.find_some in E as [Hin He]. apply N.eqb_eq in He. subst c.
  pose proof keyFacts_hold as H. unfold keyFacts in H. conjuncts H.
  rewrite List.forallb_forall in H1. now apply listed, H1.
Qed.

Lemma dotted_listed : In 304 tableKeys.
Proof.
  pose proof keyFacts_hold as H. unfold keyFacts in H. conjuncts H.
  now apply listed.
Qed.

(** A code point that no table lists. *)
Lemma unlisted (c : N) :
  ~ In c tableKeys ->
  lowercaseMapping c = [c] /\ ccc c = 0
  /\ (inRange 44032 55203 c = false -> decompose c = [c]).
Proof.
  intros Hno. unfold lowercaseMapping, decompose, ccc.
  destruct (N.eqb_spec c 304) as [->|_];
    [exfalso; apply Hno, dotted_listed|].
  destruct (lowercaseIndex !! N.succ_pos c) eqn:E1;
    [now apply key_lowercase in E1|].
  destruct (decompositionIndex !! N.succ_pos c) eqn:E2;
    [now apply key_decomposition in E2|].
  destruct (classIndex !! N.succ_pos c) eqn:E3;
    [now apply key_class in E3|].
  repeat split. now intros ->.
Qed.

Lemma unlisted_fixed (c : N) :
  ~ In c tableKeys -> 128 <= c -> c < 65536 \/ 1114111 < c ->
  inRange 44032 55203 c = false -> isCombiningMark c = false ->
  fixedUnitb c = true.
Proof.
  intros Hno Hc Hout Hh Hm.
  destruct (unlisted c Hno) as (Hl & _ & Hd). specialize (Hd Hh).
  unfold fixedUnitb. rewrite Hl, Hd, !jsstring_eqb_refl, above_ascii by lia.
  assert (H16 : utf16 c = [c]).
  { unfold utf16, inRange.
    destruct (N.leb_spec 65536 c); [|reflexivity].
    destruct (N.leb_spec c 1114111); [lia|reflexivity]. }
  now rewrite H16, jsstring_eqb_refl, Hm.
Qed.

Lemma sameWordsb_refl (x : jsstring) : sameWordsb x x = true.
Proof. apply jsstring_eqb_refl. Qed.

Lemma asciiUpper_above (c : N) : 128 <= c -> asciiUpper c = c.
Proof.
  intros Hc. unfold asciiUpper, inRange. destruct (N.leb_spec c 122); [lia|].
  now rewrite andb_false_r.
Qed.

Lemma alnum_below (c : N) : 128 <= c -> isLowerAlnum c = false.
Proof.
  intros Hc. unfold isLowerAlnum, isDigit, inRange.
  destruct (N.leb_spec c 122); [lia|]. destruct (N.leb_spec c 57); [lia|].
  now rewrite !andb_false_r.
Qed.

(** The facts of a code point that folds to the separators [x]. *)
Lemma folded_planeFacts (c : N) (x : jsstring) :
  128 <= c -> lowercaseMapping c = [c] -> utf16 c = [c] ->
  unaccent c = c -> ccc c = 0 ->
  isHighSurrogate c || isLowSurrogate c = false ->
  nfdOf c = x -> Forall (fun u => fixedUnitb u = true) x ->
  planeFacts c = true.
Proof.
  intros Hc Hl H16 Hu Hccc Hs Hn Hx.
  destruct (fixed_list x Hx) as (_ & _ & Hk & Hb & _).
  assert (Hf : foldAll c = x).
  { unfold foldAll, codePointsToString. rewrite Hl. cbn [List.flat_map].
    rewrite H16. cbn [app List.flat_map]. now rewrite Hn, List.app_nil_r. }
  unfold planeFacts. rewrite Hu, (asciiUpper_above c Hc), Hccc, Hs.
  rewrite (alnum_below c Hc), !sameWordsb_refl.
  unfold codePointsToString. rewrite Hl. cbn [List.flat_map].
  rewrite H16. cbn [app List.flat_map]. rewrite List.app_nil_r, Hn, Hk, Hf.
  rewrite !sameWordsb_refl. cbn [N.eqb orb negb andb].
  rewrite !andb_true_r.
  unfold blankb in Hb. rewrite List.forallb_forall in *. intros u Hin.
  unfold foldUnit, removeAll in Hin. rewrite Hf in Hin.
  apply List.filter_In in Hin as [Hin _]. now rewrite (Hb u Hin).
Qed.

Lemma jamo_fixed (j : N) : 4352 <= j <= 4546 -> fixedUnitb j = true.
Proof.
  intros Hj. apply unlisted_fixed; [|lia|lia| |].
  - intros Hin. destruct (key_range j Hin) as (_ & _ & H & _).
    unfold inRange in H.
    destruct (N.leb_spec 4352 j), (N.leb_spec j 4546);
      try lia; try discriminate.
  - unfold inRange. destruct (N.leb_spec 44032 j); [lia|reflexivity].
  - apply above_marks. lia.
Qed.

Lemma hangul_fixed (c : N) :
  44032 <= c <= 55203 -> Forall (fun u => fixedUnitb u = true) (hangul c).
Proof.
  intros Hc. unfold hangul. cbv zeta.
  assert (Hs : c - 44032 < 11172) by lia.
  assert (Hq : (c - 44032) / 588 < 19)
    by (apply N.Div0.div_lt_upper_bound; lia).
  assert (Hr : (c - 44032) mod 588 < 588) by (apply N.mod_lt; lia).
  assert (Hv : ((c - 44032) mod 588) / 28 < 21)
    by (apply N.Div0.div_lt_upper_bound; lia).
  assert (Ht : (c - 44032) mod 28 < 28) by (apply N.mod_lt; lia).
  set (q := (c - 44032) / 588) in *.
  set (v := ((c - 44032) mod 588) / 28) in *.
  set (t := (c - 44032) mod 28) in *. clearbody q v t.
  apply List.Forall_app. split.
  - constructor; [apply jamo_fixed; lia|].
    constructor; [apply jamo_fixed; lia|constructor].
  - destruct (N.eqb_spec t 0); [constructor|].
    constructor; [apply jamo_fixed; lia|constructor].
Qed.

Lemma fixed_utf16 (x : list N) :
  Forall (fun u => fixedUnitb u = true) x -> codePointsToString x = x.
Proof.
  unfold codePointsToString.
  induction 1 as [|u x Hu _ IH]; [reflexivity|].
  destruct (fixed_spec u Hu) as (_ & _ & H16 & _).
  cbn [List.flat_map]. now rewrite H16, IH.
Qed.

Lemma planeFacts_all (c : N) : c < 65536 -> planeFacts c = true.
Proof.
  intros Hc. destruct (N.lt_ge_cases c 128) as [Hlo|Hhi].
  { apply (allBits_sound planeFacts 7 0 asciiFacts). cbn. lia. }
  destruct (List.in_dec N.eq_dec c tableKeys) as [Hin|Hno].
  { pose proof planeKeys_facts as H. rewrite List.forallb_forall in H.
    apply H. unfold planeKeys. apply List.filter_In. split; [exact Hin|].
    now apply N.ltb_lt. }
  destruct (isCombiningMark c) eqn:Hmark; [now apply marks_facts|].
  destruct (unlisted c Hno) as (Hl & Hccc & Hd).
  assert (H16 : utf16 c = [c]).
  { unfold utf16, inRange. destruct (N.leb_spec 65536 c); [lia|reflexivity]. }
  assert (Hu : unaccent c = c).
  { destruct (N.eq_dec (unaccent c) c) as [E|E]; [exact E|].
    exfalso. now apply Hno, accented_listed. }
  destruct (inRange 44032 55203 c) eqn:Hh.
  - assert (Hr : 44032 <= c <= 55203).
    { unfold inRange in Hh. apply andb_true_iff in Hh as [H1 H2].
      apply N.leb_le in H1, H2. lia. }
    apply (folded_planeFacts c (hangul c)); auto.
    + unfold isHighSurrogate, isLowSurrogate, inRange.
      destruct (N.leb_spec 55296 c); [lia|].
      destruct (N.leb_spec 56320 c); [lia|]. reflexivity.
    + unfold nfdOf, decompose. rewrite Hh.
      apply fixed_utf16. now apply hangul_fixed.
    + now apply hangul_fixed.
  - assert (Hfix : fixedUnitb c = true)
      by (apply unlisted_fixed; auto).
    unfold planeFacts.
    destruct (fixed_list [c]) as (Hn & Hf & Hk & Hb & _);
      [now repeat constructor|].
    cbn [List.flat_map] in Hn, Hf, Hk. rewrite List.app_nil_r in Hn, Hf, Hk.
    destruct (fixed_spec c Hfix) as (_ & _ & _ & Hcls & Hm).
    rewrite Hu, (asciiUpper_above c Hhi), Hccc, Hfix.
    rewrite (alnum_below c Hhi), !sameWordsb_refl.
    unfold codePointsToString. rewrite Hl. cbn [List.flat_map].
    rewrite H16. cbn [app List.flat_map]. rewrite List.app_nil_r, Hn.
    cbn [List.flat_map]. rewrite List.app_nil_r, Hk, Hf.
    rewrite !sameWordsb_refl. cbn [N.eqb orb negb andb].
    rewrite !andb_true_r, orb_true_r.
    unfold foldUnit, removeAll. rewrite Hf. cbn [List.filter].
    rewrite Hm. cbn [negb List.forallb]. now rewrite Hcls.
Qed.

Lemma surrogate_fixed (u : N) :
  isHighSurrogate u || isLowSurrogate u = true -> fixedUnitb u = true.
Proof.
  intros Hs.
  assert (Hu : 55296 <= u <= 57343).
  { unfold isHighSurrogate, isLowSurrogate, inRange in Hs.
    apply orb_true_iff in Hs as [Hs|Hs];
      apply andb_true_iff in Hs as [H1 H2]; apply N.leb_le in H1, H2; lia. }
  apply unlisted_fixed; [|lia|lia| |].
  - intros Hin. destruct (key_range u Hin) as (H & _).
    unfold inRange in H.
    destruct (N.leb_spec 55296 u), (N.leb_spec u 57343);
      try lia; try discriminate.
  - unfold inRange. destruct (N.leb_spec u 55203); [lia|].
    apply andb_false_r.
  - apply above_marks. lia.
Qed.

Lemma beyond_fixed (c : N) : 1114111 < c -> fixedUnitb c = true.
Proof.
  intros Hc. apply unlisted_fixed; [|lia|lia| |].
  - intros Hin. destruct (key_range c Hin) as (_ & _ & _ & H). lia.
  - unfold inRange. destruct (N.leb_spec c 55203); [lia|].
    apply andb_false_r.
  - apply above_marks. lia.
Qed.

Lemma utf16_fixed (c : N) :
  65536 <= c ->
  Forall (fun u => fixedUnitb u = true) (utf16 c) /\ utf16 c <> [].
Proof.
  intros Hc. unfold utf16, inRange.
  destruct (N.leb_spec 65536 c); [|lia].
  destruct (N.leb_spec c 1114111) as [Hle|Hgt]; cbn [andb].
  - split; [|discriminate].
    assert (Hq : (c - 65536) / 1024 < 1024)
      by (apply N.Div0.div_lt_upper_bound; lia).
    assert (Hr : (c - 65536) mod 1024 < 1024) by (apply N.mod_lt; lia).
    set (q := (c - 65536) / 1024) in *. set (r := (c - 65536) mod 1024) in *.
    clearbody q r.
    assert (Hh : isHighSurrogate (55296 + q) = true).
    { unfold isHighSurrogate, inRange.
      apply andb_true_iff; split; apply N.leb_le; lia. }
    assert (Hl : isLowSurrogate (56320 + r) = true).
    { unfold isLowSurrogate, inRange.
      apply andb_true_iff; split; apply N.leb_le; lia. }
    constructor; [apply surrogate_fixed; now rewrite Hh|].
    constructor; [apply surrogate_fixed; rewrite Hl; apply orb_true_r|].
    constructor.
  - split; [|discriminate]. repeat constructor. now apply beyond_fixed.
Qed.

Lemma astralFacts_all (c : N) : 65536 <= c -> astralFacts c = true.
Proof.
  intros Hc. destruct (List.in_dec N.eq_dec c tableKeys) as [Hin|Hno].
  - pose proof astralKeys_facts as H. rewrite List.forallb_forall in H.
    apply H. unfold astralKeys. apply List.filter_In. split; [exact Hin|].
    now apply N.leb_le.
  - destruct (unlisted c Hno) as (Hl & Hccc & Hd).
    assert (Hh : inRange 44032 55203 c = false).
    { unfold inRange. destruct (N.leb_spec c 55203); [lia|].
      apply andb_false_r. }
    specialize (Hd Hh).
    destruct (utf16_fixed c Hc) as [Hfix Hne].
    destruct (fixed_list _ Hfix) as (H1 & H2 & H3 & H4 & H5).
    specialize (H5 Hne).
    assert (Hn : nfdOf c = utf16 c).
    { unfold nfdOf, codePointsToString. rewrite Hd. cbn [List.flat_map].
      apply List.app_nil_r. }
    assert (Hf : foldAll c = utf16 c).
    { unfold foldAll, codePointsToString. rewrite Hl. cbn [List.flat_map].
      now rewrite List.app_nil_r. }
    unfold astralFacts. rewrite Hn, Hf, H3, H5, Hccc.
    unfold codePointsToString. rewrite Hl. cbn [List.flat_map].
    rewrite List.app_nil_r, H2, H5. reflexivity.
Qed.

Lemma pair_same (g : N -> jsstring) (h l : N) :
  (forall c, 65536 <= c -> separatorb (g c) = true) ->
  (forall u, fixedUnitb u = true -> g u = [u]) ->
  isHighSurrogate h = true -> isLowSurrogate l = true ->
  sameWords (g (65536 + (h - 55296) * 1024 + (l - 56320))) (g h ++ g l).
Proof.
  intros Hast Hfix Hh Hl.
  assert (Fh : fixedUnitb h = true)
    by (apply surrogate_fixed; now rewrite Hh).
  assert (Fl : fixedUnitb l = true)
    by (apply surrogate_fixed; rewrite Hl; apply orb_true_r).
  apply separator_same; [apply Hast; lia|].
  rewrite (Hfix _ Fh), (Hfix _ Fl).
  apply (fixed_list [h; l]); [repeat constructor; assumption|discriminate].
Qed.

Lemma fixed_nfdOf (u : N) : fixedUnitb u = true -> nfdOf u = [u].
Proof.
  intros H. destruct (fixed_list [u]) as (H1 & _); [now repeat constructor|].
  cbn [List.flat_map] in H1. now rewrite List.app_nil_r in H1.
Qed.

Lemma fixed_foldAll (u : N) : fixedUnitb u = true -> foldAll u = [u].
Proof.
  intros H. destruct (fixed_list [u]) as (_ & H2 & _);
    [now repeat constructor|].
  cbn [List.flat_map] in H2. now rewrite List.app_nil_r in H2.
Qed.

Lemma fixed_foldKept (u : N) : fixedUnitb u = true -> foldKept u = [u].
Proof.
  intros H. destruct (fixed_list [u]) as (_ & _ & H3 & _);
    [now repeat constructor|].
  cbn [List.flat_map] in H3. now rewrite List.app_nil_r in H3.
Qed.

Lemma astral_parts (c : N) :
  65536 <= c ->
  separatorb (nfdOf c) = true /\ separatorb (foldAll c) = true
  /\ separatorb (List.flat_map foldKept (nfdOf c)) = true
  /\ separatorb
       (List.flat_map foldAll (codePointsToString (lowercaseMapping c)))
     = true
  /\ (ccc c <> 0 ->
      blankb (utf16 c) = true
      /\ blankb (List.flat_map foldKept (utf16 c)) = true).
Proof.
  intros Hc. pose proof (astralFacts_all c Hc) as H.
  unfold astralFacts in H. conjuncts H.
  repeat split; try assumption;
    apply orb_true_iff in H0 as [H0|H0];
    try (apply N.eqb_eq in H0; contradiction);
    now apply andb_true_iff in H0.
Qed.

Lemma plane_parts (c : N) :
  c < 65536 ->
  List.forallb (fun u => isNonWordOrUnderscore u || isLowerAlnum u)
    (foldUnit c) = true
  /\ sameWords
       (List.flat_map foldAll (codePointsToString (lowercaseMapping c)))
       (foldAll c)
  /\ sameWords (List.flat_map foldKept (nfdOf c)) (foldAll c)
  /\ sameWords (foldAll (unaccent c)) (foldAll c)
  /\ sameWords (foldAll (asciiUpper c)) (foldAll c)
  /\ (ccc c <> 0 ->
      isNonWordOrUnderscore c = true /\ blankb (foldKept c) = true)
  /\ (isLowerAlnum c = true -> foldAll c = [c]).
Proof.
  intros Hc. pose proof (planeFacts_all c Hc) as H.
  unfold planeFacts in H. conjuncts H.
  split; [exact H|].
  split; [now apply sameWordsb_sound|].
  split; [now apply sameWordsb_sound|].
  split; [now apply sameWordsb_sound|].
  split; [now apply sameWordsb_sound|].
  split.
  - intros Hn. apply orb_true_iff in H2 as [H2|H2];
      [apply N.eqb_eq in H2; contradiction|].
    now apply andb_true_iff in H2.
  - intros Ha. rewrite Ha in H0. now apply jsstring_eqb_eq in H0.
Qed.

End UnitFacts.

(** *** The tokenizer, one code unit at a time *)

Section Tokenization.

Lemma utf16_plane (c : N) : c < 65536 -> utf16 c = [c].
Proof.
  intros Hc. unfold utf16, inRange.
  destruct (N.leb_spec 65536 c); [lia|reflexivity].
Qed.

Lemma removeAll_flat_map {A} (cls : N -> bool) (f : A -> jsstring)
  (l : list A) :
  removeAll cls (List.flat_map f l)
  = List.flat_map (fun a => removeAll cls (f a)) l.
Proof.
  unfold removeAll. induction l as [|a l IH]; [reflexivity|].
  cbn [List.flat_map]. now rewrite List.filter_app, IH.
Qed.

Lemma words_fold (x : jsstring) :
  wordsAt isNonWordOrUnderscore [] (List.flat_map foldUnit x)
  = wordsFrom [] (List.flat_map foldAll x).
Proof. unfold wordsFrom. now rewrite removeAll_flat_map. Qed.

Lemma flat_map_foldKept (x : jsstring) :
  List.flat_map foldAll (removeAll isCombiningMark x)
  = List.flat_map foldKept x.
Proof.
  unfold removeAll, foldKept. induction x as [|c x IH]; [reflexivity|].
  cbn [List.filter List.flat_map].
  destruct (isCombiningMark c); cbn [negb List.flat_map app]; now rewrite IH.
Qed.

(** Normalizing, seen through a map [g] of the code points that is
    blind to the order of the marks and to the pairing of surrogates,
    is decomposing one code unit at a time. *)
Lemma normalizeNFD_sim (g : N -> jsstring) :
  (forall d, ccc d <> 0 -> blankb (g d) = true) ->
  (forall h l,
     isHighSurrogate h = true -> isLowSurrogate l = true ->
     sameWords
       (List.flat_map g (decompose (65536 + (h - 55296) * 1024 + (l - 56320))))
       (List.flat_map g (decompose h) ++ List.flat_map g (decompose l))) ->
  forall t,
    sameWords
      (List.flat_map g
         (canonicalOrder (List.flat_map decompose (stringToCodePoints t))))
      (List.flat_map (fun c => List.flat_map g (decompose c)) t).
Proof.
  intros Hmark Hpair t. unfold canonicalOrder.
  eapply sameWords_trans;
    [apply (reorderAt_sim g Hmark _ []); constructor|].
  cbn [List.flat_map app]. rewrite flat_map_flat_map.
  now apply (codePoints_sim (fun c => List.flat_map g (decompose c))).
Qed.

(** Lower-casing, seen through a map [f] of the code units that is
    blind to the two forms of the small sigma and to the pairing of
    surrogates, is lower-casing one code unit at a time. *)
Lemma toLowerCase_sim (f : N -> jsstring) :
  sameWords (List.flat_map f (utf16 962)) (List.flat_map f (utf16 963)) ->
  (forall h l,
     isHighSurrogate h = true -> isLowSurrogate l = true ->
     sameWords
       (List.flat_map f
          (codePointsToString
             (lowercaseMapping (65536 + (h - 55296) * 1024 + (l - 56320)))))
       (List.flat_map f (codePointsToString (lowercaseMapping h))
        ++ List.flat_map f (codePointsToString (lowercaseMapping l)))) ->
  forall s,
    sameWords (List.flat_map f (toLowerCase s))
      (List.flat_map
         (fun c => List.flat_map f (codePointsToString (lowercaseMapping c)))
         s).
Proof.
  intros Hsigma Hpair s. unfold toLowerCase, codePointsToString in *.
  rewrite flat_map_flat_map.
  eapply sameWords_trans;
    [apply (toLowercaseAt_sim (fun d => List.flat_map f (utf16 d)) Hsigma)|].
  rewrite flat_map_flat_map.
  rewrite (List.flat_map_ext
             (fun c => List.flat_map (fun d => List.flat_map f (utf16 d))
                         (lowercaseMapping c))
             (fun c => List.flat_map f
                         (List.flat_map utf16 (lowercaseMapping c))))
    by (intros c; now rewrite flat_map_flat_map).
  apply (codePoints_sim
           (fun c => List.flat_map f
                       (List.flat_map utf16 (lowercaseMapping c)))).
  exact Hpair.
Qed.

Lemma mark_utf16 (d : N) : ccc d <> 0 -> blankb (utf16 d) = true.
Proof.
  intros Hd. destruct (N.lt_ge_cases d 65536) as [Hlt|Hge].
  - destruct (plane_parts d Hlt) as (_ & _ & _ & _ & _ & H & _).
    destruct (H Hd) as [Hcls _]. rewrite (utf16_plane d Hlt).
    unfold blankb. cbn [List.forallb]. now rewrite Hcls.
  - destruct (astral_parts d Hge) as (_ & _ & _ & _ & H). now apply H.
Qed.

Lemma mark_kept (d : N) :
  ccc d <> 0 -> blankb (List.flat_map foldKept (utf16 d)) = true.
Proof.
  intros Hd. destruct (N.lt_ge_cases d 65536) as [Hlt|Hge].
  - destruct (plane_parts d Hlt) as (_ & _ & _ & _ & _ & H & _).
    destruct (H Hd) as [_ Hb]. rewrite (utf16_plane d Hlt).
    cbn [List.flat_map]. now rewrite List.app_nil_r.
  - destruct (astral_parts d Hge) as (_ & _ & _ & _ & H). now apply H.
Qed.

Lemma nfd_units (t : jsstring) :
  sameWords (normalizeNFD t) (List.flat_map nfdOf t).
Proof.
  unfold normalizeNFD, codePointsToString.
  apply (normalizeNFD_sim utf16 mark_utf16).
  intros h l Hh Hl. apply (pair_same nfdOf h l); auto.
  - intros c Hc. now apply astral_parts.
  - exact fixed_nfdOf.
Qed.

Lemma fold_units (s : jsstring) :
  sameWords (normalizeNFD (toLowerCase s)) (List.flat_map foldAll s).
Proof.
  eapply sameWords_trans; [apply nfd_units|].
  apply (toLowerCase_sim nfdOf).
  - apply sameWordsb_sound. vm_compute. reflexivity.
  - intros h l Hh Hl. apply (pair_same foldAll h l); auto.
    + intros c Hc. now apply astral_parts.
    + exact fixed_foldAll.
Qed.

Lemma tokenize_words (s : jsstring) :
  tokenize s
  = List.filter notIgnored
      (wordsAt isNonWordOrUnderscore [] (List.flat_map foldUnit s)).
Proof.
  unfold tokenize, splitRuns, collapseRuns.
  rewrite (proj1 (collapse_split_words _ word_not_space _) []).
  rewrite words_fold. f_equal. apply (sameWords_words _ _ (fold_units s)).
Qed.

Lemma lower_point (c : N) :
  sameWords
    (List.flat_map foldAll (codePointsToString (lowercaseMapping c)))
    (foldAll c).
Proof.
  destruct (N.lt_ge_cases c 65536) as [Hlt|Hge].
  - now apply plane_parts.
  - destruct (astral_parts c Hge) as (_ & H2 & _ & H4 & _).
    now apply separator_same.
Qed.

Lemma strip_point (c : N) :
  sameWords (List.flat_map foldKept (nfdOf c)) (foldAll c).
Proof.
  destruct (N.lt_ge_cases c 65536) as [Hlt|Hge].
  - now apply plane_parts.
  - destruct (astral_parts c Hge) as (_ & H2 & H3 & _).
    now apply separator_same.
Qed.

Lemma fold_lower (s : jsstring) :
  sameWords (List.flat_map foldAll (toLowerCase s)) (List.flat_map foldAll s).
Proof.
  eapply sameWords_trans; [apply (toLowerCase_sim foldAll)|].
  - apply sameWordsb_sound. vm_compute. reflexivity.
  - intros h l Hh Hl.
    apply (pair_same
             (fun c => List.flat_map foldAll
                         (codePointsToString (lowercaseMapping c))) h l);
      auto.
    + intros c Hc. now apply astral_parts.
    + intros u Hu. destruct (fixed_spec u Hu) as (Hlow & _ & H16 & _).
      unfold codePointsToString. rewrite Hlow. cbn [List.flat_map].
      rewrite H16. cbn [app List.flat_map].
      rewrite (fixed_foldAll u Hu). reflexivity.
  - apply sameWords_flat_map. exact lower_point.
Qed.

Lemma fold_strip (s : jsstring) :
  sameWords (List.flat_map foldAll (stripAccents s))
    (List.flat_map foldAll s).
Proof.
  unfold stripAccents. rewrite flat_map_foldKept.
  unfold normalizeNFD, codePointsToString. rewrite flat_map_flat_map.
  eapply sameWords_trans;
    [apply (normalizeNFD_sim
              (fun d => List.flat_map foldKept (utf16 d)) mark_kept)|].
  - intros h l Hh Hl.
    assert (Hg : forall c,
              List.flat_map (fun d => List.flat_map foldKept (utf16 d))
                (decompose c)
              = List.flat_map foldKept (nfdOf c)).
    { intros c. unfold nfdOf, codePointsToString.
      now rewrite flat_map_flat_map. }
    rewrite !Hg.
    apply (pair_same (fun c => List.flat_map foldKept (nfdOf c)) h l); auto.
    + intros c Hc. now apply astral_parts.
    + intros u Hu. rewrite (fixed_nfdOf u Hu). cbn [List.flat_map].
      rewrite (fixed_foldKept u Hu). reflexivity.
  - apply sameWords_flat_map. intros c.
    unfold nfdOf, codePointsToString in *.
    rewrite <- flat_map_flat_map. apply strip_point.
Qed.

Lemma tokenize_same (x y : jsstring) :
  sameWords (List.flat_map foldAll x) (List.flat_map foldAll y) ->
  tokenize x = tokenize y.
Proof.
  intros H. rewrite !tokenize_words, !words_fold.
  now rewrite (sameWords_words _ _ H).
Qed.

Lemma tokenize_lower (s : jsstring) : tokenize (toLowerCase s) = tokenize s.
Proof. apply tokenize_same, fold_lower. Qed.

Lemma tokenize_stripAccents (s : jsstring) :
  tokenize (stripAccents s) = tokenize s.
Proof. apply tokenize_same, fold_strip. Qed.

Lemma tokenize_pointwise (f : N -> N) (s : jsstring) :
  (forall c, sameWords (foldAll (f c)) (foldAll c)) ->
  tokenize (List.map f s) = tokenize s.
Proof.
  intros H. apply tokenize_same. rewrite flat_map_map.
  now apply sameWords_flat_map.
Qed.

Lemma unaccent_astral (c : N) : 256 <= c -> unaccent c = c.
Proof.
  intros Hc. unfold unaccent.
  destruct (List.find _ accentedLetters) as [e|] eqn:E; [|reflexivity].
  apply List.find_some in E as [Hin He]. apply N.eqb_eq in He.
  assert (Hall : List.forallb (fun e => fst e <? 256) accentedLetters = true)
    by reflexivity.
  rewrite List.forallb_forall in Hall. apply Hall, N.ltb_lt in Hin. lia.
Qed.

Lemma tokenize_unaccent (s : jsstring) :
  tokenize (List.map unaccent s) = tokenize s.
Proof.
  apply tokenize_pointwise. intros c.
  destruct (N.lt_ge_cases c 65536) as [Hlt|Hge].
  - now apply plane_parts.
  - rewrite unaccent_astral by lia. apply sameWords_refl.
Qed.

Lemma tokenize_asciiUpper (s : jsstring) :
  tokenize (List.map asciiUpper s) = tokenize s.
Proof.
  apply tokenize_pointwise. intros c.
  destruct (N.lt_ge_cases c 65536) as [Hlt|Hge].
  - now apply plane_parts.
  - unfold asciiUpper, inRange. destruct (N.leb_spec c 122); [lia|].
    rewrite andb_false_r. apply sameWords_refl.
Qed.

Lemma tokenize_underscore (s : jsstring) :
  tokenize (List.map underscoreToSpace s) = tokenize s.
Proof.
  apply tokenize_pointwise. intros c. unfold underscoreToSpace.
  destruct (N.eqb_spec c 95) as [->|_]; [|apply sameWords_refl].
  apply sameWordsb_sound. vm_compute. reflexivity.
Qed.

Lemma tokenize_space (s t : jsstring) :
  tokenize (s ++ js " " ++ t) = tokenize s ++ tokenize t.
Proof.
  rewrite !tokenize_words, !List.flat_map_app.
  change (List.flat_map foldUnit (js " ")) with [32%N].
  cbn [app]. rewrite wordsAt_separator by reflexivity.
  apply List.filter_app.
Qed.

(** C9. Tokenization is a function of its input (equal strings give
    equal token sequences) that keeps the tokens in their order of
    appearance, and it does not see case, accents or underscores:
    lower-casing the input or turning its ASCII small letters into
    capitals, stripping its accents by the tokenizer's own folding or
    replacing the accented letters of the table by their base letters,
    and replacing its underscores by spaces all leave the token
    sequence unchanged, for every string of code units.  So RE_Mapas
    and re mapas tokenize identically, and so do RELATORIO_Final with
    an acute accent on its O and relatorio final. *)
Theorem tokenize_insensitive :
  (forall s t, s = t -> tokenize s = tokenize t)
  /\ (forall s t, tokenize (s ++ js " " ++ t) = tokenize s ++ tokenize t)
  /\ (forall s, tokenize (toLowerCase s) = tokenize s)
  /\ (forall s t, toLowerCase s = toLowerCase t -> tokenize s = tokenize t)
  /\ (forall s, tokenize (List.map asciiUpper s) = tokenize s)
  /\ (forall s, tokenize (stripAccents s) = tokenize s)
  /\ (forall s t, stripAccents s = stripAccents t -> tokenize s = tokenize t)
  /\ (forall s, tokenize (List.map unaccent s) = tokenize s)
  /\ (forall s, tokenize (List.map underscoreToSpace s) = tokenize s)
  /\ tokenize (js "RE_Mapas") = tokenize (js "re mapas")
  /\ tokenize (js "RE_Mapas") = [js "mapas"]
  /\ tokenize (js "RELAT" ++ [211] ++ js "RIO_Final")
     = tokenize (js "relatorio final")
  /\ tokenize (js "RELAT" ++ [211] ++ js "RIO_Final")
     = [js "relatorio"; js "final"].
Proof.
  split; [now intros s t ->|].
  split; [exact tokenize_space|].
  split; [exact tokenize_lower|].
  split; [intros s t H; now rewrite <- (tokenize_lower s), H, tokenize_lower|].
  split; [exact tokenize_asciiUpper|].
  split; [exact tokenize_stripAccents|].
  split; [intros s t H;
          now rewrite <- (tokenize_stripAccents s), H, tokenize_stripAccents|].
  split; [exact tokenize_unaccent|].
  split; [exact tokenize_underscore|].
  repeat split; vm_compute; reflexivity.
Qed.

Example tokenize_examples :
  tokenize (js "Relat" ++ [243%N] ++ js "rio FINAL")
  = tokenize (js "relatorio_final")
  /\ tokenize (js "RE: Mapas de 2010") = [js "mapas"; js "2010"]
  /\ tokenize (js "") = []
  /\ tokenize
       (js "Dvo" ++ [345; 225] ++ js "k S" ++ [237] ++ js "mbolo_"
        ++ [8490] ++ js "elvin " ++ [304] ++ js "stanbul")
     = [js "dvorak"; js "simbolo"; js "kelvin"; js "istanbul"].
Proof. repeat split; vm_compute; reflexivity. Qed.

(** The platform functions on their own: the final sigma of a word,
    the dotted capital I, the marks of a letter put in canonical
    order, a Hangul syllable taken apart, a letter beyond the Basic
    Multilingual Plane, and a lone surrogate left as it is. *)
Example platform_examples :
  toLowerCase [927; 916; 927; 931; 32; 927; 916; 927; 931; 46]
  = [959; 948; 959; 962; 32; 959; 948; 959; 962; 46]
  /\ toLowerCase ([304] ++ js "STANBUL") = [105; 775] ++ js "stanbul"
  /\ toLowerCase [55297; 56320; 88; 55297] = [55297; 56360; 120; 55297]
  /\ normalizeNFD [7785; 803] = [115; 803; 803; 775]
  /\ normalizeNFD [97; 769; 803] = [97; 803; 769]
  /\ normalizeNFD [54620; 56320] = [4370; 4449; 4523; 56320].
Proof. repeat split; vm_compute; reflexivity. Qed.

End Tokenization.

(** * Further properties of the code *)

(** ** Routing *)

Section RoutingProperties.

Import Routing.

Local Open Scope Z_scope.

Lemma contains_spec (row : Z) (m : RowMapping) :
  contains row m = true <-> start m <= row <= end_ m.
Proof.
  unfold contains. rewrite andb_true_iff, !Z.leb_le. tauto.
Qed.

Lemma ranges_disjoint (row : Z) (m1 m2 : RowMapping) :
  In m1 ROW_MAPPINGS -> In m2 ROW_MAPPINGS ->
  contains row m1 = true -> contains row m2 = true -> m1 = m2.
Proof.
  rewrite !contains_spec. unfold ROW_MAPPINGS. simpl.
  intros H1 H2 C1 C2.
  repeat (destruct H1 as [<-|H1]); try contradiction;
    repeat (destruct H2 as [<-|H2]); try contradiction;
    simpl in C1, C2; try reflexivity; lia.
Qed.

(** X1.  A row is routed to the folder of the range that contains it, and
    to none when no range does; the ranges of the table are pairwise
    disjoint, so the folder does not depend on the order in which the
    table is searched. *)
Theorem target_folder_of_row (row : Z) :
  (forall f,
     getTargetFolderForRow row = Some f
     <-> exists m, In m ROW_MAPPINGS /\ start m <= row <= end_ m
                   /\ folder m = f)
  /\ (getTargetFolderForRow row = None
      <-> forall m, In m ROW_MAPPINGS -> row < start m \/ end_ m < row)
  /\ (forall m1 m2,
        In m1 ROW_MAPPINGS -> In m2 ROW_MAPPINGS ->
        start m1 <= row <= end_ m1 -> start m2 <= row <= end_ m2 ->
        m1 = m2).
Proof.
  unfold getTargetFolderForRow. split; [|split].
  - intros f. split.
    + destruct (List.find _ _) as [m|] eqn:Hfind; [|discriminate].
      intros [= <-]. apply List.find_some in Hfind as [Hin Hc].
      exists m. now rewrite <- contains_spec.
    + intros (m & Hin & Hc & <-). apply contains_spec in Hc.
      destruct (List.find _ _) as [m'|] eqn:Hfind.
      * apply List.find_some in Hfind as [Hin' Hc'].
        now rewrite (ranges_disjoint row m m').
      * now rewrite (List.find_none _ _ Hfind m Hin) in Hc.
  - split.
    + destruct (List.find _ _) as [m|] eqn:Hfind; [discriminate|].
      intros _ m Hin. pose proof (List.find_none _ _ Hfind m Hin) as Hc.
      destruct (Z.lt_ge_cases row (start m)); [now left|].
      destruct (Z.lt_ge_cases (end_ m) row); [now right|].
      assert (contains row m = true) by (apply contains_spec; lia).
      congruence.
    + intros Hout. destruct (List.find _ _) as [m|] eqn:Hfind; [|reflexivity].
      apply List.find_some in Hfind as [Hin Hc]. apply contains_spec in Hc.
      destruct (Hout m Hin); lia.
  - intros m1 m2 H1 H2 C1 C2.
    apply (ranges_disjoint row); try assumption; now apply contains_spec.
Qed.

End RoutingProperties.

(** ** What extraction returns *)

Section ExtractionProperties.

Lemma matchSeq_rep (cls : N -> bool) (lo : nat) (hi : option nat)
  (rest : list atom) (prev : option N) (s : jsstring) (r : list nat) :
  matchSeq (Rep cls lo hi :: rest) prev s = Some r ->
  exists taken s' p' lens,
    s = taken ++ s'
    /\ Forall (fun c => cls c = true) taken
    /\ (lo <= List.length taken)%nat
    /\ withinMax (List.length taken) hi
    /\ matchSeq rest p' s' = Some lens
    /\ r = List.length taken :: lens.
Proof.
  cbn [matchSeq]. intros H.
  apply matchRep_sound in H
    as (taken & s' & p' & lens & -> & Hall & Hlo & Hhi & Hk & ->).
  exists taken, s', p', lens. simpl in *. repeat split; auto.
  apply Hhi. destruct hi; simpl; [lia|exact I].
Qed.

Lemma matchSeq_wordb (rest : list atom) (prev : option N) (s : jsstring)
  (r : list nat) :
  matchSeq (WordB :: rest) prev s = Some r ->
  exists lens, matchSeq rest prev s = Some lens /\ r = 0%nat :: lens.
Proof.
  cbn [matchSeq]. destruct (atWordBoundary prev s); [|discriminate].
  destruct (matchSeq rest prev s) as [lens|]; [|discriminate].
  intros [= <-]. now exists lens.
Qed.

Lemma exactly_one (l : jsstring) :
  (1 <= List.length l)%nat -> withinMax (List.length l) (Some 1%nat) ->
  exists c, l = [c].
Proof.
  destruct l as [|c [|? ?]]; simpl; intros; try lia. now exists c.
Qed.

(** What one alternative of the date pattern has matched. *)
Lemma date_alternative_shape (la lc : nat) (ha hc : nat)
  (prev : option N) (s : jsstring) (lens : list nat) :
  matchSeq
    [ WordB; Rep isDigit la (Some ha); Rep isDateSep 1 (Some 1%nat);
      Rep isDigit 1 (Some 2%nat); Rep isDateSep 1 (Some 1%nat);
      Rep isDigit lc (Some hc); WordB ] prev s = Some lens ->
  exists a b c s1 s2 rest,
    s = (a ++ [s1] ++ b ++ [s2] ++ c) ++ rest
    /\ allDigits a /\ allDigits b /\ allDigits c
    /\ isDateSep s1 = true /\ isDateSep s2 = true
    /\ (la <= List.length a <= ha)%nat
    /\ (1 <= List.length b <= 2)%nat
    /\ (lc <= List.length c <= hc)%nat
    /\ list_sum lens = List.length (a ++ [s1] ++ b ++ [s2] ++ c).
Proof.
  intros H.
  apply matchSeq_wordb in H as (l0 & H & ->).
  apply matchSeq_rep in H as (a & r1 & p1 & l1 & -> & Da & La & Ha & H & ->).
  apply matchSeq_rep in H as (t1 & r2 & p2 & l2 & -> & S1 & L1 & H1 & H & ->).
  apply matchSeq_rep in H as (b & r3 & p3 & l3 & -> & Db & Lb & Hb & H & ->).
  apply matchSeq_rep in H as (t2 & r4 & p4 & l4 & -> & S2 & L2 & H2 & H & ->).
  apply matchSeq_rep in H as (c & r5 & p5 & l5 & -> & Dc & Lc & Hc & H & ->).
  apply matchSeq_wordb in H as (l6 & H & ->).
  cbn [matchSeq] in H. injection H as <-.
  destruct (exactly_one t1 L1 H1) as [s1 ->].
  destruct (exactly_one t2 L2 H2) as [s2 ->].
  inversion S1; subst. inversion S2; subst.
  exists a, b, c, s1, s2, r5. simpl in Ha, Hb, Hc.
  repeat split; auto.
  - now rewrite <- !List.app_assoc.
  - simpl. rewrite !List.length_app. simpl. rewrite !List.length_app.
    simpl. lia.
Qed.

Lemma date_match_shape (prev : option N) (s : jsstring) (lens : list nat) :
  matchAt DATE_REGEX prev s = Some lens ->
  exists d rest,
    s = d ++ rest /\ dateShaped d /\ list_sum lens = List.length d.
Proof.
  unfold DATE_REGEX. cbn [matchAt].
  destruct (matchSeq _ prev s) as [l1|] eqn:H1.
  - intros [= <-]. apply date_alternative_shape in H1
      as (a & b & c & s1 & s2 & rest & -> & Da & Db & Dc & S1 & S2
          & La & Lb & Lc & Hsum).
    exists (a ++ [s1] ++ b ++ [s2] ++ c), rest.
    split; [reflexivity|]. split; [|exact Hsum].
    exists a, b, c, s1, s2. repeat split; auto. left. lia.
  - clear H1.
    destruct (matchSeq _ prev s) as [l2|] eqn:H2; [|discriminate].
    intros [= <-]. apply date_alternative_shape in H2
      as (a & b & c & s1 & s2 & rest & -> & Da & Db & Dc & S1 & S2
          & La & Lb & Lc & Hsum).
    exists (a ++ [s1] ++ b ++ [s2] ++ c), rest.
    split; [reflexivity|]. split; [|exact Hsum].
    exists a, b, c, s1, s2. repeat split; auto. right. lia.
Qed.

(** Every match the loop returns was found by the pattern at some
    position of the input. *)
Lemma execFrom_sound (re : regex) :
  forall s skip prev m,
    In m (execFrom re skip prev s) ->
    (exists p, matchAt re p (m_input m) = Some (m_lens m))
    /\ exists pre, s = pre ++ m_input m.
Proof.
  induction s as [|c t IH]; intros skip prev m Hin; [destruct Hin|].
  assert (Hrec : forall k,
            In m (execFrom re k (Some c) t) ->
            (exists p, matchAt re p (m_input m) = Some (m_lens m))
            /\ exists pre, c :: t = pre ++ m_input m).
  { intros k Hk. destruct (IH _ _ _ Hk) as [Hm [pre ->]].
    split; [exact Hm|]. now exists (c :: pre). }
  simpl in Hin. destruct skip as [|k]; [|now apply (Hrec k)].
  destruct (matchAt re prev (c :: t)) as [lens|] eqn:Hm;
    [|now apply (Hrec 0%nat)].
  destruct Hin as [<-|Hin]; [|now apply (Hrec _ Hin)].
  simpl. split; [now exists prev|]. now exists [].
Qed.

Lemma firstn_app_exact {A} (l r : list A) :
  firstn (List.length l) (l ++ r) = l.
Proof.
  rewrite List.firstn_app, Nat.sub_diag, List.firstn_all. simpl.
  apply List.app_nil_r.
Qed.

Lemma dateShaped_variants (d : jsstring) :
  dateShaped d -> eightDigitVariants d.
Proof.
  intros (a & b & c & s1 & s2 & -> & Da & Db & Dc & S1 & S2 & Hlen).
  assert (P1 : isDatePartSep s1 = true)
    by (unfold isDatePartSep; now rewrite S1).
  assert (P2 : isDatePartSep s2 = true)
    by (unfold isDatePartSep; now rewrite S2).
  pose proof (digits_noSep _ Da) as Na.
  pose proof (digits_noSep _ Db) as Nb.
  pose proof (digits_noSep _ Dc) as Nc.
  unfold eightDigitVariants.
  rewrite (getDatePermutations_three _ a b c)
    by (apply cleanPartsOf_three; auto; apply nonempty_of_length; lia).
  destruct Hlen as [(La & Lb & Lc)|(La & Lb & Lc)].
  - destruct (Nat.eqb_spec (List.length a) 4); [lia|].
    unfold dateVariants. do 3 eexists. split; [reflexivity|].
    rewrite !List.length_app, !padStart2_length, Lc by assumption.
    repeat split; unfold allDigits; rewrite !List.Forall_app;
      repeat split; auto; now apply padStart2_digits.
  - rewrite La. cbn [Nat.eqb].
    unfold dateVariants. do 3 eexists. split; [reflexivity|].
    rewrite !List.length_app, !padStart2_length, La by assumption.
    repeat split; unfold allDigits; rewrite !List.Forall_app;
      repeat split; auto; now apply padStart2_digits.
Qed.

Lemma extracted_dates_in_cell (cell : jsstring) :
  Forall (fun d => substringOf d cell /\ dateShaped d
                   /\ eightDigitVariants d)
    (dates (extractMetadata cell)).
Proof.
  unfold extractMetadata. cbn [dates]. apply List.Forall_forall.
  intros d Hd. apply List.in_map_iff in Hd as (m & <- & Hm).
  apply execFrom_sound in Hm as [[p Hmatch] [pre Hpre]].
  apply date_match_shape in Hmatch as (d & rest & Hin & Hshape & Hsum).
  assert (Hd : matched m = d).
  { unfold matched, matchLength. rewrite Hsum, Hin.
    apply firstn_app_exact. }
  rewrite Hd. split; [|split; [exact Hshape|now apply dateShaped_variants]].
  exists pre, rest. now rewrite Hpre, Hin.
Qed.

Lemma extracted_dates_shaped (cell : jsstring) :
  Forall dateShaped (dates (extractMetadata cell)).
Proof.
  eapply List.Forall_impl; [|apply extracted_dates_in_cell]. now intros d (_ & H & _).
Qed.

(** X2.  Every date the extractor returns occurs in the cell, has one of
    the two numeric layouts, and so never takes the fallback of the
    date permutations: it yields the nine variants, the first two of
    which are eight digits. *)
Theorem extracted_dates_are_dates (cell : jsstring) :
  Forall (fun d => substringOf d cell /\ dateShaped d
                   /\ eightDigitVariants d)
    (dates (extractMetadata cell)).
Proof. exact (extracted_dates_in_cell cell). Qed.

End ExtractionProperties.

Section QueryProperties.

Lemma trimStart_split (s : jsstring) :
  exists ws, s = ws ++ trimStart s /\ Forall (fun c => isSpace c = true) ws.
Proof.
  induction s as [|c s (ws & IH & Hws)]; simpl.
  - now exists [].
  - destruct (isSpace c) eqn:Hc.
    + exists (c :: ws). simpl. split; [now f_equal|now constructor].
    + now exists [].
Qed.

Lemma trimStart_head (s : jsstring) (c : N) (t : jsstring) :
  trimStart s = c :: t -> isSpace c = false.
Proof.
  induction s as [|x s IH]; simpl; [discriminate|].
  destruct (isSpace x) eqn:Hx; [exact IH|]. now intros [= <- _].
Qed.

Lemma trimStart_unspaced (s : jsstring) :
  (forall c t, s = c :: t -> isSpace c = false) -> trimStart s = s.
Proof.
  destruct s as [|c t]; [reflexivity|]. intros H. simpl.
  now rewrite (H c t eq_refl).
Qed.

(** The text is its trimmed part between two runs of white space. *)
Lemma trim_split (s : jsstring) :
  exists ws1 ws2,
    s = ws1 ++ trim s ++ ws2
    /\ Forall (fun c => isSpace c = true) ws1
    /\ Forall (fun c => isSpace c = true) ws2.
Proof.
  unfold trim.
  destruct (trimStart_split s) as (ws1 & H1 & W1).
  destruct (trimStart_split (rev (trimStart s))) as (ws2 & H2 & W2).
  exists ws1, (rev ws2). split; [|split; [exact W1|]].
  - rewrite H1 at 1. f_equal.
    rewrite <- (List.rev_involutive (trimStart s)) at 1.
    rewrite H2 at 1. now rewrite List.rev_app_distr.
  - apply List.Forall_forall. intros c Hc. apply List.in_rev in Hc.
    revert c Hc. now apply List.Forall_forall.
Qed.

Lemma trim_idempotent (s : jsstring) : trim (trim s) = trim s.
Proof.
  unfold trim at 1 2.
  set (t1 := trimStart s). set (u := trimStart (rev t1)).
  assert (Hpre : exists ws, t1 = rev u ++ ws).
  { destruct (trimStart_split (rev t1)) as (ws & H & _). fold u in H.
    exists (rev ws). rewrite <- (List.rev_involutive t1), H.
    apply List.rev_app_distr. }
  destruct Hpre as [ws Hpre].
  assert (Hhead : trimStart (rev u) = rev u).
  { apply trimStart_unspaced. intros c t Hc.
    apply (trimStart_head s c (t ++ ws)). fold t1.
    now rewrite Hpre, Hc. }
  rewrite Hhead, List.rev_involutive.
  assert (Hu : trimStart u = u).
  { apply trimStart_unspaced. intros c t Hc.
    now apply (trimStart_head (rev t1) c t). }
  now rewrite Hu.
Qed.

(** What the quote pattern has matched. *)
Lemma quote_match_shape (prev : option N) (s : jsstring) (lens : list nat) :
  matchAt QUOTE_REGEX prev s = Some lens ->
  exists o body c post,
    s = o :: body ++ c :: post
    /\ lens = [1%nat; List.length body; 1%nat]
    /\ body <> []
    /\ Forall (fun x => isCloseQuote x = false) body.
Proof.
  unfold QUOTE_REGEX. cbn [matchAt].
  destruct (matchSeq _ prev s) as [l|] eqn:H; [|discriminate].
  intros [= <-].
  apply matchSeq_rep in H as (t1 & r1 & p1 & l1 & -> & _ & L1 & H1 & H & ->).
  apply matchSeq_rep in H as (body & r2 & p2 & l2 & -> & Hb & Lb & _ & H & ->).
  apply matchSeq_rep in H as (t3 & r3 & p3 & l3 & -> & _ & L3 & H3 & H & ->).
  cbn [matchSeq] in H. injection H as <-.
  destruct (exactly_one t1 L1 H1) as [o ->].
  destruct (exactly_one t3 L3 H3) as [c ->].
  exists o, body, c, r3. repeat split.
  - destruct body; simpl in *; [lia|discriminate].
  - eapply List.Forall_impl; [|exact Hb]. intros x Hx. simpl in Hx.
    now apply negb_true_iff.
Qed.

(** X3.  Every query the extractor returns is non-empty, carries no white
    space at either end, holds no closing quote and occurs in the
    cell. *)
Theorem extracted_queries_are_clean (cell : jsstring) :
  Forall (cleanQuery cell) (queries (extractMetadata cell)).
Proof.
  unfold extractMetadata. cbn [queries]. apply List.Forall_forall.
  intros q Hq. apply List.in_flat_map in Hq as (m & Hm & Hq).
  apply execFrom_sound in Hm as [[p Hmatch] [pre Hpre]].
  apply quote_match_shape in Hmatch
    as (o & body & c & post & Hin & Hlens & Hne & Hbody).
  assert (Hg : group 1 m = body).
  { unfold group. rewrite Hlens, Hin. simpl. apply firstn_app_exact. }
  unfold quoteOf in Hq. rewrite Hg in Hq.
  destruct ((0 <? List.length body)%nat && (0 <? List.length (trim body))%nat)
    eqn:Hcond; [|destruct Hq].
  destruct Hq as [<-|[]].
  apply andb_true_iff in Hcond as [_ Hlen]. apply Nat.ltb_lt in Hlen.
  destruct (trim_split body) as (ws1 & ws2 & Hsplit & _ & _).
  split; [|split; [|split]].
  - destruct (trim body); simpl in Hlen; [lia|discriminate].
  - apply trim_idempotent.
  - rewrite Hsplit in Hbody.
    apply List.Forall_app in Hbody as [_ Hbody].
    now apply List.Forall_app in Hbody as [Hbody _].
  - exists (pre ++ o :: ws1), (ws2 ++ c :: post).
    rewrite Hpre, Hin. rewrite Hsplit at 1.
    rewrite <- !List.app_assoc. simpl. rewrite <- ?List.app_assoc.
    reflexivity.
Qed.

End QueryProperties.

(** ** What the tokenizer returns *)

Section TokenProperties.

Ltac settle_unit :=
  first [ reflexivity
        | let H := fresh in
          intros H; first [ reflexivity | cbv in H; discriminate H ] ].

Ltac on_bits c :=
  destruct c as [|c]; [settle_unit|];
  do 10 (try destruct c as [c|c|]); settle_unit.

Lemma foldUnit_units (c : N) :
  List.forallb (fun u => isNonWordOrUnderscore u || isLowerAlnum u)
    (foldUnit c) = true.
Proof.
  destruct (N.lt_ge_cases c 65536) as [Hlt|Hge]; [now apply plane_parts|].
  destruct (astral_parts c Hge) as (_ & H & _).
  apply separator_blank in H. unfold blankb in H.
  rewrite List.forallb_forall in *. intros u Hu.
  unfold foldUnit, removeAll in Hu. apply List.filter_In in Hu as [Hu _].
  now rewrite (H u Hu).
Qed.

Lemma foldUnit_alnum (c : N) : isLowerAlnum c = true -> foldUnit c = [c].
Proof.
  intros Hc.
  assert (Hlt : c < 128).
  { unfold isLowerAlnum, isDigit, inRange in Hc.
    apply orb_true_iff in Hc as [Hc|Hc];
      apply andb_true_iff in Hc as [_ Hc]; apply N.leb_le in Hc; lia. }
  destruct (plane_parts c) as (_ & _ & _ & _ & _ & _ & H); [lia|].
  unfold foldUnit, removeAll. rewrite (H Hc). cbn [List.filter].
  unfold isCombiningMark, inRange. destruct (N.leb_spec 768 c); [lia|].
  reflexivity.
Qed.

Lemma alnum_is_word (c : N) :
  isLowerAlnum c = true -> isNonWordOrUnderscore c = false.
Proof. on_bits c. Qed.

Lemma wordsAt_shape (cls : N -> bool) (P : N -> Prop) :
  forall x cur w,
    Forall (fun u => cls u = false -> P u) x -> Forall P cur ->
    In w (wordsAt cls cur x) -> w <> [] /\ Forall P w.
Proof.
  induction x as [|c x IH]; intros cur w Hx Hcur Hw; simpl in Hw.
  - destruct cur; [destruct Hw|]. destruct Hw as [<-|[]].
    split; [discriminate|assumption].
  - inversion Hx as [|? ? Hc Hx']; subst.
    destruct (cls c) eqn:Ec.
    + destruct cur as [|a cur].
      * now apply (IH [] w).
      * destruct Hw as [<-|Hw]; [split; [discriminate|assumption]|].
        now apply (IH [] w).
    + apply (IH (cur ++ [c]) w); auto.
      apply List.Forall_app. split; [assumption|]. constructor; auto.
Qed.

Lemma tokenize_goodTokens (s : jsstring) : Forall goodToken (tokenize s).
Proof.
  rewrite tokenize_words. apply List.Forall_forall. intros t Ht.
  apply List.filter_In in Ht as [Hw Hig].
  apply (wordsAt_shape _ (fun c => isLowerAlnum c = true)) in Hw
    as [Hne Hal].
  - split; [exact Hne|]. split; [exact Hal|].
    unfold notIgnored in Hig. now apply negb_true_iff.
  - apply List.Forall_forall. intros u Hu Hcls.
    apply List.in_flat_map in Hu as (c & _ & Hu).
    pose proof (foldUnit_units c) as Hall.
    rewrite List.forallb_forall in Hall. specialize (Hall u Hu).
    now rewrite Hcls in Hall.
  - constructor.
Qed.

(** X4.  Every token is non-empty, made of lower-case ASCII letters and
    digits only, and is not a stop word. *)
Theorem tokens_are_plain_words (s : jsstring) :
  Forall (fun t => t <> []
                   /\ Forall (fun c => isLowerAlnum c = true) t
                   /\ has IGNORED_TOKENS t = false)
    (tokenize s).
Proof. exact (tokenize_goodTokens s). Qed.

Lemma flat_map_foldUnit_plain (x : jsstring) :
  Forall (fun c => isLowerAlnum c = true \/ c = 32%N) x ->
  List.flat_map foldUnit x = x.
Proof.
  induction 1 as [|c x Hc _ IH]; simpl; [reflexivity|]. rewrite IH.
  destruct Hc as [Hc| ->]; [now rewrite (foldUnit_alnum _ Hc)|reflexivity].
Qed.

Lemma join_plain (ts : list jsstring) :
  Forall goodToken ts ->
  Forall (fun c => isLowerAlnum c = true \/ c = 32%N) (join (js " ") ts).
Proof.
  induction 1 as [|t ts (_ & Ht & _) Hts IH]; simpl; [constructor|].
  assert (Hplain : Forall (fun c => isLowerAlnum c = true \/ c = 32%N) t).
  { eapply List.Forall_impl; [|exact Ht]. now left. }
  destruct ts as [|t' ts]; [exact Hplain|].
  apply List.Forall_app. split; [exact Hplain|].
  constructor; [now right|exact IH].
Qed.

Lemma wordsAt_word (cls : N -> bool) :
  forall x cur,
    Forall (fun c => cls c = false) x -> cur ++ x <> [] ->
    wordsAt cls cur x = [cur ++ x].
Proof.
  induction x as [|c x IH]; intros cur Hx Hne; simpl.
  - rewrite List.app_nil_r in *. destruct cur; [contradiction|reflexivity].
  - inversion Hx as [|? ? Hc Hx']; subst. rewrite Hc.
    rewrite IH; auto.
    + now rewrite <- List.app_assoc.
    + destruct cur; discriminate.
Qed.

Lemma wordsAt_join (ts : list jsstring) :
  Forall goodToken ts ->
  wordsAt isNonWordOrUnderscore [] (join (js " ") ts) = ts.
Proof.
  induction 1 as [|t ts (Hne & Ht & _) Hts IH]; [reflexivity|].
  assert (Hword : wordsAt isNonWordOrUnderscore [] t = [t]).
  { apply (wordsAt_word _ t []); [|exact Hne].
    eapply List.Forall_impl; [|exact Ht]. exact alnum_is_word. }
  destruct ts as [|t' ts]; [exact Hword|].
  change (join (js " ") (t :: t' :: ts))
    with (t ++ 32%N :: join (js " ") (t' :: ts)).
  rewrite wordsAt_separator by reflexivity.
  now rewrite Hword, IH.
Qed.

Lemma filter_all {A} (p : A -> bool) (l : list A) :
  Forall (fun x => p x = true) l -> List.filter p l = l.
Proof.
  induction 1 as [|x l Hx _ IH]; simpl; [reflexivity|].
  now rewrite Hx, IH.
Qed.

(** X5.  Tokenizing is idempotent on its own output: the tokens of a
    string, joined by spaces and tokenized again, are those tokens;
    more generally a list of plain words that are not stop words is the
    token sequence of its space-separated rendering. *)
Theorem tokenize_joined_tokens :
  (forall ts, Forall goodToken ts -> tokenize (join (js " ") ts) = ts)
  /\ (forall s, tokenize (join (js " ") (tokenize s)) = tokenize s).
Proof.
  assert (H : forall ts, Forall goodToken ts ->
                         tokenize (join (js " ") ts) = ts).
  { intros ts Hts. rewrite tokenize_words.
    rewrite (flat_map_foldUnit_plain _ (join_plain _ Hts)).
    rewrite (wordsAt_join _ Hts). apply filter_all.
    eapply List.Forall_impl; [|exact Hts].
    intros t (_ & _ & Hig). unfold notIgnored. now rewrite Hig. }
  split; [exact H|]. intros s. apply H, tokenize_goodTokens.
Qed.

End TokenProperties.

(** ** What the engine returns *)

Section MatchResultProperties.

Local Open Scope float_scope.

Lemma insertSorted_perm (x : Candidate) (l : list Candidate) :
  Permutation (insertSorted x l) (x :: l).
Proof.
  induction l as [|y l IH]; simpl; [reflexivity|].
  destruct (0 <? comparator x y); [|reflexivity].
  rewrite IH. apply perm_swap.
Qed.

Lemma sortCandidates_perm (l : list Candidate) :
  Permutation (sortCandidates l) l.
Proof.
  induction l as [|x l IH]; simpl; [reflexivity|].
  rewrite insertSorted_perm. now constructor.
Qed.

Lemma has_In (l : list jsstring) (x : jsstring) :
  has l x = true <-> In x l.
Proof.
  unfold has. rewrite List.existsb_exists. split.
  - intros (y & Hy & E). apply jsstring_eqb_eq in E. now subst.
  - intros H. exists x. split; [assumption|apply jsstring_eqb_refl].
Qed.

Lemma scoreFile_shared (q : jsstring) (qt terms : list jsstring)
  (f : FileNode) (sc : float) :
  scoreFile q qt terms f = Some sc ->
  exists t, In t qt /\ In t (tokenize (name f)).
Proof.
  unfold scoreFile.
  destruct (List.length (tokenize (name f)) =? 0)%nat; [discriminate|].
  destruct (List.filter (has (tokenize (name f))) qt) as [|t r] eqn:Hf;
    [discriminate|].
  intros _. exists t.
  assert (Hin : In t (List.filter (has (tokenize (name f))) qt))
    by (rewrite Hf; now left).
  apply List.filter_In in Hin as [Hq Hh]. split; [assumption|].
  now apply has_In.
Qed.

Lemma allCandidates_justified queries dates availableFiles (c : Candidate) :
  In c (allCandidates queries dates availableFiles) ->
  justified queries dates availableFiles (file c).
Proof.
  unfold allCandidates. intros Hc.
  apply List.in_flat_map in Hc as (q & Hq & Hc). unfold scoreQuery in Hc.
  destruct (List.length (tokenize q) =? 0)%nat; [destruct Hc|].
  apply List.in_flat_map in Hc as (f & Hf & Hc).
  destruct (scoreFile q (tokenize q) _ f) as [sc|] eqn:Hsc; [|destruct Hc].
  destruct (THRESHOLD <=? sc) eqn:Hth; [|destruct Hc].
  destruct Hc as [<-|[]]. simpl. split; [exact Hf|].
  exists q, sc. repeat split; auto. now apply scoreFile_shared in Hsc.
Qed.

Lemma survivors_from queries dates availableFiles (c : Candidate) :
  In c (survivors queries dates availableFiles) ->
  In c (allCandidates queries dates availableFiles).
Proof.
  unfold survivors. intros Hc.
  apply (Permutation_in _ (sortCandidates_perm _)) in Hc.
  destruct (deduplicate_numbers _ (allCandidates_numbers queries dates
                                     availableFiles)) as (_ & _ & Hfrom & _).
  now apply Hfrom.
Qed.

Lemma survivors_distinct queries dates availableFiles :
  List.NoDup (List.map keyOf (survivors queries dates availableFiles)).
Proof.
  unfold survivors.
  destruct (deduplicate_numbers _ (allCandidates_numbers queries dates
                                     availableFiles)) as (Hnd & _).
  eapply Permutation_NoDup; [|exact Hnd].
  apply Permutation_map. symmetry. apply sortCandidates_perm.
Qed.

Lemma NoDup_firstn {A} (n : nat) (l : list A) :
  List.NoDup l -> List.NoDup (firstn n l).
Proof.
  intros H. rewrite <- (List.firstn_skipn n l) in H.
  now apply List.NoDup_app_remove_r in H.
Qed.

(** X6.  Ranking only reorders: the survivors are the deduplicated pairs,
    each exactly once, so the classifier sees every kept pair and no
    other; and each survivor is one of the pairs that passed the
    threshold. *)
Theorem survivors_are_the_kept_pairs queries dates availableFiles :
  Permutation (survivors queries dates availableFiles)
    (deduplicate (allCandidates queries dates availableFiles))
  /\ List.NoDup (List.map keyOf (survivors queries dates availableFiles))
  /\ Forall (fun c => (THRESHOLD <=? score c) = true
                      /\ In c (allCandidates queries dates availableFiles))
       (survivors queries dates availableFiles).
Proof.
  split; [apply sortCandidates_perm|]. split; [apply survivors_distinct|].
  apply List.Forall_forall. intros c Hc.
  apply survivors_from in Hc. split; [|exact Hc].
  unfold allCandidates in Hc.
  apply List.in_flat_map in Hc as (q & _ & Hc). unfold scoreQuery in Hc.
  destruct (List.length (tokenize q) =? 0)%nat; [destruct Hc|].
  apply List.in_flat_map in Hc as (f & _ & Hc).
  destruct (scoreFile _ _ _ f) as [sc|]; [|destruct Hc].
  destruct (THRESHOLD <=? sc) eqn:Hth; [|destruct Hc].
  now destruct Hc as [<-|[]].
Qed.

End MatchResultProperties.

Section MatchResultShape.

Local Open Scope float_scope.

Lemma firstn_length_between {A} (a b : A) (l : list A) :
  (2 <= List.length (firstn 5 (a :: b :: l)) <= 5)%nat.
Proof.
  rewrite List.length_firstn. cbn [List.length]. lia.
Qed.

Lemma classify_cases (sorted : list Candidate) :
  (sorted = [] /\ classify sorted = notFound)
  \/ (exists best rest,
        sorted = best :: rest /\ classify sorted = found (file best))
  \/ (exists best runnerUp more,
        sorted = best :: runnerUp :: more
        /\ classify sorted
           = ambiguous (List.map file (firstn 5 sorted))).
Proof.
  destruct sorted as [|best rest]; [now left|]. right.
  unfold classify.
  destruct ((1.2 <? score best) || _) eqn:Hwin.
  - left. now exists best, rest.
  - right. destruct rest as [|runnerUp more].
    + simpl in Hwin. now rewrite orb_true_r in Hwin.
    + now exists best, runnerUp, more.
Qed.

Lemma findBestMatch_shape queries dates availableFiles :
  let r := findBestMatch queries dates availableFiles in
  (status r = NO_QUERY <-> queries = [])
  /\ match status r with
     | FOUND =>
         (exists f, resultFile r = Some f) /\ resultCandidates r = None
     | AMBIGUOUS =>
         resultFile r = None
         /\ exists l,
              resultCandidates r = Some l
              /\ (2 <= List.length l <= 5)%nat
              /\ List.NoDup (List.map path l)
     | NOT_FOUND | NO_QUERY =>
         resultFile r = None /\ resultCandidates r = None
     end.
Proof.
  intros r. subst r. unfold findBestMatch.
  destruct queries as [|q queries]; [simpl; tauto|].
  cbn [List.length Nat.eqb].
  pose proof (survivors_distinct (q :: queries) dates availableFiles) as Hnd.
  destruct (classify_cases (survivors (q :: queries) dates availableFiles))
    as [[_ ->]|[(best & rest & _ & ->)|(best & r2 & more & Hs & ->)]];
    cbn [status resultFile resultCandidates found ambiguous notFound].
  - split; [split; discriminate|tauto].
  - split; [split; discriminate|]. split; [now exists (file best)|reflexivity].
  - split; [split; discriminate|]. split; [reflexivity|].
    eexists. split; [reflexivity|]. rewrite List.length_map. split.
    + rewrite Hs. apply firstn_length_between.
    + rewrite List.map_map. change (fun x => path (file x)) with keyOf.
      rewrite <- List.firstn_map. now apply NoDup_firstn.
Qed.

(** X7.  The result always has the shape its status announces: NO_QUERY
    exactly on an empty query list; a matched file with FOUND and only
    then; candidates with AMBIGUOUS and only then, between two and
    five of them, with pairwise distinct paths. *)
Theorem match_result_shape queries dates availableFiles :
  let r := findBestMatch queries dates availableFiles in
  (status r = NO_QUERY <-> queries = [])
  /\ match status r with
     | FOUND =>
         (exists f, resultFile r = Some f) /\ resultCandidates r = None
     | AMBIGUOUS =>
         resultFile r = None
         /\ exists l,
              resultCandidates r = Some l
              /\ (2 <= List.length l <= 5)%nat
              /\ List.NoDup (List.map path l)
     | NOT_FOUND | NO_QUERY =>
         resultFile r = None /\ resultCandidates r = None
     end.
Proof. exact (findBestMatch_shape queries dates availableFiles). Qed.

Lemma firstn_In {A} (n : nat) (l : list A) (x : A) :
  In x (firstn n l) -> In x l.
Proof.
  intros H. rewrite <- (List.firstn_skipn n l). apply List.in_or_app.
  now left.
Qed.

Lemma findBestMatch_justified queries dates availableFiles :
  Forall (justified queries dates availableFiles)
    (returnedFiles (findBestMatch queries dates availableFiles)).
Proof.
  unfold findBestMatch.
  destruct (List.length queries =? 0)%nat; [constructor|].
  assert (Hj : forall c, In c (survivors queries dates availableFiles) ->
                 justified queries dates availableFiles (file c)).
  { intros c Hc. now apply allCandidates_justified, survivors_from. }
  destruct (classify_cases (survivors queries dates availableFiles))
    as [[_ ->]|[(best & rest & Hs & ->)|(best & r2 & more & Hs & ->)]];
    unfold returnedFiles;
    cbn [resultFile resultCandidates found ambiguous notFound default app].
  - constructor.
  - constructor; [|constructor]. apply Hj. rewrite Hs. now left.
  - apply List.Forall_forall. intros f Hf.
    apply List.in_map_iff in Hf as (c & <- & Hc).
    apply Hj. now apply firstn_In in Hc.
Qed.

(** X8.  No file is handed back without cause: the matched file and every
    candidate is one of the files searched, reached the threshold
    against one of the queries, and shares a token with that query, so
    a date, an extension or a contained sequence alone never proposes a
    file. *)
Theorem returned_files_are_justified queries dates availableFiles :
  Forall (justified queries dates availableFiles)
    (returnedFiles (findBestMatch queries dates availableFiles)).
Proof. exact (findBestMatch_justified queries dates availableFiles). Qed.

(** X9.  With no file to search -- a folder that was not supplied -- every
    row that has a query is NOT_FOUND. *)
Theorem empty_folder_not_found (q : jsstring) (queries dates : list jsstring) :
  findBestMatch (q :: queries) dates [] = notFound.
Proof.
  unfold findBestMatch. cbn [List.length Nat.eqb].
  assert (Hall : allCandidates (q :: queries) dates [] = []).
  { unfold allCandidates. generalize (q :: queries). intros l.
    induction l as [|x l IH]; simpl; [reflexivity|]. rewrite IH.
    unfold scoreQuery. now destruct (List.length (tokenize x) =? 0)%nat. }
  unfold survivors. now rewrite Hall.
Qed.

End MatchResultShape.

(** ** The date boost *)

Section DateBoostProperties.

Lemma digitsOf_digits (p : jsstring) : allDigits p -> digitsOf p = p.
Proof. apply filter_all. Qed.

Lemma digitsOf_app (a b : jsstring) :
  digitsOf (a ++ b) = digitsOf a ++ digitsOf b.
Proof. apply List.filter_app. Qed.

Lemma dateMatch_variants (day month year : jsstring) (f : FileNode) :
  allDigits day -> allDigits month -> allDigits year ->
  List.length (day ++ month ++ year) = 8%nat ->
  dateMatch (dateVariants day month year) f
  = includes (digitsOf (name f)) (day ++ month ++ year)
    || includes (digitsOf (name f)) (year ++ month ++ day).
Proof.
  intros Dd Dm Dy Hlen.
  assert (Hlen' : List.length (year ++ month ++ day) = 8%nat)
    by (rewrite !List.length_app in *; lia).
  unfold dateMatch, dateVariants. fold (digitsOf (name f)).
  cbn [List.existsb].
  repeat match goal with
         | |- context [List.filter isDigit ?x] => fold (digitsOf x)
         end.
  rewrite !digitsOf_app, !(digitsOf_digits _ Dd), !(digitsOf_digits _ Dm),
    !(digitsOf_digits _ Dy).
  change (digitsOf (js "-")) with (@nil N).
  change (digitsOf (js "_")) with (@nil N).
  change (digitsOf (js ".")) with (@nil N).
  change (digitsOf (js " ")) with (@nil N).
  cbn [app]. rewrite Hlen, Hlen'. cbn [Nat.leb].
  destruct (includes (digitsOf (name f)) (day ++ month ++ year)),
           (includes (digitsOf (name f)) (year ++ month ++ day));
    reflexivity.
Qed.

Lemma dateShaped_two_tests (d : jsstring) : dateShaped d -> twoDigitTests d.
Proof.
  intros (a & b & c & s1 & s2 & -> & Da & Db & Dc & S1 & S2 & Hlen).
  assert (P1 : isDatePartSep s1 = true)
    by (unfold isDatePartSep; now rewrite S1).
  assert (P2 : isDatePartSep s2 = true)
    by (unfold isDatePartSep; now rewrite S2).
  pose proof (digits_noSep _ Da) as Na.
  pose proof (digits_noSep _ Db) as Nb.
  pose proof (digits_noSep _ Dc) as Nc.
  unfold twoDigitTests.
  rewrite (getDatePermutations_three _ a b c)
    by (apply cleanPartsOf_three; auto; apply nonempty_of_length; lia).
  destruct Hlen as [(La & Lb & Lc)|(La & Lb & Lc)].
  - destruct (Nat.eqb_spec (List.length a) 4); [lia|].
    assert (H8 : List.length (padStart2 a ++ padStart2 b ++ c) = 8%nat)
      by (rewrite !List.length_app, !padStart2_length, Lc by assumption;
          reflexivity).
    do 3 eexists. split; [reflexivity|]. split; [exact H8|].
    split; [rewrite !List.length_app in *; lia|].
    intros f. apply dateMatch_variants; auto using padStart2_digits.
  - rewrite La. cbn [Nat.eqb].
    assert (H8 : List.length (padStart2 c ++ padStart2 b ++ a) = 8%nat)
      by (rewrite !List.length_app, !padStart2_length, La by assumption;
          reflexivity).
    do 3 eexists. split; [reflexivity|]. split; [exact H8|].
    split; [rewrite !List.length_app in *; lia|].
    intros f. apply dateMatch_variants; auto using padStart2_digits.
Qed.

Lemma existsb_flat_map {A B} (p : B -> bool) (g : A -> list B) (l : list A) :
  List.existsb p (List.flat_map g l)
  = List.existsb (fun a => List.existsb p (g a)) l.
Proof.
  induction l as [|a l IH]; simpl; [reflexivity|].
  now rewrite List.existsb_app, IH.
Qed.

(** X10.  For the dates a cell yields, the date boost is decided by two
    tests per date: the digits of the file name contain the eight
    digits of the date day-first, or year-first.  The seven separated
    variants add nothing, and a row's boost is the disjunction over its
    dates. *)
Theorem date_boost_is_two_tests (cell : jsstring) :
  Forall twoDigitTests (dates (extractMetadata cell))
  /\ forall f,
       dateMatch
         (List.flat_map getDatePermutations (dates (extractMetadata cell))) f
       = List.existsb (fun d => dateMatch (getDatePermutations d) f)
           (dates (extractMetadata cell)).
Proof.
  split.
  - eapply List.Forall_impl; [|apply extracted_dates_shaped].
    intros d. apply dateShaped_two_tests.
  - intros f. unfold dateMatch at 1. apply existsb_flat_map.
Qed.

End DateBoostProperties.

(** ** Upload *)

Section UploadProperties.

Import Session.

Lemma jsMapGet_set_same {V} (k : jsstring) (v : V) (m : JsMap V) :
  jsMapGet k (jsMapSet k v m) = Some v.
Proof.
  induction m as [|[k' v'] r IH]; simpl.
  - now rewrite jsstring_eqb_refl.
  - destruct (jsstring_eqb k' k) eqn:E; simpl.
    + now rewrite jsstring_eqb_refl.
    + now rewrite E.
Qed.

Lemma jsMapGet_set_other {V} (k k' : jsstring) (v : V) (m : JsMap V) :
  k' <> k -> jsMapGet k' (jsMapSet k v m) = jsMapGet k' m.
Proof.
  intros Hne. induction m as [|[k0 v0] r IH]; simpl.
  - unfold jsstring_eqb. destruct (decide (k = k')); congruence.
  - destruct (jsstring_eqb k0 k) eqn:E; simpl.
    + apply jsstring_eqb_eq in E. subst k0.
      unfold jsstring_eqb. destruct (decide (k = k')); congruence.
    + destruct (jsstring_eqb k0 k'); auto.
Qed.

Lemma allFiles_set (k : jsstring) (n : FileNode)
  (m : JsMap (list FileNode)) :
  List.length (allFiles (jsMapSet k (folderOf k m ++ [n]) m))
  = S (List.length (allFiles m)).
Proof.
  unfold allFiles, folderOf. induction m as [|[k0 v0] r IH]; simpl.
  - reflexivity.
  - destruct (jsstring_eqb k0 k) eqn:E; simpl.
    + rewrite !List.length_app. simpl. lia.
    + rewrite !List.length_app, IH. lia.
Qed.

Lemma uploadStep_folder (key : jsstring) (u : Upload) (f : BrowserFile) :
  folderOf key (fileMap (uploadStep u f))
  = folderOf key (fileMap u) ++ (if inFolder key f then [nodeOf f] else []).
Proof.
  unfold uploadStep, inFolder, folderOf.
  destruct (pontoFolderOf f) as [k|]; cbn [fileMap].
  - destruct (jsstring_eqb k key) eqn:E.
    + apply jsstring_eqb_eq in E. subst k.
      now rewrite jsMapGet_set_same.
    + rewrite jsMapGet_set_other, List.app_nil_r; [reflexivity|].
      intros ->. now rewrite jsstring_eqb_refl in E.
  - now rewrite List.app_nil_r.
Qed.

Lemma upload_fold_folder (key : jsstring) (files : list BrowserFile) :
  forall u,
    folderOf key (fileMap (List.fold_left uploadStep files u))
    = folderOf key (fileMap u)
      ++ List.map nodeOf (List.filter (inFolder key) files).
Proof.
  induction files as [|f files IH]; intros u; simpl.
  - now rewrite List.app_nil_r.
  - rewrite IH, uploadStep_folder, <- List.app_assoc.
    now destruct (inFolder key f).
Qed.

Lemma upload_fold_count (files : list BrowserFile) :
  forall u,
    folderFileCount u = List.length (allFiles (fileMap u)) ->
    let u' := List.fold_left uploadStep files u in
    folderFileCount u' = List.length (allFiles (fileMap u'))
    /\ folderFileCount u'
       = (folderFileCount u + List.length (List.filter hasFolder files))%nat.
Proof.
  induction files as [|f files IH]; intros u Hu; simpl.
  - split; [exact Hu|lia].
  - assert (Hstep : folderFileCount (uploadStep u f)
                    = List.length (allFiles (fileMap (uploadStep u f)))
                    /\ folderFileCount (uploadStep u f)
                       = (folderFileCount u
                          + if hasFolder f then 1 else 0)%nat).
    { unfold uploadStep, hasFolder.
      destruct (pontoFolderOf f) as [k|]; cbn [fileMap folderFileCount].
      - fold (folderOf k (fileMap u)). rewrite allFiles_set. lia.
      - lia. }
    destruct Hstep as [H1 H2].
    destruct (IH _ H1) as [H3 H4]. cbv zeta in *.
    split; [exact H3|]. rewrite H4, H2.
    destruct (hasFolder f); simpl; lia.
Qed.

Lemma find_app_first {A} (p : A -> bool) (l1 l2 : list A) :
  List.find p (l1 ++ l2)
  = match List.find p l1 with
    | Some x => Some x
    | None => List.find p l2
    end.
Proof.
  induction l1 as [|x l1 IH]; simpl; [reflexivity|].
  now destruct (p x).
Qed.

Lemma upload_fold_paths (files : list BrowserFile) :
  forall u p,
    allFilesMap (List.fold_left uploadStep files u) !! p
    = match List.find (fun f => jsstring_eqb (webkitRelativePath f) p)
              (rev files) with
      | Some f => Some (handleOf f)
      | None => allFilesMap u !! p
      end.
Proof.
  induction files as [|f files IH]; intros u p; simpl; [reflexivity|].
  rewrite IH, find_app_first.
  destruct (List.find _ (rev files)); [reflexivity|].
  assert (Hstep : allFilesMap (uploadStep u f)
                  = <[webkitRelativePath f := handleOf f]> (allFilesMap u)).
  { unfold uploadStep. now destruct (pontoFolderOf f). }
  rewrite Hstep. simpl.
  destruct (jsstring_eqb (webkitRelativePath f) p) eqn:E.
  - apply jsstring_eqb_eq in E. subst p. now rewrite lookup_insert_eq.
  - rewrite lookup_insert_ne; [reflexivity|].
    intros Heq. now rewrite Heq, jsstring_eqb_refl in E.
Qed.

(** X11.  Grouping an upload: the files a folder label offers to the
    matcher are exactly the uploaded files whose first ponto segment is
    that label, in upload order, each with its name, path, date and
    handle; the count shown is the number of such files, which is the
    size of the global search list; and the path map used for
    reconciliation files every uploaded path, inside a ponto folder or
    not, under the handle of the last file uploaded with that path. *)
Theorem upload_groups_by_folder (files : list BrowserFile) :
  let u := groupFiles files in
  (forall key,
     folderOf key (fileMap u)
     = List.map nodeOf (List.filter (inFolder key) files))
  /\ folderFileCount u = List.length (List.filter hasFolder files)
  /\ folderFileCount u = List.length (allFiles (fileMap u))
  /\ (forall p,
        allFilesMap u !! p
        = option_map handleOf
            (List.find (fun f => jsstring_eqb (webkitRelativePath f) p)
               (rev files))).
Proof.
  intros u. subst u. unfold groupFiles.
  set (u0 := {| fileMap := []; allFilesMap := ∅; folderFileCount := 0 |}).
  split; [|split; [|split]].
  - intros key. now rewrite upload_fold_folder.
  - now destruct (upload_fold_count files u0 eq_refl) as [_ ->].
  - now destruct (upload_fold_count files u0 eq_refl) as [-> _].
  - intros p. rewrite upload_fold_paths.
    destruct (List.find _ _); [reflexivity|]. apply lookup_empty.
Qed.

End UploadProperties.

(** ** Reconciliation across uploads and reloads *)

Section ReconciliationComposition.

Import App.

Lemma rehydrate_union (m1 m2 : gmap jsstring File) (n : FileNode) :
  rehydrate m2 (rehydrate m1 n) = rehydrate (m1 ∪ m2) n.
Proof.
  unfold rehydrate. destruct (fileObject n) eqn:Hobj; [now rewrite Hobj|].
  destruct (m1 !! path n) as [f|] eqn:H1.
  - simpl. now rewrite (lookup_union_Some_l m1 m2 _ _ H1).
  - rewrite Hobj, (lookup_union_r m1 m2 _ H1). reflexivity.
Qed.

Lemma rehydrate_empty (n : FileNode) : rehydrate ∅ n = n.
Proof.
  unfold rehydrate. destruct (fileObject n); [reflexivity|].
  now rewrite lookup_empty.
Qed.

Lemma State_eq (a b : State) :
  results a = results b -> heap a = heap b -> step a = step b -> a = b.
Proof. destruct a, b. simpl. now intros -> -> ->. Qed.

(** X12.  Reconciling against one upload and then another is reconciling
    once against both, the first upload winning where they share a
    path; and reconciling against no file changes nothing in the
    store. *)
Theorem reconcile_in_stages (m1 m2 : gmap jsstring File) (st : State) :
  reconcileFiles m2 (reconcileFiles m1 st) = reconcileFiles (m1 ∪ m2) st
  /\ heap (reconcileFiles ∅ st) = heap st.
Proof.
  split.
  - apply State_eq.
    + reflexivity.
    + apply map_eq. intros r. rewrite !reconcileFiles_lookup.
      cbn [results reconcileFiles].
      destruct (decide (r ∈ allRefs (results st))); [|reflexivity].
      destruct (heap st !! r) as [n|]; simpl; [|reflexivity].
      now rewrite rehydrate_union.
    + cbn [step reconcileFiles results].
      now destruct (0 <? List.length (results st))%nat.
  - apply map_eq. intros r. rewrite reconcileFiles_lookup.
    destruct (decide _); [|reflexivity].
    destruct (heap st !! r) as [n|]; simpl; [|reflexivity].
    now rewrite rehydrate_empty.
Qed.

(** X13.  When the mapping has the path of every referenced node that lacks
    a handle, reconciliation leaves no referenced node without one. *)
Theorem reconcile_attaches_all (fileSource : gmap jsstring File) (st : State) :
  (forall r n,
     r ∈ allRefs (results st) -> heap st !! r = Some n ->
     fileObject n = None -> is_Some (fileSource !! path n)) ->
  allAttached (reconcileFiles fileSource st).
Proof.
  intros Hcover r n' Hr. cbn [results reconcileFiles] in Hr.
  rewrite reconcileFiles_lookup. destruct (decide _); [|contradiction].
  destruct (heap st !! r) as [n|] eqn:Hn; simpl; [|discriminate].
  intros [= <-]. unfold rehydrate.
  destruct (fileObject n) as [f|] eqn:Hobj; [now exists f|].
  destruct (Hcover r n Hr Hn Hobj) as [f Hf]. rewrite Hf. now exists f.
Qed.

Lemma reconcile_attaches_all_witness :
  (forall r n,
     r ∈ allRefs (results sharedSession) ->
     heap sharedSession !! r = Some n ->
     fileObject n = None -> is_Some (freshFiles !! path n))
  /\ allAttached (reconcileFiles freshFiles sharedSession).
Proof.
  assert (Hcover : forall r n,
            r ∈ allRefs (results sharedSession) ->
            heap sharedSession !! r = Some n ->
            fileObject n = None -> is_Some (freshFiles !! path n)).
  { intros r n Hr Hn Hobj. cbn in Hr.
    apply elem_of_cons in Hr as [->|Hr];
      [|apply elem_of_cons in Hr as [->|Hr];
        [|apply elem_of_cons in Hr as [->|Hr];
          [|apply elem_of_cons in Hr as [->|Hr];
            [|now apply elem_of_nil in Hr]]]];
      vm_compute in Hn; injection Hn as <-;
      first [ discriminate Hobj | vm_compute; eauto ]. }
  split; [exact Hcover|].
  exact (reconcile_attaches_all freshFiles sharedSession Hcover).
Defined.

End ReconciliationComposition.

(** ** Saving and loading a project *)

Section SavedSession.

Import App.

Local Open Scope positive_scope.




















(** The shared session: the ambiguous row that has a manual resolution
    comes back FOUND, its four places hold four nodes, and a new upload
    gives each the handle of the file now at its path. *)
Example reload_example :
  List.map matchStatus (view sharedSession) = [AMBIGUOUS]
  /\ List.map matchStatus (view (reloaded sharedSession)) = [FOUND]
  /\ allRefs (results sharedSession) = [1; 1; 1; 2]%positive
  /\ allRefs (results (reloaded sharedSession)) = [1; 4; 2; 3]%positive
  /\ List.map nodesOf
       (view (reconcileFiles freshFiles (reloaded sharedSession)))
     = [ [setFileObject 5%N sharedNode; setFileObject 5%N sharedNode;
          setFileObject 5%N sharedNode; setFileObject 9%N attachedNode] ].
Proof. repeat split; vm_compute; reflexivity. Qed.

End SavedSession.

Section UploadReconciliation.

Import App Session.

Lemma allFilesMap_lookup (files : list BrowserFile) (p : jsstring) :
  allFilesMap (groupFiles files) !! p
  = option_map handleOf
      (List.find (fun f => jsstring_eqb (webkitRelativePath f) p) (rev files)).
Proof.
  unfold groupFiles. rewrite upload_fold_paths.
  destruct (List.find _ _); [reflexivity|]. apply lookup_empty.
Qed.

(** X15.  Uploading a folder into a fresh session leaves the session as it
    is.  Uploading it after a project was loaded re-attaches: a node a
    row refers to, that has no handle and whose path is the relative
    path of an uploaded file, gets the handle of an uploaded file with
    that path and is otherwise unchanged -- whether or not the file
    lies in a ponto folder. *)
Theorem upload_reattaches_loaded_project (files : list BrowserFile) :
  (forall st, snd (handleFolderUpload files false st) = st)
  /\ (forall st r n,
        (0 < List.length (results st))%nat ->
        r ∈ allRefs (results st) ->
        heap st !! r = Some n -> fileObject n = None ->
        (exists f, In f files /\ webkitRelativePath f = path n) ->
        exists f,
          In f files /\ webkitRelativePath f = path n
          /\ heap (snd (handleFolderUpload files true st)) !! r
             = Some (setFileObject (handleOf f) n)).
Proof.
  split; [reflexivity|].
  intros st r n Hlen Hr Hn Hobj (f0 & Hin0 & Hpath0).
  unfold handleFolderUpload. cbn [snd andb].
  apply Nat.ltb_lt in Hlen. rewrite Hlen.
  rewrite reconcileFiles_lookup, Hn.
  destruct (decide _); [|contradiction]. simpl.
  unfold rehydrate. rewrite Hobj, allFilesMap_lookup.
  destruct (List.find _ (rev files)) as [f|] eqn:Hfind.
  - apply List.find_some in Hfind as [Hin Hp].
    apply jsstring_eqb_eq in Hp. apply List.in_rev in Hin.
    exists f. now repeat split.
  - exfalso. pose proof (List.find_none _ _ Hfind f0) as Hnone.
    rewrite <- List.in_rev in Hnone. specialize (Hnone Hin0).
    now rewrite Hpath0, jsstring_eqb_refl in Hnone.
Qed.

End UploadReconciliation.

(** ** Analysis of the sheet *)

Section AnalysisProperties.

Import Excel Session.

Local Open Scope Z_scope.

Lemma routed_folder_named (row : Z) (f : jsstring) :
  Routing.getTargetFolderForRow row = Some f ->
  (0 <? List.length f)%nat = true.
Proof.
  unfold Routing.getTargetFolderForRow.
  destruct (List.find _ _) as [m|] eqn:Hfind; [|discriminate].
  intros [= <-]. apply List.find_some in Hfind as [Hin _].
  unfold Routing.ROW_MAPPINGS in Hin. simpl in Hin.
  repeat (destruct Hin as [<-|Hin]; [reflexivity|]). destruct Hin.
Qed.

Lemma returned_in_pool queries dates availableFiles :
  Forall (fun f => In f availableFiles)
    (returnedFiles (findBestMatch queries dates availableFiles)).
Proof.
  eapply List.Forall_impl; [|apply findBestMatch_justified].
  now intros f [H _].
Qed.

(** The record of one row, when there is one. *)
Lemma analyseRow_record (m : JsMap (list FileNode)) (i : nat) (row : Row)
  (res : AnalysisResult FileNode) :
  In res (analyseRow m i row) ->
  rowId res = Z.of_nat i + 1
  /\ exists folderName,
       arrayGet Blank 2 row = Text (originalContent res)
       /\ Routing.getTargetFolderForRow (rowId res) = Some folderName
       /\ targetFolder res = Some folderName
       /\ extractedQueries res
          = queries (extractMetadata (originalContent res))
       /\ extractedDates res = dates (extractMetadata (originalContent res))
       /\ manualResolutions res = None /\ isIgnored res = None
       /\ (matchStatus res = NO_QUERY <-> extractedQueries res = [])
       /\ match matchStatus res with
          | FOUND =>
              candidates res = None
              /\ exists f, matchedFile res = Some f
                           /\ In f (folderOf folderName m)
          | AMBIGUOUS =>
              matchedFile res = None
              /\ exists l, candidates res = Some l
                           /\ (2 <= List.length l <= 5)%nat
                           /\ Forall (fun f => In f (folderOf folderName m)) l
          | NOT_FOUND | NO_QUERY =>
              matchedFile res = None /\ candidates res = None
          end.
Proof.
  unfold analyseRow.
  destruct (Routing.getTargetFolderForRow (Z.of_nat i + 1))
    as [folderName|] eqn:Hroute; [|intros []].
  destruct (arrayGet Blank 2 row) as [|content| |] eqn:Hcell;
    try (intros []).
  rewrite (routed_folder_named _ _ Hroute).
  set (md := extractMetadata content).
  set (r := findBestMatch (queries md) (dates md)
              (default [] (jsMapGet folderName m))).
  destruct (0 <? List.length (queries md))%nat eqn:Hq.
  - intros [<-|[]].
    cbn [rowId originalContent targetFolder extractedQueries extractedDates
         matchStatus matchedFile candidates manualResolutions isIgnored].
    split; [reflexivity|]. exists folderName.
    pose proof (findBestMatch_shape (queries md) (dates md)
                  (folderOf folderName m)) as [Hnq Hshape].
    pose proof (returned_in_pool (queries md) (dates md)
                  (folderOf folderName m)) as Hpool.
    cbv zeta in Hnq, Hshape.
    change (findBestMatch (queries md) (dates md) (folderOf folderName m))
      with r in Hnq, Hshape, Hpool.
    repeat (split; [reflexivity || assumption|]).
    unfold returnedFiles in Hpool.
    destruct (status r).
    + destruct Hshape as [[f Hf] Hc]. split; [exact Hc|].
      exists f. split; [exact Hf|].
      rewrite Hf, Hc in Hpool. simpl in Hpool. now inversion Hpool.
    + exact Hshape.
    + destruct Hshape as [Hf (l & Hl & Hlen & _)]. split; [exact Hf|].
      exists l. split; [exact Hl|]. split; [exact Hlen|].
      now rewrite Hf, Hl in Hpool.
    + exact Hshape.
  - intros [<-|[]].
    cbn [rowId originalContent targetFolder extractedQueries extractedDates
         matchStatus matchedFile candidates manualResolutions isIgnored].
    split; [reflexivity|].
    assert (Hnone : [] = queries (extractMetadata content)).
    { fold md. destruct (queries md); [reflexivity|discriminate]. }
    exists folderName.
    repeat (split; [reflexivity || assumption|]).
    split; [tauto|]. split; reflexivity.
Qed.

(** A routed row whose column C is a string has its record. *)
Lemma analyseRow_complete (m : JsMap (list FileNode)) (i : nat) (row : Row)
  (content folderName : jsstring) :
  arrayGet Blank 2 row = Text content ->
  Routing.getTargetFolderForRow (Z.of_nat i + 1) = Some folderName ->
  exists res, analyseRow m i row = [res] /\ rowId res = Z.of_nat i + 1.
Proof.
  intros Hcell Hroute. unfold analyseRow.
  rewrite Hroute, Hcell, (routed_folder_named _ _ Hroute).
  destruct (0 <? List.length _)%nat; eexists; split; reflexivity.
Qed.

Lemma analyseFrom_records (m : JsMap (list FileNode)) :
  forall data i res,
    In res (analyseFrom m i data) ->
    exists k row,
      nth_error data k = Some row
      /\ In res (analyseRow m (i + k) row).
Proof.
  induction data as [|row data IH]; intros i res Hin; [destruct Hin|].
  simpl in Hin. apply List.in_app_or in Hin as [Hin|Hin].
  - exists 0%nat, row. now rewrite Nat.add_0_r.
  - destruct (IH _ _ Hin) as (k & row' & Hk & Hr).
    exists (S k), row'. split; [exact Hk|].
    now replace (i + S k)%nat with (S i + k)%nat by lia.
Qed.

Lemma analyseFrom_rowIds (m : JsMap (list FileNode)) :
  forall data i,
    StronglySorted Z.lt (List.map rowId (analyseFrom m i data))
    /\ Forall (fun z => Z.of_nat i < z) (List.map rowId (analyseFrom m i data)).
Proof.
  induction data as [|row data IH]; intros i; simpl.
  - split; constructor.
  - destruct (IH (S i)) as [Hs Hlo]. rewrite List.map_app.
    assert (Hrow : analyseRow m i row = []
                   \/ exists res, analyseRow m i row = [res]
                                  /\ rowId res = Z.of_nat i + 1).
    { destruct (analyseRow m i row) as [|res l] eqn:E; [now left|].
      right. exists res.
      assert (Hid : rowId res = Z.of_nat i + 1)
        by (apply (analyseRow_record m i row); rewrite E; now left).
      split; [|exact Hid]. f_equal.
      unfold analyseRow in E.
      destruct (Routing.getTargetFolderForRow _); [|discriminate].
      destruct (arrayGet Blank 2 row); try discriminate.
      destruct (0 <? _)%nat; [|discriminate].
      destruct (0 <? _)%nat; now injection E. }
    assert (Hlo' : Forall (fun z => Z.of_nat i < z)
                     (List.map rowId (analyseFrom m (S i) data))).
    { eapply List.Forall_impl; [|exact Hlo]. intros z Hz. cbv beta in Hz.
      rewrite Nat2Z.inj_succ in Hz. lia. }
    destruct Hrow as [->|(res & -> & Hid)]; cbn [List.map app].
    + now split.
    + split.
      * constructor; [exact Hs|]. rewrite Hid.
        eapply List.Forall_impl; [|exact Hlo]. intros z Hz. cbv beta in Hz.
        rewrite Nat2Z.inj_succ in Hz. lia.
      * constructor; [lia|exact Hlo'].
Qed.

Lemma analyseFrom_complete (m : JsMap (list FileNode)) :
  forall data i k row res,
    nth_error data k = Some row ->
    In res (analyseRow m (i + k) row) ->
    In res (analyseFrom m i data).
Proof.
  induction data as [|row0 data IH]; intros i [|k] row res Hk Hin;
    try discriminate; cbn [analyseFrom]; apply List.in_or_app.
  - injection Hk as ->. left. now rewrite Nat.add_0_r in Hin.
  - right. apply (IH (S i) k row); [exact Hk|].
    now replace (S i + k)%nat with (i + S k)%nat by lia.
Qed.

Lemma processExcel_analysed (m : JsMap (list FileNode)) (data : list Row) :
  Forall (analysed m data) (processExcel data m).
Proof.
  apply List.Forall_forall. intros res Hin.
  apply analyseFrom_records in Hin as (k & row & Hk & Hin).
  cbn [Nat.add] in Hin.
  apply analyseRow_record in Hin as (Hid & folderName & Hrest).
  assert (Hlt : (k < List.length data)%nat)
    by (apply List.nth_error_Some; congruence).
  exists row, folderName. split; [lia|]. split; [|exact Hrest].
  unfold rowIndexOf. rewrite Hid.
  now replace (Z.to_nat (Z.of_nat k + 1 - 1)) with k by lia.
Qed.

(** X16.  The analysis of a sheet: every record stems from the row of
    the sheet its number names, a row the routing table sends to a
    folder and whose column C holds a string; it carries the queries
    and dates extracted from that cell, no manual edit, and files of
    that folder only.  The records come in increasing row order, and
    every routed row with a string in column C has its record. *)
Theorem analysis_records (m : JsMap (list FileNode)) (data : list Row) :
  Forall (analysed m data) (processExcel data m)
  /\ StronglySorted Z.lt (List.map rowId (processExcel data m))
  /\ forall i row content folderName,
       nth_error data i = Some row ->
       arrayGet Blank 2 row = Text content ->
       Routing.getTargetFolderForRow (Z.of_nat i + 1) = Some folderName ->
       exists res,
         In res (processExcel data m)
         /\ rowId res = Z.of_nat i + 1 /\ originalContent res = content.
Proof.
  split; [apply processExcel_analysed|].
  split; [apply analyseFrom_rowIds|].
  intros i row content folderName Hi Hcell Hroute.
  destruct (analyseRow_complete m i row content folderName Hcell Hroute)
    as (res & Hrow & Hid).
  exists res.
  assert (Hin : In res (analyseRow m i row)) by (rewrite Hrow; now left).
  split; [|split; [exact Hid|]].
  - now apply (analyseFrom_complete m data 0%nat i row).
  - apply analyseRow_record in Hin as (_ & f & Hc & _).
    rewrite Hcell in Hc. now injection Hc.
Qed.

Lemma handleUpdateResult_rowIds (u : AnalysisResult FileNode) :
  forall prev,
    List.map rowId (handleUpdateResult u prev) = List.map rowId prev.
Proof.
  intros prev. unfold handleUpdateResult. rewrite List.map_map.
  apply List.map_ext. intros r.
  destruct (Z.eqb_spec (rowId r) (rowId u)); congruence.
Qed.

Lemma edited_rowIds :
  forall edits results,
    List.map rowId (edited edits results) = List.map rowId results.
Proof.
  induction edits as [|u edits IH]; intros results; [reflexivity|].
  unfold edited in *. cbn [List.fold_left].
  now rewrite IH, handleUpdateResult_rowIds.
Qed.

Lemma rowIndexOf_distinct :
  forall ids : list Z,
    StronglySorted Z.lt ids -> Forall (fun z => 1 <= z) ids ->
    List.NoDup (List.map (fun z => Z.to_nat (z - 1)) ids).
Proof.
  induction 1 as [|a l Hs IH Hlt]; intros Hpos; [constructor|].
  inversion Hpos as [|? ? Ha Hl]; subst. cbn [List.map]. constructor.
  - intros Hin. apply List.in_map_iff in Hin as (z & Heq & Hz).
    pose proof (proj1 (List.Forall_forall _ _) Hlt z Hz) as Haz.
    pose proof (proj1 (List.Forall_forall _ _) Hl z Hz) as H1z.
    cbv beta in *. lia.
  - now apply IH.
Qed.

Lemma processExcel_rowIds_positive (m : JsMap (list FileNode))
  (data : list Row) :
  Forall (fun z => 1 <= z) (List.map rowId (processExcel data m)).
Proof.
  apply List.Forall_map.
  eapply List.Forall_impl; [|apply processExcel_analysed].
  intros res (row & f & Hid & _). cbv beta. lia.
Qed.

(** X17.  Analysis, edits and export together: whatever records are
    handed to the update handler after the analysis, the rows of the
    result list stay those of the analysis, and the export then lets
    each record decide column D of its own row and leaves every other
    cell of the sheet as it was. *)
Theorem export_of_edited_analysis (m : JsMap (list FileNode))
  (data : list Row) (edits : list (AnalysisResult FileNode)) :
  let results := edited edits (processExcel data m) in
  List.map rowId results = List.map rowId (processExcel data m)
  /\ (forall res, In res results ->
        cellAt (generateExcelData data results) (rowIndexOf res) 3
        = default (cellAt (List.map Some data) (rowIndexOf res) 3)
            (written res))
  /\ (forall r c,
        c <> 3%nat \/ ~ In r (List.map rowIndexOf results) ->
        cellAt (generateExcelData data results) r c
        = cellAt (List.map Some data) r c).
Proof.
  intros results.
  assert (Hids : List.map rowId results
                 = List.map rowId (processExcel data m))
    by apply edited_rowIds.
  split; [exact Hids|].
  assert (Hpos : Forall (fun res => 1 <= rowId res) results).
  { apply List.Forall_map. rewrite Hids.
    apply processExcel_rowIds_positive. }
  assert (Hnd : List.NoDup (List.map rowIndexOf results)).
  { unfold rowIndexOf.
    rewrite <- (List.map_map rowId (fun z => Z.to_nat (z - 1))), Hids.
    apply rowIndexOf_distinct;
      [apply analyseFrom_rowIds|apply processExcel_rowIds_positive]. }
  unfold generateExcelData.
  exact (writeResults_cells results _ Hpos Hnd).
Qed.

(** X18.  Edits go by row number: a later edit of a row replaces an
    earlier one, edits of different rows can be made in either order,
    an edit of a row that is not in the list changes nothing, and no
    edit adds, removes or renumbers a row. *)
Theorem edits_go_by_row (u1 u2 : AnalysisResult FileNode)
  (prev : list (AnalysisResult FileNode)) :
  List.map rowId (handleUpdateResult u1 prev) = List.map rowId prev
  /\ (rowId u1 = rowId u2 ->
      handleUpdateResult u2 (handleUpdateResult u1 prev)
      = handleUpdateResult u2 prev)
  /\ (rowId u1 <> rowId u2 ->
      handleUpdateResult u2 (handleUpdateResult u1 prev)
      = handleUpdateResult u1 (handleUpdateResult u2 prev))
  /\ (~ In (rowId u1) (List.map rowId prev) ->
      handleUpdateResult u1 prev = prev).
Proof.
  split; [apply handleUpdateResult_rowIds|].
  unfold handleUpdateResult. repeat split.
  - intros Heq. rewrite List.map_map. apply List.map_ext. intros r.
    destruct (Z.eqb_spec (rowId r) (rowId u1)).
    all: repeat match goal with
           | |- context [Z.eqb ?a ?b] => destruct (Z.eqb_spec a b)
           end; congruence.
  - intros Hne. rewrite !List.map_map. apply List.map_ext. intros r.
    destruct (Z.eqb_spec (rowId r) (rowId u1)),
             (Z.eqb_spec (rowId r) (rowId u2)).
    all: repeat match goal with
           | |- context [Z.eqb ?a ?b] => destruct (Z.eqb_spec a b)
           end; congruence.
  - intros Hnot. rewrite <- (List.map_id prev) at 2.
    apply List.map_ext_in. intros r Hin.
    destruct (Z.eqb_spec (rowId r) (rowId u1)) as [E|E]; [|reflexivity].
    exfalso. apply Hnot. rewrite <- E. now apply List.in_map.
Qed.

(** X19.  The answer of the oracle is checked against the candidates
    of the row: the handler either leaves the results as they are or
    hands the update handler the record of the row resolved to the
    first candidate that bears exactly the name answered, with status
    FOUND.  An answer that names no candidate changes nothing. *)
Theorem ai_answer_is_checked (answer : option jsstring)
  (result : AnalysisResult FileNode)
  (results : list (AnalysisResult FileNode)) :
  (handleResolveAI answer result results = results
   \/ exists matched before rest,
        candidates result = Some (before ++ matched :: rest)
        /\ answer = Some (name matched)
        /\ Forall (fun c => name c <> name matched) before
        /\ handleResolveAI answer result results
           = handleUpdateResult (resolvedWith matched result) results
        /\ matchStatus (resolvedWith matched result) = FOUND
        /\ finalFilesOf (resolvedWith matched result) = [matched])
  /\ ((forall l c, candidates result = Some l -> In c l ->
                   answer <> Some (name c)) ->
      handleResolveAI answer result results = results).
Proof.
  assert (Hfind : forall (p : FileNode -> bool) l x,
            List.find p l = Some x ->
            exists before rest,
              l = before ++ x :: rest /\ p x = true
              /\ Forall (fun c => p c = false) before).
  { intros p. induction l as [|a l IH]; intros x Hx; [discriminate|].
    cbn [List.find] in Hx. destruct (p a) eqn:Ha.
    - injection Hx as <-. exists [], l. repeat split; [exact Ha|constructor].
    - destruct (IH x Hx) as (before & rest & -> & Hp & Hb).
      exists (a :: before), rest. repeat split; [exact Hp|].
      now constructor. }
  unfold handleResolveAI.
  destruct (App.absentOrEmpty (candidates result)) eqn:Habs;
    [split; [now left|reflexivity]|].
  destruct answer as [bestFileName|]; [|split; [now left|reflexivity]].
  destruct (0 <? List.length bestFileName)%nat;
    [|split; [now left|reflexivity]].
  destruct (candidates result) as [l|] eqn:Hc;
    [|split; [now left|reflexivity]].
  change (default [] (Some l)) with l.
  destruct (List.find (fun c => jsstring_eqb (name c) bestFileName) l)
    as [matched|] eqn:Hf; [|split; [now left|reflexivity]].
  destruct (Hfind _ _ _ Hf) as (before & rest & Hl & Hname & Hb).
  apply jsstring_eqb_eq in Hname. subst bestFileName. split.
  - right. exists matched, before, rest. rewrite Hl.
    repeat split; try reflexivity.
    eapply List.Forall_impl; [|exact Hb].
    intros c Hcn Heq. cbv beta in Hcn.
    apply jsstring_eqb_eq in Heq. congruence.
  - intros Hno. exfalso. apply (Hno l matched eq_refl); [|reflexivity].
    rewrite Hl. apply List.in_elt.
Qed.

End AnalysisProperties.

(** ** The loaded project *)

Section MigrationProperties.

Import App Excel.

Lemma migrateResult_idempotent (r : StoredResult) :
  migrateResult (migrateResult r) = migrateResult r.
Proof.
  destruct r as [a legacy]. destruct a as [? ? ? ? ? ? ? ? picked ?].
  destruct legacy as [legacy|]; destruct picked as [[|x l]|]; reflexivity.
Qed.

(** X20.  Loading is idempotent: a project that went through the
    migration once is left as it is by a second one. *)
Theorem migration_idempotent (jsonResults : list StoredResult) :
  migratedResults (migratedResults jsonResults) = migratedResults jsonResults.
Proof.
  unfold migratedResults. rewrite List.map_map.
  apply List.map_ext. intros r. apply migrateResult_idempotent.
Qed.

(** X21.  A record saved with a single manual resolution is, once
    loaded, a FOUND row, and the export writes a hyperlink for it: to
    the first file of its list when it also has a non-empty list,
    otherwise to the file of the single resolution. *)
Theorem legacy_resolution_is_exported (r : StoredResult)
  (legacy : FileNode) :
  manualResolution r = Some legacy ->
  matchStatus (fields (migrateResult r)) = FOUND
  /\ written (fields (migrateResult r))
     = match manualResolutions (fields r) with
       | Some (first :: rest) => Some (linkCell (first :: rest) first)
       | _ => Some (linkCell [legacy] legacy)
       end.
Proof.
  destruct r as [a old]. cbn [manualResolution fields]. intros ->.
  destruct a as [? ? ? ? ? ? ? ? picked ?].
  destruct picked as [[|x l]|]; split; reflexivity.
Qed.

Lemma legacy_resolution_is_exported_witness :
  matchStatus
    (fields (migrateResult
               {| fields := ignoredAmbiguous;
                  manualResolution := Some (sampleNode "a.pdf") |})) = FOUND
  /\ written
       (fields (migrateResult
                  {| fields := ignoredAmbiguous;
                     manualResolution := Some (sampleNode "a.pdf") |}))
     = Some (linkCell [sampleNode "a.pdf"] (sampleNode "a.pdf")).
Proof.
  exact (legacy_resolution_is_exported
           {| fields := ignoredAmbiguous;
              manualResolution := Some (sampleNode "a.pdf") |}
           (sampleNode "a.pdf") eq_refl).
Defined.

End MigrationProperties.

(** ** The results table *)

Section TableProperties.

Import Excel Table.

Local Open Scope nat_scope.

Lemma filter_length_split {A} (p : A -> bool) (l : list A) :
  List.length (List.filter p l)
  + List.length (List.filter (fun x => negb (p x)) l)
  = List.length l.
Proof.
  induction l as [|x l IH]; [reflexivity|].
  cbn [List.filter]. destruct (p x); cbn [negb List.length]; lia.
Qed.

Lemma countWhere_ext (p q : AnalysisResult FileNode -> bool)
  (l : list (AnalysisResult FileNode)) :
  (forall r, In r l -> p r = q r) -> countWhere p l = countWhere q l.
Proof.
  intros H. unfold countWhere. f_equal. now apply List.filter_ext_in.
Qed.

Lemma validResults_status (results : list (AnalysisResult FileNode))
  (r : AnalysisResult FileNode) :
  In r (validResults results) -> matchStatus r <> NO_QUERY.
Proof.
  unfold validResults. intros Hin. apply List.filter_In in Hin as [_ H].
  now destruct (matchStatus r).
Qed.

Lemma active_counts (l : list (AnalysisResult FileNode)) :
  (forall r, In r l -> matchStatus r <> NO_QUERY) ->
  countWhere (fun r => negb (isTrue (isIgnored r))) l
  = countWhere (fun r => MatchStatus_eqb (matchStatus r) FOUND
                         && negb (isTrue (isIgnored r))) l
    + countWhere (fun r => MatchStatus_eqb (matchStatus r) AMBIGUOUS
                           && negb (isTrue (isIgnored r))) l
    + countWhere (fun r => MatchStatus_eqb (matchStatus r) NOT_FOUND
                           && negb (isTrue (isIgnored r))) l.
Proof.
  unfold countWhere. induction l as [|r l IH]; intros Hv; [reflexivity|].
  assert (Hr : matchStatus r <> NO_QUERY) by (apply Hv; now left).
  assert (Hl : forall r', In r' l -> matchStatus r' <> NO_QUERY)
    by (intros r' Hr'; apply Hv; now right).
  specialize (IH Hl). cbn [List.filter].
  destruct (isTrue (isIgnored r)), (matchStatus r);
    cbn [negb andb MatchStatus_eqb List.length]; try lia; contradiction.
Qed.

(** X22.  The counters of the tabs agree with the rows the tabs list:
    each counter is the number of rows its filter shows, the rows of
    the three status tabs add up to those of the tab of all rows, every
    row with a query is under that tab or under the ignored ones, and
    the failures copied to the clipboard are the rows counted as not
    found. *)
Theorem tab_counts_agree (results : list (AnalysisResult FileNode)) :
  let c := counts results in
  countALL c = List.length (filteredResults ALL results)
  /\ countFOUND c = List.length (filteredResults OnlyFOUND results)
  /\ countAMBIGUOUS c = List.length (filteredResults OnlyAMBIGUOUS results)
  /\ countNOT_FOUND c = List.length (filteredResults OnlyNOT_FOUND results)
  /\ countIGNORED c = List.length (filteredResults IGNORED results)
  /\ countALL c = (countFOUND c + countAMBIGUOUS c + countNOT_FOUND c)%nat
  /\ (countALL c + countIGNORED c)%nat = List.length (validResults results)
  /\ countNOT_FOUND c = List.length (failures results).
Proof.
  cbv zeta. unfold counts, filteredResults, failures.
  cbn [countALL countFOUND countAMBIGUOUS countNOT_FOUND countIGNORED].
  assert (Hshown : forall f s,
            (forall st, statusIs f st = MatchStatus_eqb st s) ->
            countWhere (fun r => MatchStatus_eqb (matchStatus r) s
                                 && negb (isTrue (isIgnored r)))
              (validResults results)
            = List.length (List.filter (shown f) (validResults results))).
  { intros f s Hf. apply countWhere_ext. intros r _. unfold shown.
    rewrite <- Hf.
    destruct f;
      try (exfalso; specialize (Hf s); destruct s; discriminate Hf).
    all: destruct (isTrue (isIgnored r)), (matchStatus r); reflexivity. }
  split; [reflexivity|].
  split; [apply Hshown; now intros []|].
  split; [apply Hshown; now intros []|].
  split; [apply Hshown; now intros []|].
  split; [reflexivity|].
  split; [apply active_counts, validResults_status|].
  split; [|reflexivity].
  unfold countWhere. rewrite Nat.add_comm. apply filter_length_split.
Qed.

(** X23.  Ignoring a row twice brings it back as far as the table and
    the export can tell: it is listed under the same tabs and writes
    the same cell; the record itself differs when the flag was unset.
    Ignoring changes what the export writes for one kind of row only,
    the rows not found that have no file. *)
Theorem toggle_ignore_twice (r : AnalysisResult FileNode) :
  (forall f, shown f (toggleIgnore (toggleIgnore r)) = shown f r)
  /\ written (toggleIgnore (toggleIgnore r)) = written r
  /\ (isIgnored r = None -> toggleIgnore (toggleIgnore r) <> r)
  /\ shown IGNORED (toggleIgnore r) = negb (shown IGNORED r)
  /\ (written (toggleIgnore r) <> written r ->
      matchStatus r = NOT_FOUND /\ finalFilesOf r = []).
Proof.
  destruct r as [id content folder qs ds st file cands picked ign].
  split; [|split; [|split; [|split]]].
  - intros f. destruct f, ign as [[|]|], st; reflexivity.
  - unfold written, finalFilesOf, toggleIgnore.
    cbn [manualResolutions matchedFile matchStatus isIgnored candidates].
    destruct picked as [[|x l]|], file as [g|], st, ign as [[|]|];
      reflexivity.
  - cbn [isIgnored]. intros ->. discriminate.
  - destruct ign as [[|]|]; reflexivity.
  - unfold written, finalFilesOf, toggleIgnore.
    cbn [manualResolutions matchedFile matchStatus isIgnored candidates].
    destruct picked as [[|x l]|], file as [g|], st; intros H;
      try (now contradiction H); now split.
Qed.

(** X24.  Picking files never validates a row, validating does: after
    a change of the selection the row is listed under the tabs it was
    under, and the export links the picked files when there are any;
    after the validation the row is under the tab of the found rows,
    not ignored, and the export writes a hyperlink when the row has a
    file and nothing at all, not even the failure text, when it has
    none. *)
Theorem validation_decides_the_tab (r : AnalysisResult FileNode)
  (files : list FileNode) :
  (forall f, shown f (handleSelectionUpdate r files) = shown f r)
  /\ (forall first rest, files = first :: rest ->
        written (handleSelectionUpdate r files)
        = Some (linkCell files first))
  /\ (forall f, shown f (confirmMatch r)
                = match f with ALL | OnlyFOUND => true | _ => false end)
  /\ written (confirmMatch r)
     = match finalFilesOf r with
       | first :: _ => Some (linkCell (finalFilesOf r) first)
       | [] => None
       end.
Proof.
  destruct r as [id content folder qs ds st file cands picked ign].
  split; [|split; [|split]].
  - intros f. destruct f, ign as [[|]|], st; reflexivity.
  - intros first rest ->. reflexivity.
  - intros f. now destruct f.
  - unfold written, finalFilesOf, confirmMatch.
    cbn [manualResolutions matchedFile matchStatus isIgnored candidates].
    destruct picked as [[|x l]|], file as [g|]; reflexivity.
Qed.

Lemma existsb_path (p : jsstring) (l : list FileNode) :
  List.existsb (fun s => jsstring_eqb (path s) p) l = true
  <-> In p (List.map path l).
Proof.
  rewrite List.existsb_exists, List.in_map_iff.
  split; intros (x & H1 & H2); exists x.
  - apply jsstring_eqb_eq in H2. now split.
  - split; [exact H2|]. now apply jsstring_eqb_eq.
Qed.

Lemma handleRemoveFile_absent (p : jsstring) (l : list FileNode) :
  ~ In p (List.map path l) -> handleRemoveFile l p = l.
Proof.
  unfold handleRemoveFile. induction l as [|x l IH]; intros Hn;
    [reflexivity|].
  cbn [List.filter]. destruct (jsstring_eqb (path x) p) eqn:E.
  - apply jsstring_eqb_eq in E. exfalso. apply Hn. now left.
  - cbn [negb]. f_equal. apply IH. intros Hin. apply Hn. now right.
Qed.

(** X25.  The selection of a row holds no path twice: from a selection
    with distinct paths, adding a file gives one again and is refused
    exactly when the path is selected already, removing a path leaves
    no file with that path, and removing the file just added gives the
    selection back. *)
Theorem selection_paths_stay_distinct (currentSelections : list FileNode)
  (f : FileNode) (p : jsstring) :
  List.NoDup (List.map path currentSelections) ->
  (handleAddFile currentSelections f = None
   <-> In (path f) (List.map path currentSelections))
  /\ (forall l, handleAddFile currentSelections f = Some l ->
        l = currentSelections ++ [f]
        /\ List.NoDup (List.map path l)
        /\ handleRemoveFile l (path f) = currentSelections)
  /\ List.NoDup (List.map path (handleRemoveFile currentSelections p))
  /\ ~ In p (List.map path (handleRemoveFile currentSelections p)).
Proof.
  intros Hnd. unfold handleAddFile.
  pose proof (existsb_path (path f) currentSelections) as Hex.
  destruct (List.existsb _ currentSelections) eqn:E.
  - split; [split; [intros _; now apply Hex|reflexivity]|].
    split; [discriminate|].
    split.
    + unfold handleRemoveFile. clear -Hnd.
      induction currentSelections as [|x l IH]; [constructor|].
      cbn [List.map] in Hnd. apply List.NoDup_cons_iff in Hnd as [Hx Hl].
      cbn [List.filter]. destruct (negb _); [|now apply IH].
      cbn [List.map]. constructor; [|now apply IH].
      intros Hin. apply Hx. apply List.in_map_iff in Hin as (y & Hy & Hin).
      apply List.filter_In in Hin as [Hin _].
      apply List.in_map_iff. now exists y.
    + intros Hin. apply List.in_map_iff in Hin as (y & Hy & Hin).
      apply List.filter_In in Hin as [_ Hneq].
      rewrite <- Hy, jsstring_eqb_refl in Hneq. discriminate.
  - assert (Hnot : ~ In (path f) (List.map path currentSelections)).
    { intros Hin. apply Hex in Hin. discriminate. }
    split; [split; [discriminate|contradiction]|].
    split.
    + intros l [= <-]. split; [reflexivity|]. split.
      * rewrite List.map_app. cbn [List.map].
        apply List.NoDup_app; [exact Hnd|repeat constructor; intros []|].
        intros x Hx [<-|[]]. contradiction.
      * unfold handleRemoveFile. rewrite List.filter_app.
        cbn [List.filter]. rewrite jsstring_eqb_refl. cbn [negb].
        rewrite List.app_nil_r. now apply handleRemoveFile_absent.
    + split.
      * unfold handleRemoveFile. clear -Hnd.
        induction currentSelections as [|x l IH]; [constructor|].
        cbn [List.map] in Hnd. apply List.NoDup_cons_iff in Hnd as [Hx Hl].
        cbn [List.filter]. destruct (negb _); [|now apply IH].
        cbn [List.map]. constructor; [|now apply IH].
        intros Hin. apply Hx. apply List.in_map_iff in Hin as (y & Hy & Hin).
        apply List.filter_In in Hin as [Hin _].
        apply List.in_map_iff. now exists y.
      * intros Hin. apply List.in_map_iff in Hin as (y & Hy & Hin).
        apply List.filter_In in Hin as [_ Hneq].
        rewrite <- Hy, jsstring_eqb_refl in Hneq. discriminate.
Qed.

Lemma selection_paths_stay_distinct_witness :
  (handleAddFile [sampleNode "a.pdf"] (sampleNode "b.pdf") = None
   <-> In (path (sampleNode "b.pdf"))
         (List.map path [sampleNode "a.pdf"]))
  /\ (forall l, handleAddFile [sampleNode "a.pdf"] (sampleNode "b.pdf")
                = Some l ->
        l = [sampleNode "a.pdf"] ++ [sampleNode "b.pdf"]
        /\ List.NoDup (List.map path l)
        /\ handleRemoveFile l (path (sampleNode "b.pdf"))
           = [sampleNode "a.pdf"])
  /\ List.NoDup
       (List.map path
          (handleRemoveFile [sampleNode "a.pdf"] (path (sampleNode "a.pdf"))))
  /\ ~ In (path (sampleNode "a.pdf"))
         (List.map path
            (handleRemoveFile [sampleNode "a.pdf"]
               (path (sampleNode "a.pdf")))).
Proof.
  apply (selection_paths_stay_distinct [sampleNode "a.pdf"]
           (sampleNode "b.pdf") (path (sampleNode "a.pdf"))).
  repeat constructor. intros [].
Defined.

End TableProperties.

(** ** The prompt of the oracle *)

Section PromptProperties.

Import Gemini.

(** X26.  The cell content that goes between the double quotes of the
    prompt holds no double quote and no line feed, whatever the cell;
    it has the length of the cell, a content free of both is passed as
    it is, and the result is stable. *)
Theorem sanitize_closes_the_quote (str : jsstring) :
  Forall (fun c => c <> 34 /\ c <> 10) (sanitize str)
  /\ List.length (sanitize str) = List.length str
  /\ sanitize (sanitize str) = sanitize str
  /\ (Forall (fun c => c <> 34 /\ c <> 10) str -> sanitize str = str).
Proof.
  assert (Hclean : forall s, Forall (fun c => c <> 34 /\ c <> 10) s ->
                             sanitize s = s).
  { unfold sanitize. induction 1 as [|c s [H1 H2] _ IH]; [reflexivity|].
    cbn [List.map]. rewrite IH.
    destruct (N.eqb_spec c 34); [contradiction|].
    destruct (N.eqb_spec c 10); [contradiction|]. reflexivity. }
  assert (Hout : Forall (fun c => c <> 34 /\ c <> 10) (sanitize str)).
  { unfold sanitize. induction str as [|c s IH]; [constructor|].
    cbn [List.map]. constructor; [|exact IH].
    destruct (N.eqb_spec c 34) as [->|H1]; [split; discriminate|].
    destruct (N.eqb_spec c 10) as [->|H2]; [split; discriminate|].
    now split. }
  split; [exact Hout|].
  split; [unfold sanitize; now rewrite !List.length_map|].
  split; [now apply Hclean|apply Hclean].
Qed.

End PromptProperties.
